(** * Nueva AI bridge: protocol translation, engine client, supervisor
      and dispatchers, embedded from the Python sources.

    - [Protocol]   : src/python/nueva_ai_bridge/protocol.py
    - [Client], [ClientProbes]
                   : src/python/nueva_ai_bridge/acestep_client.py
    - [Supervisor] : src/python/nueva_ai_bridge/process_manager.py
    - [Server]     : src/python/nueva_ai_bridge/server.py
    - [Bridge]     : src/python/nueva/bridge.py

    Python [float] is IEEE-754 binary64, which is what Rocq's primitive
    floats are, so float fields of requests are [PrimFloat.float] and the
    arithmetic on them is the machine arithmetic.  Clock readings
    ([time.time()], the event loop's [time()]) are taken as exact rational
    numbers of seconds.  Dictionaries are finite maps; none of the code
    below depends on the insertion order of a dictionary. *)

From Stdlib Require Import ZArith QArith Qround Lqa Floats Ascii String List.
From stdpp Require Import base option list gmap strings pretty.

Local Open Scope Z_scope.
Local Open Scope string_scope.

(** ** Python values, truthiness and exceptions *)

Module Py.

(** A value of type [Any]: what a JSON document or a keyword-argument
    dictionary can hold. *)
#[warnings="-register-all"]
Inductive value :=
| None_
| Bool (b : bool)
| Int (n : Z)
| Float (x : float)
| Str (s : string)
| List_ (l : list value)
| Dict (d : gmap string value).

(** [bool(x)] for a float: zero of either sign is false, everything
    else, NaN included, is true. *)
Definition truthy_float (x : float) : bool := negb (PrimFloat.eqb x 0%float).

Definition truthy_str (s : string) : bool :=
  match s with EmptyString => false | String _ _ => true end.

Definition truthy_list {A} (l : list A) : bool :=
  match l with [] => false | _ :: _ => true end.

(** [bool(v)] *)
Definition truthy (v : value) : bool :=
  match v with
  | None_ => false
  | Bool b => b
  | Int n => negb (Z.eqb n 0)
  | Float x => truthy_float x
  | Str s => truthy_str s
  | List_ l => truthy_list l
  | Dict d => negb (bool_decide (size d = 0%nat))
  end.

(** [bool(o)] for an [Optional[...]] field. *)
Definition truthy_opt {A} (t : A -> bool) (o : option A) : bool :=
  match o with Some a => t a | None => false end.

(** [str(o)] inside an f-string, for an [Optional[str]]. *)
Definition fmt_opt_str (o : option string) : string :=
  match o with Some s => s | None => "None" end.

(** [a or b] on [Optional[str]] operands. *)
Definition or_opt_str (a b : option string) : option string :=
  if truthy_opt truthy_str a then a else b.

(** [c.lower()] for an ASCII character: the letters A to Z. *)
Definition lower_ascii (c : ascii) : ascii :=
  let n := nat_of_ascii c in
  if ((65 <=? n)%nat && (n <=? 90)%nat)%bool then ascii_of_nat (n + 32) else c.

Fixpoint lower_letters (s : string) : string :=
  match s with
  | EmptyString => EmptyString
  | String c s' => String (lower_ascii c) (lower_letters s')
  end.

Definition is_ascii (s : string) : bool :=
  forallb (fun c => (nat_of_ascii c <? 128)%nat) (list_ascii_of_string s).

(** [s.lower()].  A string of ASCII characters is lowered letter by
    letter.  What a string with other characters becomes depends on the
    Unicode tables of the interpreter (the Kelvin sign U+212A becomes
    [k], the dotted capital U+0130 becomes [i] and a combining dot); it
    is taken from the runtime, as [unicode_lower]. *)
Definition lower (unicode_lower : string -> string) (s : string) : string :=
  if is_ascii s then lower_letters s else unicode_lower s.

(** Well-formed UTF-8: what [b.decode()] accepts. *)
Definition byte_in (lo hi : nat) (c : ascii) : bool :=
  let n := nat_of_ascii c in ((lo <=? n)%nat && (n <=? hi)%nat)%bool.

Definition continuation : ascii -> bool := byte_in 128 191.

(** The first two bytes of a three-byte and of a four-byte sequence:
    no overlong form, no surrogate, nothing above U+10FFFF. *)
Definition three_bytes (b0 b1 : ascii) : bool :=
  ((byte_in 224 224 b0 && byte_in 160 191 b1)
   || (byte_in 225 236 b0 && continuation b1)
   || (byte_in 237 237 b0 && byte_in 128 159 b1)
   || (byte_in 238 239 b0 && continuation b1))%bool.

Definition four_bytes (b0 b1 : ascii) : bool :=
  ((byte_in 240 240 b0 && byte_in 144 191 b1)
   || (byte_in 241 243 b0 && continuation b1)
   || (byte_in 244 244 b0 && byte_in 128 143 b1))%bool.

Fixpoint utf8 (b : string) : bool :=
  match b with
  | EmptyString => true
  | String b0 s0 =>
      if byte_in 0 127 b0 then utf8 s0
      else
        match s0 with
        | EmptyString => false
        | String b1 s1 =>
            if byte_in 194 223 b0 then (continuation b1 && utf8 s1)%bool
            else
              match s1 with
              | EmptyString => false
              | String b2 s2 =>
                  if three_bytes b0 b1 then (continuation b2 && utf8 s2)%bool
                  else
                    match s2 with
                    | EmptyString => false
                    | String b3 s3 =>
                        (four_bytes b0 b1 && continuation b2 && continuation b3
                         && utf8 s3)%bool
                    end
              end
        end
  end.

(** [needle in hay] on strings. *)
Fixpoint contains (needle hay : string) : bool :=
  if String.prefix needle hay then true
  else match hay with
       | EmptyString => false
       | String _ hay' => contains needle hay'
       end.

(** [str(n)] for an integer. *)
Definition str_int (n : Z) : string := pretty n.

(** [int(x)] for a number of seconds or milliseconds: truncation
    towards zero. *)
Definition int_of (x : Q) : Z :=
  if Qle_bool 0 x then Qfloor x else Qceiling x.

(** Exceptions deriving from [Exception], with the text [str(e)] gives.
    The two httpx classes the client names are kept apart from the rest.
    Signals that derive from [BaseException] only (task cancellation,
    keyboard interrupt) are not failures of an operation and are not
    represented. *)
Inductive exn :=
| TimeoutException (msg : string)
| ConnectError (msg : string)
| OtherException (msg : string).

Definition str_exn (e : exn) : string :=
  match e with
  | TimeoutException m | ConnectError m | OtherException m => m
  end.

(** Outcome of a call that may raise. *)
Inductive exc (A : Type) :=
| Ok (a : A)
| Raise (e : exn).
Arguments Ok {A} a.
Arguments Raise {A} e.

Definition bind {A B} (m : exc A) (k : A -> exc B) : exc B :=
  match m with Ok a => k a | Raise e => Raise e end.

(** [try: body  except Exception as e: handler e] *)
Definition try_except {A} (body : exc A) (handler : exn -> exc A) : exc A :=
  match body with Ok a => Ok a | Raise e => handler e end.

End Py.

#[global] Instance exc_ret : MRet Py.exc := @Py.Ok.
#[global] Instance exc_bind : MBind Py.exc := fun A B k m => Py.bind m k.

(** ** protocol.py *)

Module Protocol.

Inductive AceStepMode := TRANSFORM | COVER | REPAINT | EXTRACT | LAYER | COMPLETE.

#[global] Instance AceStepMode_eq_dec : EqDecision AceStepMode.
Proof. solve_decision. Defined.

(** The enumeration's string values. *)
Definition mode_value (m : AceStepMode) : string :=
  match m with
  | TRANSFORM => "transform" | COVER => "cover" | REPAINT => "repaint"
  | EXTRACT => "extract" | LAYER => "layer" | COMPLETE => "complete"
  end.

Definition NUEVA_TO_ACESTEP_TASK (m : AceStepMode) : string :=
  match m with
  | TRANSFORM => "text2music" | COVER => "cover" | REPAINT => "repaint"
  | EXTRACT => "extract" | LAYER => "lego" | COMPLETE => "complete"
  end.

Module NuevaRequest.
Record t := make {
  mode : AceStepMode;
  input_path : string;
  output_path : string;
  prompt : option string;
  intensity : float;
  preserve_melody : bool;
  preserve_tempo : bool;
  preserve_key : bool;
  extract_target : option string;
  add_layers : option (list string);
  remove_layers : option (list string);
  duration_seconds : option float;
  seed : option Z;
  quantization : option string;
  extra_params : gmap string Py.value
}.

(** The field constraint [ge=0.0, le=1.0] on [intensity], as the
    schema checks it: with the float comparisons, which a NaN fails. *)
Definition intensity_in_range (x : float) : bool :=
  (PrimFloat.leb 0%float x && PrimFloat.leb x 1%float)%bool.
End NuevaRequest.

Module NuevaResponse.
Record t := make {
  success : bool;
  output_path : option string;
  processing_time_ms : Z;
  description : string;
  intentional_artifacts : list string;
  warnings : list string;
  error_code : option string;
  error_message : option string;
  metadata : gmap string Py.value
}.
End NuevaResponse.

Module AceStepRequest.
Record t := make {
  task : string;
  audio_path : option string;
  prompt : option string;
  guidance_scale : float;
  num_inference_steps : Z;
  audio_duration : option float;
  kwargs : gmap string Py.value
}.

(** Schema defaults of the fields a constructor call may leave out. *)
Definition default_guidance_scale : float := 7%float.
Definition default_num_inference_steps : Z := 50.
End AceStepRequest.

Module AceStepResponse.
Record t := make {
  success : bool;
  audio_path : option string;
  error : option string;
  metadata : gmap string Py.value
}.
End AceStepResponse.

Definition str_list (l : list string) : Py.value := Py.List_ (Py.Str <$> l).

(** The mode-dependent part of [kwargs] (lines 139-152). *)
Definition mode_kwargs (request : NuevaRequest.t) : gmap string Py.value :=
  match NuevaRequest.mode request with
  | COVER =>
      <["preserve_key" := Py.Bool (NuevaRequest.preserve_key request)]>
      (<["preserve_tempo" := Py.Bool (NuevaRequest.preserve_tempo request)]>
      (<["preserve_melody" := Py.Bool (NuevaRequest.preserve_melody request)]> ∅))
  | EXTRACT =>
      match NuevaRequest.extract_target request with
      | Some tgt => if Py.truthy_str tgt then <["target" := Py.Str tgt]> ∅ else ∅
      | None => ∅
      end
  | LAYER =>
      let kw1 : gmap string Py.value :=
        match NuevaRequest.add_layers request with
        | Some l => if Py.truthy_list l then <["add_instruments" := str_list l]> ∅ else ∅
        | None => ∅
        end in
      match NuevaRequest.remove_layers request with
      | Some l => if Py.truthy_list l then <["remove_instruments" := str_list l]> kw1 else kw1
      | None => kw1
      end
  | _ => ∅
  end.

(** [kwargs] just before [kwargs.update(request.extra_params)]. *)
Definition computed_kwargs (request : NuevaRequest.t) : gmap string Py.value :=
  let kwargs := mode_kwargs request in
  match NuevaRequest.seed request with
  | Some s => <["seed" := Py.Int s]> kwargs
  | None => kwargs
  end.

Definition guidance_of_intensity (intensity : float) : float :=
  (3 + intensity * 12)%float.

Definition nueva_to_acestep (request : NuevaRequest.t) : AceStepRequest.t :=
  let task := NUEVA_TO_ACESTEP_TASK (NuevaRequest.mode request) in
  let guidance_scale := guidance_of_intensity (NuevaRequest.intensity request) in
  let kwargs := computed_kwargs request in
  (* dict.update: the keys of extra_params win *)
  let kwargs := NuevaRequest.extra_params request ∪ kwargs in
  {| AceStepRequest.task := task;
     AceStepRequest.audio_path := Some (NuevaRequest.input_path request);
     AceStepRequest.prompt := NuevaRequest.prompt request;
     AceStepRequest.guidance_scale := guidance_scale;
     AceStepRequest.num_inference_steps := AceStepRequest.default_num_inference_steps;
     AceStepRequest.audio_duration := NuevaRequest.duration_seconds request;
     AceStepRequest.kwargs := kwargs |}.

Definition genres : list string := ["jazz"; "rock"; "classical"; "electronic"].

Section WithRuntime.
(** [str.lower] beyond ASCII is the interpreter's (see [Py.lower]). *)
Variable unicode_lower : string -> string.

(** The artifact tags of a successful result (lines 188-208). *)
Definition artifacts_of (original_request : NuevaRequest.t) : list string :=
  let prompt := NuevaRequest.prompt original_request in
  match NuevaRequest.mode original_request with
  | COVER =>
      ["cover_timbre"; "different_timbre"] ++
      match prompt with
      | Some p =>
          if (Py.truthy_str p &&
              existsb (fun g => Py.contains g (Py.lower unicode_lower p)) genres)%bool
          then ["genre_transformation"] else []
      | None => []
      end
  | TRANSFORM =>
      ["intentional_coloration"] ++
      match prompt with
      | Some p =>
          if (Py.truthy_str p
              && Py.contains "vintage" (Py.lower unicode_lower p))%bool
          then ["frequency_rolloff"] else []
      | None => []
      end
  | EXTRACT => ["vocal_extraction_artifacts"]
  | LAYER => ["layer_artifacts"]
  | _ => []
  end.

Definition mode_desc (m : AceStepMode) : string :=
  match m with
  | TRANSFORM => "Generated music from prompt"
  | COVER => "Created cover version"
  | REPAINT => "Repainted audio region"
  | EXTRACT => "Extracted audio sources"
  | LAYER => "Modified instrument layers"
  | COMPLETE => "Added accompaniment"
  end.

Definition acestep_to_nueva (acestep_response : AceStepResponse.t)
    (original_request : NuevaRequest.t) (processing_time_ms : Z) : NuevaResponse.t :=
  if negb (AceStepResponse.success acestep_response) then
    {| NuevaResponse.success := false;
       NuevaResponse.output_path := None;
       NuevaResponse.processing_time_ms := processing_time_ms;
       NuevaResponse.description :=
         "ACE-Step processing failed: " +:+
         Py.fmt_opt_str (AceStepResponse.error acestep_response);
       NuevaResponse.intentional_artifacts := [];
       NuevaResponse.warnings := [];
       NuevaResponse.error_code := Some "ACESTEP_ERROR";
       NuevaResponse.error_message := AceStepResponse.error acestep_response;
       NuevaResponse.metadata := ∅ |}
  else
    let artifacts := artifacts_of original_request in
    let description := mode_desc (NuevaRequest.mode original_request) in
    let description :=
      match NuevaRequest.prompt original_request with
      | Some p => if Py.truthy_str p then description +:+ ": '" +:+ p +:+ "'" else description
      | None => description
      end in
    {| NuevaResponse.success := true;
       NuevaResponse.output_path :=
         Py.or_opt_str (AceStepResponse.audio_path acestep_response)
                       (Some (NuevaRequest.output_path original_request));
       NuevaResponse.processing_time_ms := processing_time_ms;
       NuevaResponse.description := description;
       NuevaResponse.intentional_artifacts := artifacts;
       NuevaResponse.warnings := [];
       NuevaResponse.error_code := None;
       NuevaResponse.error_message := None;
       NuevaResponse.metadata := AceStepResponse.metadata acestep_response |}.

End WithRuntime.

(** The names [computed_kwargs] can assign. *)
Definition computed_names : list string :=
  ["preserve_melody"; "preserve_tempo"; "preserve_key"; "target";
   "add_instruments"; "remove_instruments"; "seed"].

End Protocol.

(** ** acestep_client.py *)

Module Http.

(** One request as handed to the HTTP library. *)
Record request := {
  method : string;
  url : string;
  timeout : Q;
  json_body : option (gmap string Py.value)
}.

(** A response: status, raw text, and what [response.json()] gives
    (it raises when the text is not a JSON document). *)
Record response := {
  status_code : Z;
  text : string;
  json : Py.exc Py.value
}.

(** What one exchange yields: a response, or an exception of the
    library (connection refused, timeout, protocol error, ...). *)
Definition result := Py.exc response.

(** The peer, as seen through the library. *)
Definition transport := request -> result.

End Http.

Module Client.
Import Protocol.

Record AceStepClient := {
  base_url : string;
  timeout : Q
}.

Section WithFormatting.
(** [str(x)] of a float inside an f-string is left to the caller. *)
Variable str_seconds : Q -> string.

Definition failure (error_msg : string) : AceStepResponse.t :=
  {| AceStepResponse.success := false;
     AceStepResponse.audio_path := None;
     AceStepResponse.error := Some error_msg;
     AceStepResponse.metadata := ∅ |}.

(** The payload of lines 34-46. [**request.kwargs] comes last in the
    dictionary display, so its keys override the four named ones; the
    two optional fields are then assigned over the result. *)
Definition payload_of (request : AceStepRequest.t) : gmap string Py.value :=
  let named : gmap string Py.value :=
    <["num_inference_steps" := Py.Int (AceStepRequest.num_inference_steps request)]>
    (<["guidance_scale" := Py.Float (AceStepRequest.guidance_scale request)]>
    (<["prompt" := match AceStepRequest.prompt request with
                   | Some p => Py.Str p | None => Py.None_ end]>
    (<["task" := Py.Str (AceStepRequest.task request)]> ∅))) in
  let payload := AceStepRequest.kwargs request ∪ named in
  let payload :=
    match AceStepRequest.audio_path request with
    | Some p => if Py.truthy_str p then <["audio_path" := Py.Str p]> payload else payload
    | None => payload
    end in
  match AceStepRequest.audio_duration request with
  | Some d => if Py.truthy_float d then <["audio_duration" := Py.Float d]> payload else payload
  | None => payload
  end.

(** [data.get(key, default)]: only a dictionary has [get]. *)
Definition dict_get (data : Py.value) (key : string) (dflt : Py.value)
  : Py.exc Py.value :=
  match data with
  | Py.Dict d => Py.Ok (default dflt (d !! key))
  | _ => Py.Raise (Py.OtherException "object has no attribute 'get'")
  end.

(** Schema validation of the two fields passed to [AceStepResponse]. *)
Definition validate_audio_path (v : Py.value) : Py.exc (option string) :=
  match v with
  | Py.None_ => Py.Ok None
  | Py.Str s => Py.Ok (Some s)
  | _ => Py.Raise (Py.OtherException "validation error for AceStepResponse: audio_path")
  end.

Definition validate_metadata (v : Py.value) : Py.exc (gmap string Py.value) :=
  match v with
  | Py.Dict d => Py.Ok d
  | _ => Py.Raise (Py.OtherException "validation error for AceStepResponse: metadata")
  end.

(** The one request [process] sends. *)
Definition generate_request (self : AceStepClient) (request : AceStepRequest.t)
  : Http.request :=
  {| Http.method := "POST";
     Http.url := base_url self +:+ "/generate";
     Http.timeout := timeout self;
     Http.json_body := Some (payload_of request) |}.

(** The body of the [try] block of [process]. *)
Definition process_try (self : AceStepClient) (request : AceStepRequest.t)
    (send : Http.transport) : Py.exc AceStepResponse.t :=
  response ← send (generate_request self request);
  if negb (Http.status_code response =? 200)%Z then
    mret (failure ("ACE-Step API error: " +:+ Py.str_int (Http.status_code response)
                   +:+ " - " +:+ Http.text response))
  else
    data ← Http.json response;
    audio ← dict_get data "audio_path" Py.None_;
    meta ← dict_get data "metadata" (Py.Dict ∅);
    audio_path ← validate_audio_path audio;
    metadata ← validate_metadata meta;
    mret {| AceStepResponse.success := true;
            AceStepResponse.audio_path := audio_path;
            AceStepResponse.error := None;
            AceStepResponse.metadata := metadata |}.

(** The three [except] clauses, in source order. *)
Definition process_except (self : AceStepClient) (e : Py.exn)
  : Py.exc AceStepResponse.t :=
  match e with
  | Py.TimeoutException _ =>
      mret (failure ("ACE-Step request timed out after "
                     +:+ str_seconds (timeout self) +:+ "s"))
  | Py.ConnectError _ =>
      mret (failure ("Could not connect to ACE-Step API: " +:+ Py.str_exn e))
  | Py.OtherException _ =>
      mret (failure ("ACE-Step client error: " +:+ Py.str_exn e))
  end.

Definition process (self : AceStepClient) (request : AceStepRequest.t)
    (send : Http.transport) : Py.exc AceStepResponse.t :=
  Py.try_except (process_try self request send) (process_except self).

End WithFormatting.

(** The transport-level failures of one exchange: the library raised
    (connection refused, timeout, anything else), the status is not 200,
    or the body is not a JSON document. *)
Inductive transport_failure : Http.result -> Prop :=
| connection_refused msg : transport_failure (Py.Raise (Py.ConnectError msg))
| timed_out msg : transport_failure (Py.Raise (Py.TimeoutException msg))
| transport_error msg : transport_failure (Py.Raise (Py.OtherException msg))
| status_not_200 resp :
    Http.status_code resp <> 200 -> transport_failure (Py.Ok resp)
| malformed_response resp e :
    Http.json resp = Py.Raise e -> transport_failure (Py.Ok resp).

End Client.

(** The two probes and the module-level client. *)
Module ClientProbes.
Import Client.

Definition health_request (self : AceStepClient) : Http.request :=
  {| Http.method := "GET";
     Http.url := base_url self +:+ "/health";
     Http.timeout := 5;
     Http.json_body := None |}.

Definition health_check (self : AceStepClient) (send : Http.transport)
  : Py.exc bool :=
  Py.try_except
    (response ← send (health_request self);
     mret (Http.status_code response =? 200)%Z)
    (fun _ => mret false).

Definition models_request (self : AceStepClient) : Http.request :=
  {| Http.method := "GET";
     Http.url := base_url self +:+ "/models";
     Http.timeout := 10;
     Http.json_body := None |}.

(** [get_models]: what [response.json().get("models", [])] gives is
    returned as it is. *)
Definition get_models (self : AceStepClient) (send : Http.transport)
  : Py.exc Py.value :=
  Py.try_except
    (response ← send (models_request self);
     if (Http.status_code response =? 200)%Z then
       data ← Http.json response;
       dict_get data "models" (Py.List_ [])
     else mret (Py.List_ []))
    (fun _ => mret (Py.List_ [])).

(** [get_client]: the module-level [_client] is passed in and out.
    [seconds_of_ms s] is [float(s) / 1000.0], which raises [ValueError]
    when [s] is not a number. *)
Definition get_client (seconds_of_ms : string -> Py.exc Q)
    (environ : gmap string string) (_client : option AceStepClient)
  : Py.exc (AceStepClient * option AceStepClient) :=
  match _client with
  | Some c => mret (c, Some c)
  | None =>
      let base_url :=
        default "http://localhost:8000" (environ !! "NUEVA_ACESTEP_UPSTREAM_URL") in
      timeout ← seconds_of_ms
                  (default "300000" (environ !! "NUEVA_ACESTEP_TIMEOUT_MS"));
      let c := {| base_url := base_url; timeout := timeout |} in
      mret (c, Some c)
  end.

End ClientProbes.

(** ** process_manager.py *)

Module Supervisor.

Definition Qltb (x y : Q) : bool := negb (Qle_bool y x).

Record AceStepProcessManager := {
  acestep_url : string;
  auto_start : bool;
  startup_timeout : Q;
  health_check_interval : Q;
  _process : option nat;
  _healthy : bool;
  _starting : bool
}.

Definition set_process (p : option nat) (self : AceStepProcessManager) :=
  {| acestep_url := acestep_url self; auto_start := auto_start self;
     startup_timeout := startup_timeout self;
     health_check_interval := health_check_interval self;
     _process := p; _healthy := _healthy self; _starting := _starting self |}.

Definition set_healthy (b : bool) (self : AceStepProcessManager) :=
  {| acestep_url := acestep_url self; auto_start := auto_start self;
     startup_timeout := startup_timeout self;
     health_check_interval := health_check_interval self;
     _process := _process self; _healthy := b; _starting := _starting self |}.

Definition set_starting (b : bool) (self : AceStepProcessManager) :=
  {| acestep_url := acestep_url self; auto_start := auto_start self;
     startup_timeout := startup_timeout self;
     health_check_interval := health_check_interval self;
     _process := _process self; _healthy := _healthy self; _starting := b |}.

(** [__init__] with its defaults. *)
Definition init (url : string) (auto : bool) : AceStepProcessManager :=
  {| acestep_url := url; auto_start := auto;
     startup_timeout := 120; health_check_interval := 5;
     _process := None; _healthy := false; _starting := false |}.

(** *** The machine the manager runs on *)

(** A child process: its command line, the clock time at which it exits
    by itself (if it ever does), and the bytes it wrote to stderr. *)
Record Popen := {
  args : list string;
  exits_at : option Q;
  stderr : string
}.

(** What the manager did, in order of occurrence. *)
Inductive action :=
| Probed                 (* health_check sent GET /health *)
| StartEntered           (* start: self._starting = True *)
| Launched (pid : nat)   (* start: subprocess.Popen returned *)
| StartLeft.             (* start: finally: self._starting = False *)

Record Host := {
  now : Q;                          (* the clock *)
  children : list Popen;            (* every subprocess launched so far *)
  which : string -> option string;  (* shutil.which *)
  sys_executable : option string;
  (* subprocess.Popen for the n-th launch: OSError, or the child's
     life span in seconds and its stderr *)
  spawn : nat -> list string -> Py.exc (option Q * string);
  trace : list action
}.

Definition set_now (t : Q) (h : Host) : Host :=
  {| now := t; children := children h; which := which h;
     sys_executable := sys_executable h; spawn := spawn h; trace := trace h |}.

Definition record (a : action) (h : Host) : Host :=
  {| now := now h; children := children h; which := which h;
     sys_executable := sys_executable h; spawn := spawn h;
     trace := trace h ++ [a] |}.

Definition add_child (p : Popen) (h : Host) : Host :=
  {| now := now h; children := children h ++ [p]; which := which h;
     sys_executable := sys_executable h; spawn := spawn h; trace := trace h |}.

(** [p.poll() is not None] at clock time [t] *)
Definition exited (t : Q) (p : Popen) : bool :=
  match exits_at p with Some d => Qle_bool d t | None => false end.

(** The property [is_running]. *)
Definition is_running (self : AceStepProcessManager) (h : Host) : bool :=
  match _process self with
  | None => false
  | Some pid =>
      match children h !! pid with
      | Some p => negb (exited (now h) p)
      | None => false
      end
  end.

(** *** health_check *)

Definition health_request (self : AceStepProcessManager) : Http.request :=
  {| Http.method := "GET";
     Http.url := acestep_url self +:+ "/health";
     Http.timeout := 5;
     Http.json_body := None |}.

(** The answers [health_check] counts as healthy: a response with
    status 200. *)
Definition answers_healthy (r : Http.result) : bool :=
  match r with
  | Py.Ok response => (Http.status_code response =? 200)%Z
  | Py.Raise _ => false
  end.

Definition health_check (self : AceStepProcessManager) (send : Http.transport)
  : Py.exc (bool * AceStepProcessManager) :=
  Py.try_except
    (response ← send (health_request self);
     let healthy := (Http.status_code response =? 200)%Z in
     mret (healthy, set_healthy healthy self))
    (fun _ => mret (false, set_healthy false self)).

(** *** start and _wait_for_healthy

    A coroutine runs without interruption from one [await] that really
    suspends to the next.  There are three such points in this class:
    the GET inside [health_check] as awaited from [ensure_running]
    (line 60), the same GET as awaited from [_wait_for_healthy]
    (line 130), and [asyncio.sleep] (line 142).  A task is either not
    begun, parked at one of them with the locals it needs to go on,
    finished with its return value, or ended by an exception that
    nothing in the class caught.  [owner] tells whether
    [_wait_for_healthy] was entered from inside the [try] of [start]
    (line 116), whose [finally] then runs on return, or from one of the
    two "already starting" branches (lines 70 and 78). *)

Inductive entry := EnsureRunning | Start.

Inductive task :=
| Ready (e : entry)
| AwaitEnsureProbe
| AwaitWaitProbe (owner : bool) (start_time : Q)
| AwaitSleep (owner : bool) (start_time : Q) (wake : Q)
| Finished (r : bool)
| Raised (e : Py.exn).

Definition state : Type := task * AceStepProcessManager * Host.

(** [return r], through the [finally] of [start] for the owner. *)
Definition leave (owner : bool) (r : bool)
    (self : AceStepProcessManager) (h : Host) : state :=
  if owner then (Finished r, set_starting false self, record StartLeft h)
  else (Finished r, self, h).

(** Head of the [while] loop of [_wait_for_healthy]. *)
Definition wait_loop (owner : bool) (start_time : Q)
    (self : AceStepProcessManager) (h : Host) : state :=
  if Qltb (now h - start_time) (startup_timeout self)
  then (AwaitWaitProbe owner start_time, self, record Probed h)
  else leave owner false self h.

Definition _wait_for_healthy (owner : bool)
    (self : AceStepProcessManager) (h : Host) : state :=
  let start_time := now h in
  wait_loop owner start_time self h.

(** [self._process and self._process.poll() is not None] *)
Definition process_died (self : AceStepProcessManager) (h : Host) : bool :=
  match _process self with
  | None => false
  | Some pid =>
      match children h !! pid with
      | Some p => exited (now h) p
      | None => false
      end
  end.

(** Lines 136-139, for a child that has died: the log line needs
    [stderr.decode()] when the child wrote anything to stderr, which
    raises [UnicodeDecodeError] when that is not UTF-8.  What is logged
    is not kept. *)
Definition log_death (self : AceStepProcessManager) (h : Host) : Py.exc unit :=
  match _process self with
  | None => Py.Ok tt
  | Some pid =>
      match children h !! pid with
      | Some p =>
          if (Py.truthy_str (stderr p) && negb (Py.utf8 (stderr p)))%bool
          then Py.Raise (Py.OtherException
                           "'utf-8' codec can't decode bytes: invalid start byte")
          else Py.Ok tt
      | None => Py.Ok tt
      end
  end.

(** An exception inside [_wait_for_healthy].  For the owner it is
    caught by the [except Exception] of [start], which answers false
    (lines 118-122); the two "already starting" branches (lines 70 and
    78) are outside every [try], and the exception ends the call. *)
Definition raising (owner : bool) (e : Py.exn)
    (self : AceStepProcessManager) (h : Host) : state :=
  if owner then leave true false self h else (Raised e, self, h).

(** The loop body once the probe has come back. *)
Definition wait_probed (owner : bool) (start_time : Q) (r : Http.result)
    (self : AceStepProcessManager) (h : Host) : option state :=
  match health_check self (fun _ => r) with
  | Py.Ok (healthy, self) =>
      if healthy then Some (leave owner true self h)
      else if process_died self h then
        match log_death self h with
        | Py.Ok _ => Some (leave owner false self h)
        | Py.Raise e => Some (raising owner e self h)
        end
      else Some (AwaitSleep owner start_time (now h + health_check_interval self),
                 self, h)
  | Py.Raise _ => None
  end.

Definition _find_python_command (h : Host) : option string :=
  let uv_path := which h "uv" in
  if Py.truthy_opt Py.truthy_str uv_path then uv_path
  else
    let python_path := Py.or_opt_str (which h "python3") (which h "python") in
    if Py.truthy_opt Py.truthy_str python_path then python_path
    else sys_executable h.

Definition command_line (h : Host) (python_cmd : string) : list string :=
  if Py.contains "uv" python_cmd then [python_cmd; "run"; "acestep-api"]
  else
    match which h "acestep-api" with
    | Some acestep_cmd =>
        if Py.truthy_str acestep_cmd then [acestep_cmd]
        else [python_cmd; "-m"; "ace_step.api"]
    | None => [python_cmd; "-m"; "ace_step.api"]
    end.

Definition start (self : AceStepProcessManager) (h : Host) : state :=
  if _starting self then _wait_for_healthy false self h
  else
    let self := set_starting true self in
    let h := record StartEntered h in
    match _find_python_command h with
    | None => leave true false self h
    | Some python_cmd =>
        let cmd := command_line h python_cmd in
        let pid := length (children h) in
        match spawn h pid cmd with
        | Py.Raise _ => leave true false self h
        | Py.Ok (life, err) =>
            let child := {| args := cmd;
                            exits_at := (fun d => now h + d)%Q <$> life;
                            stderr := err |} in
            let h := record (Launched pid) (add_child child h) in
            let self := set_process (Some pid) self in
            _wait_for_healthy true self h
        end
    end.

(** [ensure_running] once its first probe has come back. *)
Definition ensure_probed (r : Http.result)
    (self : AceStepProcessManager) (h : Host) : option state :=
  match health_check self (fun _ => r) with
  | Py.Ok (healthy, self) =>
      if healthy then Some (Finished true, self, h)
      else if negb (auto_start self) then Some (Finished false, self, h)
      else if _starting self then Some (_wait_for_healthy false self h)
      else Some (start self h)
  | Py.Raise _ => None
  end.

(** *** The event loop *)

(** What the loop does next: begin a task, hand a task the outcome of
    its GET, or wake a sleeping task; [dt] is the time that has passed
    since the previous event. *)
Inductive event :=
| Run (tid : nat)
| Reply (tid : nat) (dt : Q) (r : Http.result)
| Wake (tid : nat) (dt : Q).

Definition tid_of (ev : event) : nat :=
  match ev with Run t | Reply t _ _ | Wake t _ => t end.

(** The clock moves on by [dt]; the reading is kept in lowest terms. *)
Definition elapse (dt : Q) (h : Host) : option Host :=
  if Qle_bool 0 dt then Some (set_now (Qred (now h + dt)) h) else None.

(** One uninterrupted run of a task; [None] when the event does not
    apply to the task as it stands (time running backwards, a sleeper
    woken early, a task resumed at the wrong point). *)
Definition resume (ev : event) (t : task)
    (self : AceStepProcessManager) (h : Host) : option state :=
  match ev, t with
  | Run _, Ready EnsureRunning => Some (AwaitEnsureProbe, self, record Probed h)
  | Run _, Ready Start => Some (start self h)
  | Reply _ dt r, AwaitEnsureProbe =>
      h ← elapse dt h; ensure_probed r self h
  | Reply _ dt r, AwaitWaitProbe owner start_time =>
      h ← elapse dt h; wait_probed owner start_time r self h
  | Wake _ dt, AwaitSleep owner start_time wake =>
      h ← elapse dt h;
      if Qle_bool wake (now h) then Some (wait_loop owner start_time self h) else None
  | _, _ => None
  end.

Record system := {
  manager : AceStepProcessManager;
  host : Host;
  tasks : list task
}.

Definition step (ev : event) (s : system) : option system :=
  t ← tasks s !! tid_of ev;
  '(t', self, h) ← resume ev t (manager s) (host s);
  Some {| manager := self; host := h; tasks := <[tid_of ev := t']> (tasks s) |}.

Fixpoint run (evs : list event) (s : system) : option system :=
  match evs with
  | [] => Some s
  | ev :: evs => s' ← step ev s; run evs s'
  end.

(** *** One task on its own

    The surroundings of a lone task: the outcome and the duration of the
    [i]-th thing it waits for, and by how much the [i]-th wait, when it
    is a sleep, overshoots. *)
Record Net := {
  reply : nat -> Http.result;
  latency : nat -> Q;
  oversleep : nat -> Q
}.

Definition next_event (net : Net) (i : nat) (t : task) (h : Host) : option event :=
  match t with
  | Ready _ => Some (Run 0)
  | AwaitEnsureProbe | AwaitWaitProbe _ _ => Some (Reply 0 (latency net i) (reply net i))
  | AwaitSleep _ _ wake => Some (Wake 0 (wake - now h + oversleep net i))
  | Finished _ | Raised _ => None
  end.

Fixpoint drive (fuel : nat) (net : Net) (i : nat) (s : system) : option system :=
  match tasks s !! 0%nat with
  | Some (Finished _) | Some (Raised _) => Some s
  | Some t =>
      match fuel with
      | O => None
      | S fuel =>
          ev ← next_event net i t (host s);
          s' ← step ev s;
          drive fuel net (S i) s'
      end
  | None => None
  end.

(** Events that suffice for a [start] that never sees a healthy probe:
    one to begin, two for each round of the polling loop (probe, sleep)
    and two for the last round. *)
Definition patience (self : AceStepProcessManager) : nat :=
  2 * Z.to_nat (Qceiling (startup_timeout self / health_check_interval self)) + 3.

(** One call, awaited to its end with nothing else on the loop: what
    it returns or raises. *)
Definition call (fuel : nat) (net : Net) (e : entry)
    (self : AceStepProcessManager) (h : Host)
  : option (Py.exc bool * AceStepProcessManager * Host) :=
  s ← drive fuel net 0 {| manager := self; host := h; tasks := [Ready e] |};
  match tasks s with
  | [Finished r] => Some (Py.Ok r, manager s, host s)
  | [Raised e] => Some (Py.Raise e, manager s, host s)
  | _ => None
  end.

(** A system with a single task. *)
Definition alone (self : AceStepProcessManager) (h : Host) (t : task) : system :=
  {| manager := self; host := h; tasks := [t] |}.

End Supervisor.

(** ** server.py *)

Module Server.
Import Protocol.

(** How a handler ends: it returns a response model, raises
    [HTTPException] (which the framework turns into an error reply with
    that status), or lets another exception escape. *)
Inductive outcome :=
| Returned (r : NuevaResponse.t)
| HTTPException (status_code : Z) (detail : string)
| Unhandled (e : Py.exn).

(** The surroundings of one request. *)
Record Env := {
  (* what the supervisor meets while [ensure_running] is awaited *)
  fuel : nat;
  net : Supervisor.Net;
  (* aiofiles.os.path.exists and the time it takes *)
  path_exists : string -> bool;
  exists_secs : Q;
  (* the engine behind the client and the time one exchange takes *)
  send : Http.transport;
  send_secs : Q;
  (* the process environment, and the interpreter: float(s) / 1000.0,
     str(x) of a float, str.lower beyond ASCII *)
  environ : gmap string string;
  seconds_of_ms : string -> Py.exc Q;
  str_seconds : Q -> string;
  unicode_lower : string -> string
}.

(** The process manager, the machine it runs on, the module-level
    [_client] of acestep_client.py ([None] until [get_client] has
    succeeded once), and the requests handed to the engine client so
    far. *)
Record World := {
  process_manager : Supervisor.AceStepProcessManager;
  host : Supervisor.Host;
  _client : option Client.AceStepClient;
  engine_calls : list AceStepRequest.t
}.

Definition unavailable : string :=
  "ACE-Step API is not available. Please ensure ACE-Step is installed.".

(** [int((time.time() - start_time) * 1000)] *)
Definition elapsed_ms (start_time : Q) (h : Supervisor.Host) : Z :=
  Py.int_of ((Supervisor.now h - start_time) * 1000).

Definition processing_error (processing_time_ms : Z) (e : Py.exn) : NuevaResponse.t :=
  {| NuevaResponse.success := false;
     NuevaResponse.output_path := None;
     NuevaResponse.processing_time_ms := processing_time_ms;
     NuevaResponse.description := "Processing failed: " +:+ Py.str_exn e;
     NuevaResponse.intentional_artifacts := [];
     NuevaResponse.warnings := [];
     NuevaResponse.error_code := Some "PROCESSING_ERROR";
     NuevaResponse.error_message := Some (Py.str_exn e);
     NuevaResponse.metadata := ∅ |}.

(** [request.input_path and not await aiofiles.os.path.exists(...)]:
    the file system is asked only for a non-empty path. *)
Definition input_missing (env : Env) (request : NuevaRequest.t)
    (h : Supervisor.Host) : option (bool * Supervisor.Host) :=
  if Py.truthy_str (NuevaRequest.input_path request) then
    h ← Supervisor.elapse (exists_secs env) h;
    Some (negb (path_exists env (NuevaRequest.input_path request)), h)
  else Some (false, h).

(** [get_client()] as the handlers call it. *)
Definition get_client (env : Env) (w : World)
  : Py.exc (Client.AceStepClient * option Client.AceStepClient) :=
  ClientProbes.get_client (seconds_of_ms env) (environ env) (_client w).

(** [process_audio]; [None] when the surroundings are ill-formed (a
    negative duration, or too little fuel for the supervisor). *)
Definition process_audio (env : Env) (request : NuevaRequest.t) (w : World)
  : option (outcome * World) :=
  let start_time := Supervisor.now (host w) in
  (* Ensure ACE-Step is running: line 111 is outside the try *)
  match Supervisor.call (fuel env) (net env) Supervisor.EnsureRunning
          (process_manager w) (host w) with
  | None => None
  | Some (Py.Raise e, pm, h) =>
      Some (Unhandled e,
            {| process_manager := pm; host := h; _client := _client w;
               engine_calls := engine_calls w |})
  | Some (Py.Ok running, pm, h) =>
      if negb running then
        Some (HTTPException 503 unavailable,
              {| process_manager := pm; host := h; _client := _client w;
                 engine_calls := engine_calls w |})
      else
        (* Validate input file exists *)
        match input_missing env request h with
        | None => None
        | Some (true, h) =>
            Some (HTTPException 400
                    ("Input file not found: " +:+ NuevaRequest.input_path request),
                  {| process_manager := pm; host := h; _client := _client w;
                     engine_calls := engine_calls w |})
        | Some (false, h) =>
            (* try: *)
            let acestep_request := nueva_to_acestep request in
            match get_client env w with
            | Py.Raise e =>
                (* except Exception *)
                Some (Returned (processing_error (elapsed_ms start_time h) e),
                      {| process_manager := pm; host := h; _client := _client w;
                         engine_calls := engine_calls w |})
            | Py.Ok (client, created) =>
                match Supervisor.elapse (send_secs env) h with
                | None => None
                | Some h =>
                    let w' := {| process_manager := pm; host := h;
                                 _client := created;
                                 engine_calls := engine_calls w ++ [acestep_request] |} in
                    let body : Py.exc NuevaResponse.t :=
                      acestep_response ← Client.process (str_seconds env) client
                                           acestep_request (send env);
                      let processing_time_ms := elapsed_ms start_time h in
                      mret (acestep_to_nueva (unicode_lower env) acestep_response
                              request processing_time_ms) in
                    match Py.try_except body
                            (fun e => mret (processing_error (elapsed_ms start_time h) e)) with
                    | Py.Ok response => Some (Returned response, w')
                    | Py.Raise e => Some (Unhandled e, w')
                    end
                end
            end
        end
  end.

End Server.

(** ** bridge.py *)

Module Bridge.

Inductive Action := PING | PROCESS | LIST_MODELS | GET_MODEL_INFO | ABORT.

(** [Action(v)]: the member with that value, or [ValueError]. *)
Definition Action_of (v : Py.value) : Py.exc Action :=
  match v with
  | Py.Str s =>
      if String.eqb s "ping" then Py.Ok PING
      else if String.eqb s "process" then Py.Ok PROCESS
      else if String.eqb s "list_models" then Py.Ok LIST_MODELS
      else if String.eqb s "get_model_info" then Py.Ok GET_MODEL_INFO
      else if String.eqb s "abort" then Py.Ok ABORT
      else Py.Raise (Py.OtherException ("'" +:+ s +:+ "' is not a valid Action"))
  | _ => Py.Raise (Py.OtherException "not a valid Action")
  end.

(** The fields are annotated [Optional[str]] and [dict] but nothing
    checks what a JSON document puts there, so they hold any value;
    Python's [None] is [Py.None_]. *)
Record BridgeRequest := {
  action : Action;
  request_id : Py.value;
  prompt : Py.value;
  input_path : Py.value;
  output_path : Py.value;
  model : Py.value;
  model_params : Py.value;
  context : Py.value
}.

Definition get (d : gmap string Py.value) (key : string) (dflt : Py.value) : Py.value :=
  default dflt (d !! key).

Definition from_json (data : Py.value) : Py.exc BridgeRequest :=
  match data with
  | Py.Dict d =>
      a ← Action_of (get d "action" (Py.Str "ping"));
      mret {| action := a;
              request_id := get d "request_id" Py.None_;
              prompt := get d "prompt" Py.None_;
              input_path := get d "input_path" Py.None_;
              output_path := get d "output_path" Py.None_;
              model := get d "model" Py.None_;
              model_params := get d "model_params" (Py.Dict ∅);
              context := get d "context" (Py.Dict ∅) |}
  | _ => Py.Raise (Py.OtherException "object has no attribute 'get'")
  end.

Record BridgeResponse := {
  success : bool;
  response_id : Py.value;          (* the field request_id *)
  tool_used : option string;
  reasoning : Py.value;
  message : Py.value;
  neural_changes : option (gmap string Py.value);
  error : option string;
  error_code : option string
}.

Definition opt_str (o : option string) : Py.value :=
  match o with Some s => Py.Str s | None => Py.None_ end.

Definition put_if (key : string) (v : Py.value) (result : gmap string Py.value)
  : gmap string Py.value :=
  if Py.truthy v then <[key := v]> result else result.

Definition to_json (self : BridgeResponse) : gmap string Py.value :=
  let result : gmap string Py.value := {[ "success" := Py.Bool (success self) ]} in
  let result := put_if "request_id" (response_id self) result in
  let result := put_if "tool_used" (opt_str (tool_used self)) result in
  let result := put_if "reasoning" (reasoning self) result in
  let result := put_if "message" (message self) result in
  let result := match neural_changes self with
                | Some d => put_if "neural_changes" (Py.Dict d) result
                | None => result end in
  let result := put_if "error" (opt_str (error self)) result in
  put_if "error_code" (opt_str (error_code self)) result.

(** A failure response: the fields not named keep their defaults. *)
Definition failed (rid : Py.value) (err code : string) : BridgeResponse :=
  {| success := false; response_id := rid; tool_used := None;
     reasoning := Py.None_; message := Py.None_; neural_changes := None;
     error := Some err; error_code := Some code |}.

Definition succeeded (rid : Py.value) (msg : Py.value) : BridgeResponse :=
  {| success := true; response_id := rid; tool_used := None;
     reasoning := Py.None_; message := msg; neural_changes := None;
     error := None; error_code := None |}.

(** One call of a model processor's [process]. *)
Record invocation := {
  inv_model : string;
  inv_input_path : string;
  inv_output_path : string;
  inv_prompt : Py.value;
  inv_params : Py.value
}.

(** A model processor, as far as the bridge uses it: the dictionary
    [get_info()] returns, and for a call of [process] the dictionary it
    returns or the exception it raises, with the time the call takes. *)
Record Processor := {
  get_info : Py.value;
  process : invocation -> Py.exc (gmap string Py.value) * Q
}.

Record AIBridge := {
  models : gmap string Processor
}.

(** The clock and the calls made to processors so far. *)
Record World := {
  now : Q;
  invocations : list invocation
}.

Section WithJson.
(** [json.dumps] and [str] of an arbitrary value belong to the Python
    runtime. *)
Variable json_dumps : Py.value -> string.
Variable str_value : Py.value -> string.

(** [model_id not in self.models]: hashing a list or a dictionary
    raises [TypeError]; the registry has string keys only. *)
Definition not_in_models (self : AIBridge) (model_id : Py.value) : Py.exc bool :=
  match model_id with
  | Py.Str s => Py.Ok (bool_decide (models self !! s = None))
  | Py.List_ _ => Py.Raise (Py.OtherException "unhashable type: 'list'")
  | Py.Dict _ => Py.Raise (Py.OtherException "unhashable type: 'dict'")
  | _ => Py.Ok true
  end.

(** [not model_id or model_id not in self.models] *)
Definition model_missing (self : AIBridge) (model_id : Py.value) : Py.exc bool :=
  if negb (Py.truthy model_id) then Py.Ok true else not_in_models self model_id.

(** [self.models[model_id]] *)
Definition lookup_model (self : AIBridge) (model_id : Py.value)
  : Py.exc (string * Processor) :=
  match model_id with
  | Py.Str s =>
      match models self !! s with
      | Some p => Py.Ok (s, p)
      | None => Py.Raise (Py.OtherException ("KeyError: " +:+ s))
      end
  | _ => Py.Raise (Py.OtherException "KeyError")
  end.

(** [Path(v)] accepts a string. *)
Definition Path (v : Py.value) : Py.exc string :=
  match v with
  | Py.Str s => Py.Ok s
  | _ => Py.Raise (Py.OtherException "expected str, bytes or os.PathLike object")
  end.

Definition _handle_ping (request : BridgeRequest) : BridgeResponse :=
  succeeded (request_id request) (Py.Str "pong").

Definition _handle_list_models (self : AIBridge) (request : BridgeRequest)
  : BridgeResponse :=
  let models := Py.List_ (Py.Str <$> (map_to_list (models self)).*1) in
  succeeded (request_id request) (Py.Str (json_dumps models)).

Definition _handle_get_model_info (self : AIBridge) (request : BridgeRequest)
  : Py.exc BridgeResponse :=
  let model_id := model request in
  missing ← model_missing self model_id;
  if (missing : bool) then
    mret (failed (request_id request)
            ("Model not found: " +:+ str_value model_id) "MODEL_NOT_FOUND")
  else
    '(_, model) ← lookup_model self model_id;
    mret (succeeded (request_id request) (Py.Str (json_dumps (get_info model)))).

Definition _handle_process (self : AIBridge) (request : BridgeRequest) (w : World)
  : Py.exc BridgeResponse * World :=
  let model_id := model request in
  match model_missing self model_id with
  | Py.Raise e => (Py.Raise e, w)
  | Py.Ok true =>
      (Py.Ok (failed (request_id request)
                ("Model not found: " +:+ str_value model_id) "MODEL_NOT_FOUND"), w)
  | Py.Ok false =>
      if negb (Py.truthy (input_path request)) then
        (Py.Ok (failed (request_id request)
                  "input_path is required" "MISSING_PARAMETER"), w)
      else if negb (Py.truthy (output_path request)) then
        (Py.Ok (failed (request_id request)
                  "output_path is required" "MISSING_PARAMETER"), w)
      else
        match lookup_model self model_id with
        | Py.Raise e => (Py.Raise e, w)
        | Py.Ok (name, model) =>
            let start_time := now w in
            (* try: the two Path(...) arguments are evaluated first *)
            match (i ← Path (input_path request);
                   o ← Path (output_path request);
                   mret (i, o)) with
            | Py.Raise e =>
                (Py.Ok (failed (request_id request) (Py.str_exn e)
                          "PROCESSING_ERROR"), w)
            | Py.Ok (i, o) =>
                let call := {| inv_model := name; inv_input_path := i;
                               inv_output_path := o;
                               inv_prompt := prompt request;
                               inv_params := model_params request |} in
                let '(outcome, secs) := process model call in
                let w := {| now := Qred (now w + secs);
                            invocations := invocations w ++ [call] |} in
                match outcome with
                | Py.Raise e =>
                    (Py.Ok (failed (request_id request) (Py.str_exn e)
                              "PROCESSING_ERROR"), w)
                | Py.Ok result =>
                    let processing_time_ms :=
                      Py.int_of ((now w - start_time) * 1000) in
                    (Py.Ok
                       {| success := true;
                          response_id := request_id request;
                          tool_used := Some "neural";
                          reasoning := get result "reasoning" (Py.Str "");
                          message := get result "message"
                                       (Py.Str "Processing complete");
                          neural_changes := Some
                            (<["intentional_artifacts" :=
                                 get result "intentional_artifacts" (Py.List_ [])]>
                             (<["processing_time_ms" := Py.Int processing_time_ms]>
                             (<["output_path" := Py.Str o]>
                             (<["model" := Py.Str name]> ∅))));
                          error := None; error_code := None |}, w)
                end
            end
        end
  end.

Definition _handle_abort (request : BridgeRequest) : BridgeResponse :=
  succeeded (request_id request) (Py.Str "Abort requested").

Definition handle_request (self : AIBridge) (request : BridgeRequest) (w : World)
  : BridgeResponse * World :=
  let '(r, w) :=
    match action request with
    | PING => (Py.Ok (_handle_ping request), w)
    | LIST_MODELS => (Py.Ok (_handle_list_models self request), w)
    | GET_MODEL_INFO => (_handle_get_model_info self request, w)
    | PROCESS => _handle_process self request w
    | ABORT => (Py.Ok (_handle_abort request), w)
    end in
  match r with
  | Py.Ok response => (response, w)
  | Py.Raise e =>
      (failed (request_id request) (Py.str_exn e) "PROCESSING_ERROR", w)
  end.

(** The body of the loop of [main] for one non-empty line that
    [json.loads] has turned into [data] ([None]: it raised
    [JSONDecodeError], whose text is [why]). *)
Definition serve_line (self : AIBridge) (data : option Py.value) (why : string)
    (w : World) : gmap string Py.value * World :=
  match data with
  | None =>
      (to_json {| success := false; response_id := Py.None_; tool_used := None;
                  reasoning := Py.None_; message := Py.None_;
                  neural_changes := None;
                  error := Some ("Invalid JSON: " +:+ why);
                  error_code := Some "INVALID_JSON" |}, w)
  | Some data =>
      match from_json data with
      | Py.Ok request =>
          let '(response, w) := handle_request self request w in
          (to_json response, w)
      | Py.Raise e =>
          (to_json {| success := false; response_id := Py.None_;
                      tool_used := None; reasoning := Py.None_;
                      message := Py.None_; neural_changes := None;
                      error := Some (Py.str_exn e);
                      error_code := Some "INTERNAL_ERROR" |}, w)
      end
  end.

End WithJson.

End Bridge.

(** ** Binary64 arithmetic

    The float operations are specified by [SpecFloat]; what follows names
    the rounding they perform, on integer multiples of a fixed power of
    two. *)

Module Binary64.
Local Open Scope Z_scope.

(** [m / 2^k] rounded to the nearest integer, ties to even. *)
Definition rnd (k m : Z) : Z :=
  let q := m / 2 ^ k in
  let r := m mod 2 ^ k in
  if ((2 ^ k <? 2 * r) || ((2 ^ k =? 2 * r) && Z.odd q))%bool then q + 1 else q.

(** The round bit and the sticky bit after [k] right shifts of [m]. *)
Definition round_bit (k m : Z) : bool :=
  if k =? 0 then false else Z.odd (m / 2 ^ (k - 1)).
Definition sticky_bit (k m : Z) : bool :=
  if k =? 0 then false else negb (m mod 2 ^ (k - 1) =? 0).


(** Values are counted in units of [2 ^ (- bias)], small enough for
    every exponent that occurs, so that they are integers. *)
Definition bias : Z := 1200.

(** The exponent (shifted by [bias]) of the last place kept when the
    value [v] is rounded to binary64: 53 significant bits, and no
    exponent below -1074. *)
Definition shift_of (v : Z) : Z := Z.max (Z.log2 v - 52) (bias - 1074).

(** Round to nearest, ties to even, on values. *)
Definition RN (v : Z) : Z := rnd (shift_of v) v * 2 ^ shift_of v.

(** The float [f] is a zero or a positive finite number in canonical
    form, and its value is [v]. *)
Definition repr (f : spec_float) (v : Z) : Prop :=
  match f with
  | S754_zero _ => v = 0
  | S754_finite false m e =>
      bounded prec emax m e = true ∧ v = Zpos m * 2 ^ (e + bias)
  | _ => False
  end.


(** The two constants of the guidance formula as specification floats:
    12 is 1.5 * 2^3 and 3 is 1.5 * 2^1. *)
Definition twelve : spec_float := S754_finite false 6755399441055744 (-49).
Definition three : spec_float := S754_finite false 6755399441055744 (-51).

(** What the machine computes for [3 + x * 12], on specification
    floats. *)
Definition guidance_spec (X : spec_float) : spec_float :=
  SF64add three (SF64mul X twelve).

End Binary64.

(** ** Reading the supervisor's trace *)

(** Reading a trace: a [start] that has set [_starting] and not yet
    cleared it is in flight; a launch belongs to the start in flight,
    which launches at most once. *)
Module Flight.
Import Supervisor.

Inductive phase := Idle | InFlight (launched : bool).

Definition observe (ph : phase) (a : action) : option phase :=
  match a, ph with
  | Probed, _ => Some ph
  | StartEntered, Idle => Some (InFlight false)
  | Launched _, InFlight false => Some (InFlight true)
  | StartLeft, InFlight _ => Some Idle
  | _, _ => None
  end.

Fixpoint replay_from (ph : phase) (tr : list action) : option phase :=
  match tr with
  | [] => Some ph
  | a :: tr => ph' ← observe ph a; replay_from ph' tr
  end.

(** The trace is well bracketed when [replay] accepts it. *)
Definition replay (tr : list action) : option phase := replay_from Idle tr.

Definition is_launch (a : action) : bool :=
  match a with Launched _ => true | _ => false end.

Definition launches (tr : list action) : nat := length (List.filter is_launch tr).

(** A task is inside the [try] of [start]. *)
Definition is_owner (t : task) : bool :=
  match t with
  | AwaitWaitProbe owner _ | AwaitSleep owner _ _ => owner
  | _ => false
  end.

Definition owners (ts : list task) : nat := length (List.filter is_owner ts).



(** A task has ended: it returned or raised. *)
Definition ended (t : task) : bool :=
  match t with Finished _ | Raised _ => true | _ => false end.

Definition phase_of (starting : bool) : phase :=
  if starting then InFlight true else Idle.

(** What holds between two events of the loop. *)
Record inv (s : system) : Prop := {
  inv_trace : replay (trace (host s)) = Some (phase_of (_starting (manager s)));
  inv_owners : owners (tasks s) = if _starting (manager s) then 1%nat else 0%nat;
  inv_children : launches (trace (host s)) = length (children (host s))
}.

(** One uninterrupted run of a task, seen from the invariant: [was]
    tells whether the task was inside the [try] of [start] before. *)
Definition keeps (was : bool) (self : AceStepProcessManager) (h : Host)
    (st : state) : Prop :=
  replay (trace h) = Some (phase_of (_starting self)) →
  launches (trace h) = length (children h) →
  (was = true → _starting self = true) →
  let '(t', self', h') := st in
  replay (trace h') = Some (phase_of (_starting self'))
  ∧ launches (trace h') = length (children h')
  ∧ ((if _starting self' then 1 else 0) + (if was then 1 else 0)
     = (if _starting self then 1 else 0) + (if is_owner t' then 1 else 0))%nat.

End Flight.

(** * Concrete requests and surroundings used below *)

Module Examples.
Import Protocol.

(** A stand-in for the interpreter's lower-casing beyond ASCII, which
    none of the strings below needs. *)
Definition as_is (s : string) : string := s.

Definition request (m : AceStepMode) (p : option string) (x : float)
  : NuevaRequest.t :=
  {| NuevaRequest.mode := m;
     NuevaRequest.input_path := "in.wav";
     NuevaRequest.output_path := "out.wav";
     NuevaRequest.prompt := p;
     NuevaRequest.intensity := x;
     NuevaRequest.preserve_melody := true;
     NuevaRequest.preserve_tempo := true;
     NuevaRequest.preserve_key := true;
     NuevaRequest.extract_target := None;
     NuevaRequest.add_layers := None;
     NuevaRequest.remove_layers := None;
     NuevaRequest.duration_seconds := None;
     NuevaRequest.seed := None;
     NuevaRequest.quantization := None;
     NuevaRequest.extra_params := ∅ |}.

Definition cover_jazz : NuevaRequest.t :=
  request COVER (Some "jazz version") 0.5%float.

(** Mode [extract] with the target set to the empty string. *)
Definition extract_empty_target : NuevaRequest.t :=
  {| NuevaRequest.mode := EXTRACT;
     NuevaRequest.input_path := "in.wav";
     NuevaRequest.output_path := "out.wav";
     NuevaRequest.prompt := None;
     NuevaRequest.intensity := 0.75%float;
     NuevaRequest.preserve_melody := true;
     NuevaRequest.preserve_tempo := true;
     NuevaRequest.preserve_key := true;
     NuevaRequest.extract_target := Some "";
     NuevaRequest.add_layers := None;
     NuevaRequest.remove_layers := None;
     NuevaRequest.duration_seconds := None;
     NuevaRequest.seed := None;
     NuevaRequest.quantization := None;
     NuevaRequest.extra_params := ∅ |}.

(** A cover request whose [extra_params] carries a key that the mode
    also computes. *)
Definition cover_overridden : NuevaRequest.t :=
  {| NuevaRequest.mode := COVER;
     NuevaRequest.input_path := "in.wav";
     NuevaRequest.output_path := "out.wav";
     NuevaRequest.prompt := None;
     NuevaRequest.intensity := 0.25%float;
     NuevaRequest.preserve_melody := true;
     NuevaRequest.preserve_tempo := true;
     NuevaRequest.preserve_key := true;
     NuevaRequest.extract_target := None;
     NuevaRequest.add_layers := None;
     NuevaRequest.remove_layers := None;
     NuevaRequest.duration_seconds := None;
     NuevaRequest.seed := Some 0;
     NuevaRequest.quantization := None;
     NuevaRequest.extra_params := {[ "preserve_melody" := Py.Bool false ]} |}.

Definition engine_failed : AceStepResponse.t :=
  {| AceStepResponse.success := false;
     AceStepResponse.audio_path := None;
     AceStepResponse.error := Some "CUDA out of memory";
     AceStepResponse.metadata := ∅ |}.

Definition engine_done : AceStepResponse.t :=
  {| AceStepResponse.success := true;
     AceStepResponse.audio_path := None;
     AceStepResponse.error := None;
     AceStepResponse.metadata := ∅ |}.

End Examples.

Module BridgeExamples.
Import Bridge.

(** A processor that always succeeds after one second. *)
Definition stub : Processor :=
  {| get_info := Py.Dict ∅;
     process := fun _ => (Py.Ok ∅, 1%Q) |}.

Definition bridge : AIBridge := {| models := {[ "ace-step" := stub ]} |}.

Definition world : World := {| now := 0; invocations := [] |}.

Definition dumps (v : Py.value) : string := "<json>".
Definition str (v : Py.value) : string :=
  match v with Py.Str s => s | Py.None_ => "None" | _ => "<value>" end.

(** [{"action": "process", "input_path": "a.wav"}]: neither a model nor
    an output path. *)
Definition no_model_no_output : gmap string Py.value :=
  <["input_path" := Py.Str "a.wav"]> {[ "action" := Py.Str "process" ]}.

(** [{"action": "process", "model": "ace-step", "input_path": "a.wav"}] *)
Definition no_output : gmap string Py.value :=
  <["model" := Py.Str "ace-step"]> no_model_no_output.

End BridgeExamples.

Module SupervisorExamples.
Import Supervisor.

Definition refused : Http.result := Py.Raise (Py.ConnectError "connection refused").

Definition answered (code : Z) : Http.result :=
  Py.Ok {| Http.status_code := code; Http.text := "";
           Http.json := Py.Ok (Py.Dict ∅) |}.

Definition only_uv (name : string) : option string :=
  if String.eqb name "uv" then Some "/usr/bin/uv" else None.

(** A machine on which [uv] is installed and the engine, once
    launched, keeps running. *)
Definition machine : Host :=
  {| now := 0; children := []; which := only_uv;
     sys_executable := Some "/usr/bin/python3";
     spawn := fun _ _ => Py.Ok (None, "");
     trace := [] |}.


Definition manager0 : AceStepProcessManager := init "http://localhost:8000" true.

(** An engine that never answers: every probe is refused after a tenth
    of a second, and sleeps are exact. *)
Definition down : Net :=
  {| reply := fun _ => refused;
     latency := fun _ => (1 # 10)%Q;
     oversleep := fun _ => 0%Q |}.





End SupervisorExamples.

Module ServerExamples.
Import Protocol Server.

(** The engine is down when the request arrives and answers its health
    probe once it has been launched; each probe takes a second. *)
Definition comes_up : Supervisor.Net :=
  {| Supervisor.reply := fun i =>
       match i with
       | 1%nat => SupervisorExamples.refused
       | _ => SupervisorExamples.answered 200
       end;
     Supervisor.latency := fun _ => 1%Q;
     Supervisor.oversleep := fun _ => 0%Q |}.

Definition generated : Http.result :=
  Py.Ok {| Http.status_code := 200; Http.text := "{}";
           Http.json := Py.Ok (Py.Dict ∅) |}.

(** No file exists; looking takes half a second; the engine takes one
    second to answer [/generate]. *)
(** An interpreter that reads the two timeouts used below. *)
Definition read_ms (s : string) : Py.exc Q :=
  if String.eqb s "300000" then Py.Ok 300%Q
  else if String.eqb s "1500" then Py.Ok (3 # 2)%Q
  else Py.Raise (Py.OtherException ("could not convert string to float: '" +:+ s +:+ "'")).

Definition env (files : string → bool) : Env :=
  {| fuel := 60; net := comes_up;
     path_exists := files; exists_secs := (1 # 2)%Q;
     send := fun _ => generated; send_secs := 1%Q;
     environ := ∅;
     seconds_of_ms := read_ms;
     str_seconds := fun _ => "300.0";
     unicode_lower := Examples.as_is |}.

(** Every file exists, and the engine never answers a probe. *)
Definition env_down : Env :=
  {| fuel := 60; net := SupervisorExamples.down;
     path_exists := fun _ => true; exists_secs := (1 # 2)%Q;
     send := fun _ => generated; send_secs := 1%Q;
     environ := ∅;
     seconds_of_ms := read_ms;
     str_seconds := fun _ => "300.0";
     unicode_lower := Examples.as_is |}.

(** The same surroundings with NUEVA_ACESTEP_TIMEOUT_MS set. *)
Definition env_timeout (files : string → bool) (ms : string) : Env :=
  {| fuel := 60; net := comes_up;
     path_exists := files; exists_secs := (1 # 2)%Q;
     send := fun _ => generated; send_secs := 1%Q;
     environ := {[ "NUEVA_ACESTEP_TIMEOUT_MS" := ms ]};
     seconds_of_ms := read_ms;
     str_seconds := fun _ => "300.0";
     unicode_lower := Examples.as_is |}.

Definition client : Client.AceStepClient :=
  {| Client.base_url := "http://localhost:8000"; Client.timeout := 300%Q |}.

(** A service that has not answered a request yet. *)
Definition world : World :=
  {| process_manager := SupervisorExamples.manager0;
     host := SupervisorExamples.machine;
     _client := None;
     engine_calls := [] |}.

(** A service in which a start is in flight: the engine process it
    launched exited at time 1 and left two bytes on stderr that are not
    UTF-8; four seconds later a request arrives. *)
Definition mid_start : World :=
  {| process_manager :=
       Supervisor.set_starting true
         (Supervisor.set_process (Some 0%nat) SupervisorExamples.manager0);
     host :=
       {| Supervisor.now := 5;
          Supervisor.children :=
            [{| Supervisor.args := ["/usr/bin/uv"; "run"; "acestep-api"];
                Supervisor.exits_at := Some 1%Q;
                Supervisor.stderr :=
                  String (ascii_of_nat 255) (String (ascii_of_nat 254) "") |}];
          Supervisor.which := SupervisorExamples.only_uv;
          Supervisor.sys_executable := Some "/usr/bin/python3";
          Supervisor.spawn := fun _ _ => Py.Ok (None, "");
          Supervisor.trace :=
            [Supervisor.StartEntered; Supervisor.Launched 0; Supervisor.Probed] |};
     _client := None;
     engine_calls := [] |}.

Definition no_file : string → bool := fun _ => false.
Definition every_file : string → bool := fun _ => true.

End ServerExamples.


(** * The rest of the package

    - [Lifecycle]    : process_manager.py, [stop], [restart],
                       [get_process_manager]
    - [Main]         : __main__.py, what [main] leaves in the environment
    - [Endpoints]    : server.py, the lifespan handler and the endpoints
                       other than [/process]
    - [Stdio]        : bridge.py, the read loop of [main]
    - [AceStep]      : nueva/ace_step.py, the parameter handling and
                       [_detect_artifacts] of [AceStepProcessor]

    The literal [0.7] of the sources is not a binary64 number; it is
    written as the number it is read as. *)

(** ** acestep_client.py: the payload *)

Module Payload.
Import Protocol.

(** The four entries the dictionary display of [process] names before
    [**request.kwargs] (lines 35-38). *)
Definition named_fields (req : AceStepRequest.t) : gmap string Py.value :=
  <["num_inference_steps" := Py.Int (AceStepRequest.num_inference_steps req)]>
  (<["guidance_scale" := Py.Float (AceStepRequest.guidance_scale req)]>
  (<["prompt" := match AceStepRequest.prompt req with
                 | Some p => Py.Str p | None => Py.None_ end]>
  (<["task" := Py.Str (AceStepRequest.task req)]> ∅))).

End Payload.


(** ** process_manager.py: stop, restart and the global manager *)

Module Lifecycle.
Import Supervisor.

(** What the two signals of [stop] meet at child [pid].
    [terminate] raises, or delivers SIGTERM, on which the child exits
    after so many seconds or not at all; [kill] raises, or delivers
    SIGKILL, on which the child is gone at once. *)
Record Signals := {
  terminate : nat -> Py.exc (option Q);
  kill : nat -> Py.exc unit
}.

Definition set_children (l : list Popen) (h : Host) : Host :=
  {| now := now h; children := l; which := which h;
     sys_executable := sys_executable h; spawn := spawn h; trace := trace h |}.

Definition set_exit (t : option Q) (p : Popen) : Popen :=
  {| args := args p; exits_at := t; stderr := stderr p |}.

(** The earlier of two times that may never come. *)
Definition earliest (a b : option Q) : option Q :=
  match a, b with
  | Some x, Some y => Some (if Qle_bool x y then x else y)
  | Some x, None => Some x
  | None, Some y => Some y
  | None, None => None
  end.

(** A delay; a negative number counts as none. *)
Definition delay (g : Q) : Q := if Qle_bool 0 g then g else 0.

(** The [finally] clause of [stop]. *)
Definition forget (self : AceStepProcessManager) : AceStepProcessManager :=
  set_healthy false (set_process None self).

(** [stop] has no suspension point: it runs in one piece, and the
    clock moves while [wait] blocks. *)
Definition stop (sig : Signals) (self : AceStepProcessManager) (h : Host)
  : AceStepProcessManager * Host :=
  match _process self with
  | None => (self, h)
  | Some pid =>
      match children h !! pid with
      | None => (forget self, h)
      | Some p =>
          if exited (now h) p then
            (* terminate() leaves a dead child alone, wait() returns *)
            (forget self, h)
          else
            match terminate sig pid with
            | Py.Raise _ => (forget self, h)
            | Py.Ok grace =>
                let death :=
                  earliest (exits_at p) ((fun g => now h + delay g)%Q <$> grace) in
                let p := set_exit death p in
                let deadline := (now h + 10)%Q in
                let expired :=
                  (* TimeoutExpired: kill and wait *)
                  let h := set_now (Qred deadline)
                             (set_children (<[pid := p]> (children h)) h) in
                  match kill sig pid with
                  | Py.Raise _ => (forget self, h)
                  | Py.Ok _ =>
                      (forget self,
                       set_children
                         (<[pid := set_exit (Some (now h)) p]> (children h)) h)
                  end in
                match death with
                | Some d =>
                    if Qle_bool d deadline then
                      (forget self,
                       set_now (Qred d)
                         (set_children (<[pid := p]> (children h)) h))
                    else expired
                | None => expired
                end
            end
      end
  end.

(** [restart] up to its first suspension point. *)
Definition restart (sig : Signals) (self : AceStepProcessManager) (h : Host)
  : state :=
  let '(self, h) := stop sig self h in
  start self h.

(** [restart], awaited to its end with nothing else on the loop. *)
Definition call_restart (fuel : nat) (net : Net) (sig : Signals)
    (self : AceStepProcessManager) (h : Host)
  : option (Py.exc bool * AceStepProcessManager * Host) :=
  let '(t, self, h) := restart sig self h in
  s ← drive fuel net 0 (alone self h t);
  match tasks s with
  | [Finished r] => Some (Py.Ok r, manager s, host s)
  | [Raised e] => Some (Py.Raise e, manager s, host s)
  | _ => None
  end.

(** [get_process_manager]: the module-level [_process_manager] is
    passed in and out. *)
Definition get_process_manager (unicode_lower : string -> string)
    (environ : gmap string string)
    (_process_manager : option AceStepProcessManager)
  : AceStepProcessManager * option AceStepProcessManager :=
  match _process_manager with
  | Some m => (m, Some m)
  | None =>
      let acestep_url :=
        default "http://localhost:8000" (environ !! "NUEVA_ACESTEP_UPSTREAM_URL") in
      let auto_start :=
        String.eqb (Py.lower unicode_lower
                      (default "true" (environ !! "NUEVA_ACESTEP_AUTO_START")))
                   "true" in
      let m := init acestep_url auto_start in
      (m, Some m)
  end.

(** Every child the machine has launched has exited. *)
Definition all_exited (h : Host) : bool :=
  forallb (exited (now h)) (children h).

End Lifecycle.

(** ** __main__.py *)

Module Main.

(** The two options of a command line that reach the server:
    [--acestep-url URL], when given, and whether [--auto-start] is
    present. *)
Record CommandLine := {
  acestep_url : option string;
  auto_start : bool
}.

(** [args.acestep_url]: the option, or its default from the
    environment. *)
Definition args_acestep_url (environ : gmap string string) (cl : CommandLine)
  : string :=
  default (default "http://localhost:8000" (environ !! "NUEVA_ACESTEP_UPSTREAM_URL"))
          (acestep_url cl).

(** [args.auto_start]: a [store_true] option is true when present and
    its default otherwise. *)
Definition args_auto_start (unicode_lower : string -> string)
    (environ : gmap string string) (cl : CommandLine) : bool :=
  if auto_start cl then true
  else String.eqb (Py.lower unicode_lower
                     (default "true" (environ !! "NUEVA_ACESTEP_AUTO_START")))
                  "true".

(** [str(b)] *)
Definition str_bool (b : bool) : string := if b then "True" else "False".

(** The environment [main] hands to the server, for a command line
    that parses. *)
Definition main (unicode_lower : string -> string)
    (environ : gmap string string) (cl : CommandLine) : gmap string string :=
  <["NUEVA_ACESTEP_AUTO_START" :=
      Py.lower unicode_lower (str_bool (args_auto_start unicode_lower environ cl))]>
  (<["NUEVA_ACESTEP_UPSTREAM_URL" := args_acestep_url environ cl]> environ).

End Main.

(** ** server.py: lifespan and the endpoints other than /process *)

Module Endpoints.
Import Protocol Server.

(** How an endpoint that answers with a JSON object ends. *)
Inductive reply :=
| Json (body : gmap string Py.value)
| Error (status_code : Z) (detail : string)
| Crash (e : Py.exn).

Definition with_supervisor (pm : Supervisor.AceStepProcessManager)
    (h : Supervisor.Host) (w : World) : World :=
  {| process_manager := pm; host := h; _client := _client w;
     engine_calls := engine_calls w |}.

Definition with_client (c : option Client.AceStepClient) (w : World) : World :=
  {| process_manager := process_manager w; host := host w; _client := c;
     engine_calls := engine_calls w |}.

(** The members of [AceStepMode], in definition order. *)
Definition all_modes : list AceStepMode :=
  [TRANSFORM; COVER; REPAINT; EXTRACT; LAYER; COMPLETE].

(** [AceStepMode(s)]: the member with that value, or [ValueError]. *)
Definition AceStepMode_of (s : string) : Py.exc AceStepMode :=
  if String.eqb s "transform" then Py.Ok TRANSFORM
  else if String.eqb s "cover" then Py.Ok COVER
  else if String.eqb s "repaint" then Py.Ok REPAINT
  else if String.eqb s "extract" then Py.Ok EXTRACT
  else if String.eqb s "layer" then Py.Ok LAYER
  else if String.eqb s "complete" then Py.Ok COMPLETE
  else Py.Raise (Py.OtherException ("'" +:+ s +:+ "' is not a valid AceStepMode")).

(** *** lifespan *)

(** Before the [yield]: the answer of [ensure_running] is dropped; an
    exception of [ensure_running] leaves the handler, and the service
    does not come up. *)
Definition startup (fuel : nat) (net : Supervisor.Net) (w : World)
  : option (Py.exc unit * World) :=
  if Supervisor.auto_start (process_manager w) then
    match Supervisor.call fuel net Supervisor.EnsureRunning
            (process_manager w) (host w) with
    | Some (Py.Ok _, pm, h) => Some (Py.Ok tt, with_supervisor pm h w)
    | Some (Py.Raise e, pm, h) => Some (Py.Raise e, with_supervisor pm h w)
    | None => None
    end
  else Some (Py.Ok tt, w).

(** After the [yield]. *)
Definition shutdown (sig : Lifecycle.Signals) (w : World) : World :=
  let '(pm, h) := Lifecycle.stop sig (process_manager w) (host w) in
  with_supervisor pm h w.

(** *** GET /health and GET /status

    [probe] is what the engine answers to the supervisor's GET and
    [probe_secs] the time that takes. *)
Definition health_body (acestep_healthy : bool) : gmap string Py.value :=
  <["acestep" := Py.Str (if acestep_healthy then "connected" else "disconnected")]>
  (<["bridge" := Py.Str "running"]>
  (<["status" := Py.Str (if acestep_healthy then "healthy" else "degraded")]> ∅)).

Definition health_check (probe : Http.result) (probe_secs : Q) (w : World)
  : option (reply * World) :=
  h ← Supervisor.elapse probe_secs (Supervisor.record Supervisor.Probed (host w));
  match Supervisor.health_check (process_manager w) (fun _ => probe) with
  | Py.Ok (acestep_healthy, pm) =>
      Some (Json (health_body acestep_healthy), with_supervisor pm h w)
  | Py.Raise e => Some (Crash e, with_supervisor (process_manager w) h w)
  end.

Definition status_body (pm : Supervisor.AceStepProcessManager)
    (acestep_healthy : bool) (models : Py.value) : gmap string Py.value :=
  <["available_modes" := str_list (mode_value <$> all_modes)]>
  (<["available_models" := models]>
  (<["auto_start_enabled" := Py.Bool (Supervisor.auto_start pm)]>
  (<["acestep_url" := Py.Str (Supervisor.acestep_url pm)]>
  (<["acestep_connected" := Py.Bool acestep_healthy]>
  (<["bridge_version" := Py.Str "0.1.0"]> ∅))))).

(** [status] also gives the requests that went out through the engine
    client.  [get_client()] (line 83) is outside every [try]; the
    interpreter reads the timeout with [seconds_of_ms] from
    [environ]. *)
Definition status (probe : Http.result) (probe_secs : Q)
    (seconds_of_ms : string -> Py.exc Q) (environ : gmap string string)
    (send : Http.transport) (send_secs : Q) (w : World)
  : option (reply * World * list Http.request) :=
  h ← Supervisor.elapse probe_secs (Supervisor.record Supervisor.Probed (host w));
  match Supervisor.health_check (process_manager w) (fun _ => probe) with
  | Py.Ok (acestep_healthy, pm) =>
      match ClientProbes.get_client seconds_of_ms environ (_client w) with
      | Py.Raise e => Some (Crash e, with_supervisor pm h w, [])
      | Py.Ok (client, created) =>
          let w := with_client created w in
          if acestep_healthy then
            h ← Supervisor.elapse send_secs h;
            let sent := [ClientProbes.models_request client] in
            match ClientProbes.get_models client send with
            | Py.Ok models =>
                Some (Json (status_body pm acestep_healthy models),
                      with_supervisor pm h w, sent)
            | Py.Raise e => Some (Crash e, with_supervisor pm h w, sent)
            end
          else
            Some (Json (status_body pm acestep_healthy (Py.List_ [])),
                  with_supervisor pm h w, [])
      end
  | Py.Raise e => Some (Crash e, with_supervisor (process_manager w) h w, [])
  end.

(** *** POST /restart-acestep *)

Definition restarted : gmap string Py.value :=
  <["healthy" := Py.Bool true]> (<["status" := Py.Str "restarted"]> ∅).

Definition restart_acestep (fuel : nat) (net : Supervisor.Net)
    (sig : Lifecycle.Signals) (w : World) : option (reply * World) :=
  match Lifecycle.call_restart fuel net sig (process_manager w) (host w) with
  | Some (Py.Ok success, pm, h) =>
      if (success : bool) then Some (Json restarted, with_supervisor pm h w)
      else Some (Error 500 "Failed to restart ACE-Step API", with_supervisor pm h w)
  | Some (Py.Raise e, pm, h) => Some (Crash e, with_supervisor pm h w)
  | None => None
  end.

(** *** POST /process/upload *)

(** The multipart form: the file with its name and bytes, and the
    three form fields after the framework has typed them. *)
Record Upload := {
  filename : option string;
  content : string;
  mode : string;
  prompt : option string;
  intensity : float
}.

(** The surroundings of one upload: those of [/process], what
    creating the directory, opening the staged file for writing and
    removing a file that exists meet, and the files the engine leaves
    behind when it is called. *)
Record UploadEnv := {
  base : Env;
  makedirs : string -> Py.exc unit;
  open_wb : string -> Py.exc unit;
  remove : string -> Py.exc unit;
  engine_output : gmap string string
}.

Inductive upload_outcome :=
| FileResponse (path : string) (download_name : string)
| JSONResponse (r : NuevaResponse.t)
| Failed (status_code : Z) (detail : string)
| Crashed (e : Py.exn).

(** [os.path.join(a, b)] for a [b] that is not absolute. *)
Definition path_join (a b : string) : string :=
  match a with
  | EmptyString => b
  | _ =>
      match String.get (String.length a - 1) a with
      | Some "/"%char => a +:+ b
      | _ => a +:+ "/" +:+ b
      end
  end.

(** [NuevaRequest(mode=..., input_path=..., output_path=...,
    prompt=..., intensity=...)]: the schema checks the range of
    [intensity], the other fields take their defaults. *)
Definition NuevaRequest_of (m : AceStepMode) (input_path output_path : string)
    (prompt : option string) (intensity : float) : Py.exc NuevaRequest.t :=
  if NuevaRequest.intensity_in_range intensity then
    Py.Ok {| NuevaRequest.mode := m;
             NuevaRequest.input_path := input_path;
             NuevaRequest.output_path := output_path;
             NuevaRequest.prompt := prompt;
             NuevaRequest.intensity := intensity;
             NuevaRequest.preserve_melody := true;
             NuevaRequest.preserve_tempo := true;
             NuevaRequest.preserve_key := true;
             NuevaRequest.extract_target := None;
             NuevaRequest.add_layers := None;
             NuevaRequest.remove_layers := None;
             NuevaRequest.duration_seconds := None;
             NuevaRequest.seed := None;
             NuevaRequest.quantization := None;
             NuevaRequest.extra_params := ∅ |}
  else Py.Raise (Py.OtherException "validation error for NuevaRequest: intensity").

(** The surroundings of [/process] when the file system holds
    [files]. *)
Definition on_disk (env : Env) (files : gmap string string) : Env :=
  {| fuel := fuel env; net := net env;
     path_exists := fun p => bool_decide (is_Some (files !! p));
     exists_secs := exists_secs env;
     send := send env; send_secs := send_secs env;
     environ := environ env;
     seconds_of_ms := seconds_of_ms env;
     str_seconds := str_seconds env;
     unicode_lower := unicode_lower env |}.

(** [os.getenv("NUEVA_TEMP_DIR", "/tmp/nueva")] *)
Definition temp_dir (uenv : UploadEnv) : string :=
  default "/tmp/nueva" (environ (base uenv) !! "NUEVA_TEMP_DIR").

Definition staged_input (uenv : UploadEnv) (up : Upload) (w : World) : string :=
  path_join (temp_dir uenv)
    ("input_" +:+ Py.str_int (Py.int_of (Supervisor.now (host w)))
     +:+ "_" +:+ Py.fmt_opt_str (filename up)).

Definition staged_output (uenv : UploadEnv) (up : Upload) (w : World) : string :=
  path_join (temp_dir uenv)
    ("output_" +:+ Py.str_int (Py.int_of (Supervisor.now (host w)))
     +:+ "_" +:+ Py.fmt_opt_str (filename up)).

(** The body of the [try] block, with the files as it leaves them. *)
Definition upload_try (uenv : UploadEnv) (up : Upload)
    (input_path output_path : string)
    (files : gmap string string) (w : World)
  : option (upload_outcome * gmap string string * World) :=
  match open_wb uenv input_path with
  | Py.Raise e => Some (Crashed e, files, w)
  | Py.Ok _ =>
      let files := <[input_path := content up]> files in
      match (m ← AceStepMode_of (mode up);
             NuevaRequest_of m input_path output_path (prompt up) (intensity up)) with
      | Py.Raise e => Some (Crashed e, files, w)
      | Py.Ok request =>
          match process_audio (on_disk (base uenv) files) request w with
          | None => None
          | Some (HTTPException status_code detail, w) =>
              Some (Failed status_code detail, files, w)
          | Some (Unhandled e, w) => Some (Crashed e, files, w)
          | Some (Returned response, w) =>
              let files := engine_output uenv ∪ files in
              match NuevaResponse.output_path response with
              | Some p =>
                  if (NuevaResponse.success response && Py.truthy_str p
                      && bool_decide (is_Some (files !! p)))%bool
                  then Some (FileResponse p
                               ("processed_" +:+ Py.fmt_opt_str (filename up)),
                             files, w)
                  else Some (JSONResponse response, files, w)
              | None => Some (JSONResponse response, files, w)
              end
          end
      end
  end.

(** The [finally] clause (lines 204-209): [aiofiles.os.remove] raises
    when the file is not there or cannot be removed, and the handler
    swallows that; the file then stays. *)
Definition cleanup (uenv : UploadEnv) (input_path : string)
    (files : gmap string string) : gmap string string :=
  match files !! input_path with
  | None => files                       (* FileNotFoundError *)
  | Some _ =>
      match remove uenv input_path with
      | Py.Ok _ => delete input_path files
      | Py.Raise _ => files             (* PermissionError and the like *)
      end
  end.

Definition process_uploaded_audio (uenv : UploadEnv) (up : Upload)
    (files : gmap string string) (w : World)
  : option (upload_outcome * gmap string string * World) :=
  match makedirs uenv (temp_dir uenv) with
  | Py.Raise e => Some (Crashed e, files, w)
  | Py.Ok _ =>
      let input_path := staged_input uenv up w in
      let output_path := staged_output uenv up w in
      match upload_try uenv up input_path output_path files w with
      | Some (out, files, w) => Some (out, cleanup uenv input_path files, w)
      | None => None
      end
  end.

End Endpoints.

(** ** bridge.py: the read loop *)

Module Stdio.
Import Bridge.

(** [c.isspace()] for a character below 256: the controls 9 to 13
    and 28 to 31, the space, NEL and the no-break space. *)
Definition is_space (c : ascii) : bool :=
  let n := nat_of_ascii c in
  (((9 <=? n)%nat && (n <=? 13)%nat) || ((28 <=? n)%nat && (n <=? 32)%nat)
   || (n =? 133)%nat || (n =? 160)%nat)%bool.

Fixpoint lstrip (s : string) : string :=
  match s with
  | EmptyString => EmptyString
  | String c s' => if is_space c then lstrip s' else s
  end.

Fixpoint rstrip (s : string) : string :=
  match s with
  | EmptyString => EmptyString
  | String c s' =>
      match rstrip s' with
      | EmptyString => if is_space c then EmptyString else String c EmptyString
      | r => String c r
      end
  end.

(** [line.strip()] *)
Definition strip (s : string) : string := rstrip (lstrip s).

(** What [json.loads] makes of a line. *)
Inductive loaded :=
| Parsed (data : Py.value)
| JSONDecodeError (why : string)
| OtherError (e : Py.exn).

Section WithRuntime.
Variable json_loads : string -> loaded.
Variable json_dumps : Py.value -> string.
Variable str_value : Py.value -> string.

(** The loop body for one stripped, non-empty line: the object that
    is printed. *)
Definition serve (self : AIBridge) (line : string) (w : World)
  : gmap string Py.value * World :=
  match json_loads line with
  | Parsed data => serve_line json_dumps str_value self (Some data) "" w
  | JSONDecodeError why => serve_line json_dumps str_value self None why w
  | OtherError e =>
      (to_json {| success := false; response_id := Py.None_;
                  tool_used := None; reasoning := Py.None_;
                  message := Py.None_; neural_changes := None;
                  error := Some (Py.str_exn e);
                  error_code := Some "INTERNAL_ERROR" |}, w)
  end.

(** [main] over the lines of standard input: the objects printed,
    in order. *)
Fixpoint main (self : AIBridge) (stdin : list string) (w : World)
  : list (gmap string Py.value) * World :=
  match stdin with
  | [] => ([], w)
  | line :: stdin =>
      let line := strip line in
      if negb (Py.truthy_str line) then main self stdin w
      else
        let '(out, w) := serve self line w in
        let '(outs, w) := main self stdin w in
        (out :: outs, w)
  end.

End WithRuntime.

End Stdio.

(** ** nueva/ace_step.py *)

Module AceStep.

(** The binary64 number the literal [0.7] denotes. *)
Definition seven_tenths : float := 0x1.6666666666666p-1%float.

Definition DEFAULT_PARAMS : gmap string Py.value :=
  <["guidance_scale" := Py.Float 3%float]>
  (<["inference_steps" := Py.Int 8]>
  (<["intensity" := Py.Float seven_tenths]>
  (<["preserve_melody" := Py.Bool true]>
  (<["mode" := Py.Str "transform"]> ∅)))).

(** [{**self.DEFAULT_PARAMS, **(params or {})}]: unpacking anything
    but a mapping raises [TypeError]. *)
Definition merged (params : Py.value) : Py.exc (gmap string Py.value) :=
  if negb (Py.truthy params) then Py.Ok DEFAULT_PARAMS
  else
    match params with
    | Py.Dict d => Py.Ok (d ∪ DEFAULT_PARAMS)
    | _ => Py.Raise (Py.OtherException "argument after ** must be a mapping")
    end.

(** [prompt or params.get("prompt", "transform the audio")] *)
Definition effective_prompt (prompt : Py.value) (params : gmap string Py.value)
  : Py.value :=
  if Py.truthy prompt then prompt
  else default (Py.Str "transform the audio") (params !! "prompt").

(** [mode == name] *)
Definition mode_is (mode : Py.value) (name : string) : bool :=
  match mode with Py.Str s => String.eqb s name | _ => false end.

Definition when (b : bool) (tags : list string) : list string :=
  if b then tags else [].

(** [_detect_artifacts]; [prompt.lower()] needs a string, and the
    third parameter, [params], is not used. *)
Definition _detect_artifacts (unicode_lower : string -> string)
    (mode prompt : Py.value) : Py.exc (list string) :=
  match prompt with
  | Py.Str p =>
      let prompt_lower := Py.lower unicode_lower p in
      let has (word : string) := Py.contains word prompt_lower in
      Py.Ok
        (when (mode_is mode "cover") ["different_timbre"; "style_variation"]
         ++ when (mode_is mode "repaint") ["localized_changes"]
         ++ when (has "vintage" || has "retro")
              ["intentional_coloration"; "frequency_rolloff"]
         ++ when (has "lo-fi" || has "lofi")
              ["bitcrushing"; "noise"; "sample_rate_artifacts"]
         ++ when (has "vinyl") ["high_frequency_noise"; "subtle_crackle"]
         ++ when (has "tape") ["subtle_hiss"; "saturation"]
         ++ when (has "8-bit" || has "chiptune")
              ["quantization"; "limited_polyphony"])%list
  | _ => Py.Raise (Py.OtherException "object has no attribute 'lower'")
  end.

(** The body of the request [_process_via_api] posts (lines 287-300). *)
Definition request_data (input_path output_path : string)
    (prompt params : Py.value) : Py.exc (gmap string Py.value) :=
  params ← merged params;
  let prompt := effective_prompt prompt params in
  mret (<["guidance_scale" := default (Py.Float 3%float) (params !! "guidance_scale")]>
       (<["num_inference_steps" := default (Py.Int 8) (params !! "inference_steps")]>
       (<["preserve_melody" := default (Py.Bool true) (params !! "preserve_melody")]>
       (<["strength" := default (Py.Float seven_tenths) (params !! "intensity")]>
       (<["mode" := default (Py.Str "transform") (params !! "mode")]>
       (<["output_path" := Py.Str output_path]>
       (<["prompt" := prompt]>
       (<["audio_path" := Py.Str input_path]> ∅)))))))).

End AceStep.

(** ** What holds of the supervisor between two events *)

Module Between.
Import Supervisor.

(** The answer of a finished call and the health flag: a call that
    has ended answered what [_healthy] holds, and the flag is down
    while the call sleeps. *)
Definition reports (t : task) (self : AceStepProcessManager) : Prop :=
  match t with
  | Finished r => _healthy self = r
  | AwaitSleep _ _ _ | Ready Start => _healthy self = false
  | _ => True
  end.

(** A call that has ended with the answer true found the engine
    healthy. *)
Definition vouched (t : task) (self : AceStepProcessManager) : Prop :=
  match t with
  | Finished true => _healthy self = true
  | _ => True
  end.

(** A lone call that cannot meet the one exception of the class that
    nothing catches: a call that has not yet looked at [_starting]
    finds it down or the manager without a process, and a call that
    polls outside the [try] of [start] finds the manager without a
    process. *)
Definition sheltered (t : task) (self : AceStepProcessManager) : Prop :=
  match t with
  | Ready _ | AwaitEnsureProbe => _starting self = false ∨ _process self = None
  | AwaitWaitProbe false _ | AwaitSleep false _ _ => _process self = None
  | Raised _ => False
  | _ => True
  end.

(** A task of [ensure_running] that has not gone past its first
    probe, or has ended. *)
Definition probing (t : task) : Prop :=
  match t with
  | Ready EnsureRunning | AwaitEnsureProbe | Finished _ => True
  | _ => False
  end.

(** Where a call that began at [t_call] stands on the clock: [T] and
    [I] are the two periods of the manager, [L] and [O] bound the
    duration of a probe and the overshoot of a sleep, and [D] is the
    time the call may spend before it enters the polling loop. *)
Definition on_time (t_call T I L O D : Q) (t : task)
    (self : AceStepProcessManager) (h : Host) : Prop :=
  startup_timeout self = T ∧ health_check_interval self = I
  ∧ match t with
    | Ready EnsureRunning | AwaitEnsureProbe => (now h == t_call)%Q ∧ (L <= D)%Q
    | Ready Start => (now h == t_call)%Q
    | AwaitWaitProbe _ t0 => (t0 <= t_call + D)%Q ∧ (now h - t0 < T)%Q
    | AwaitSleep _ t0 wake =>
        (t0 <= t_call + D)%Q ∧ (now h - t0 < T + L)%Q ∧ (wake == now h + I)%Q
    | Finished _ | Raised _ => (now h <= t_call + D + T + L + I + O)%Q
    end.

(** A lone call on a machine where the manager holds no child and
    none has been launched: until the call has gone past its first
    probe nothing changes, and afterwards at most one child exists,
    which the manager then holds. *)
Definition at_most_one (t : task) (self : AceStepProcessManager) (h : Host)
  : Prop :=
  match t with
  | Ready _ | AwaitEnsureProbe => children h = [] ∧ _process self = None
  | _ =>
      (children h = [] ∧ _process self = None)
      ∨ (∃ c, children h = [c] ∧ _process self = Some 0%nat)
  end.


(** A call has returned or raised. *)
Definition finished (t : task) : Prop :=
  match t with Finished _ | Raised _ => True | _ => False end.

End Between.

(** * Further concrete surroundings *)

Module LifecycleExamples.
Import Supervisor Lifecycle.

(** The child exits two seconds after SIGTERM. *)
Definition obedient : Signals :=
  {| terminate := fun _ => Py.Ok (Some 2%Q); kill := fun _ => Py.Ok tt |}.

(** The child ignores SIGTERM. *)
Definition stubborn : Signals :=
  {| terminate := fun _ => Py.Ok None; kill := fun _ => Py.Ok tt |}.

(** A machine with one engine process, launched at time 0 and held by
    the manager. *)
Definition engine : Popen :=
  {| args := ["/usr/bin/uv"; "run"; "acestep-api"]; exits_at := None; stderr := "" |}.

Definition running_machine : Host :=
  {| now := 7; children := [engine]; which := SupervisorExamples.only_uv;
     sys_executable := Some "/usr/bin/python3";
     spawn := fun _ _ => Py.Ok (None, "");
     trace := [StartEntered; Launched 0; Probed; StartLeft] |}.

Definition holding : AceStepProcessManager :=
  set_healthy true (set_process (Some 0%nat) SupervisorExamples.manager0).

(** The engine answers every probe. *)
Definition up : Net :=
  {| reply := fun _ => SupervisorExamples.answered 200;
     latency := fun _ => (1 # 10)%Q;
     oversleep := fun _ => 0%Q |}.

End LifecycleExamples.

Module EndpointExamples.
Import Protocol Server Endpoints.

Definition models_body : Http.result :=
  Py.Ok {| Http.status_code := 200; Http.text := "";
           Http.json := Py.Ok (Py.Dict {[ "models" := str_list ["ace-step-1.5"] ]}) |}.


(** The same, where the staged file cannot be removed. *)
Definition sticky_env : UploadEnv :=
  {| base := ServerExamples.env ServerExamples.no_file;
     makedirs := fun _ => Py.Ok tt;
     open_wb := fun _ => Py.Ok tt;
     remove := fun _ => Py.Raise (Py.OtherException "Permission denied");
     engine_output := ∅ |}.

Definition song (mode : string) (intensity : float) : Upload :=
  {| filename := Some "song.wav"; content := "RIFF"; mode := mode;
     prompt := Some "make it jazz"; intensity := intensity |}.

End EndpointExamples.

(** * The guidance scale

    Round-to-nearest-even is monotone, hence so is [3 + x * 12] as the
    machine computes it. *)

Section Shifts.
Import Binary64.
Local Open Scope Z_scope.

Lemma iter_pos_nat {A} (f : A → A) (p : positive) (x : A) :
  SpecFloat.iter_pos f p x = Nat.iter (Pos.to_nat p) f x.
Proof.
  revert x. induction p as [p IH|p IH|]; intros x; cbn [SpecFloat.iter_pos].
  - rewrite !IH, Pos2Nat.inj_xI, <- Nat.iter_succ_r, <- Nat.iter_add.
    f_equal. lia.
  - rewrite !IH, Pos2Nat.inj_xO, <- Nat.iter_add. f_equal. lia.
  - reflexivity.
Qed.

Lemma shr_1_nonneg m r s :
  0 ≤ m →
  shr_1 {| shr_m := m; shr_r := r; shr_s := s |}
  = {| shr_m := m / 2; shr_r := Z.odd m; shr_s := r || s |}.
Proof.
  intros Hm. destruct m as [|[p|p|]|p]; try lia; simpl shr_1; f_equal.
  - apply Z.div_unique with 1; lia.
  - apply Z.div_unique with 0; lia.
Qed.

Lemma half_split (h a : Z) :
  0 < h → 0 ≤ a →
  a / (2 * h) = a / h / 2
  ∧ a mod (2 * h) = (if Z.odd (a / h) then h else 0) + a mod h.
Proof.
  intros Hh Ha.
  pose proof (Z.div_mod a h ltac:(lia)) as E.
  pose proof (Z.mod_pos_bound a h Hh) as Hb.
  pose proof (Zdiv2_odd_eqn (a / h)) as Eo. rewrite Z.div2_div in Eo.
  assert (0 ≤ a / h) by (apply Z.div_pos; lia).
  set (c := if Z.odd (a / h) then h else 0).
  assert (Hc : a = 2 * h * (a / h / 2) + (c + a mod h) ∧ 0 ≤ c + a mod h < 2 * h).
  { unfold c. destruct (Z.odd (a / h)); nia. }
  destruct Hc as [Hc1 Hc2]. split.
  - symmetry. by apply Z.div_unique with (c + a mod h); [lia|].
  - symmetry. by apply Z.mod_unique with (a / h / 2); [lia|].
Qed.

Lemma shr_iter (k : nat) (m : Z) :
  0 ≤ m →
  Nat.iter k shr_1 {| shr_m := m; shr_r := false; shr_s := false |}
  = {| shr_m := m / 2 ^ Z.of_nat k;
       shr_r := round_bit (Z.of_nat k) m;
       shr_s := sticky_bit (Z.of_nat k) m |}.
Proof.
  intros Hm. induction k as [|k IH].
  - simpl. unfold round_bit, sticky_bit. simpl. by rewrite Z.div_1_r.
  - rewrite Nat.iter_succ, IH.
    rewrite shr_1_nonneg by (apply Z.div_pos; lia).
    assert (Hp : 0 < 2 ^ Z.of_nat k) by (apply Z.pow_pos_nonneg; lia).
    f_equal.
    + rewrite Nat2Z.inj_succ, Z.pow_succ_r by lia.
      rewrite Z.div_div by lia. f_equal. lia.
    + unfold round_bit. rewrite Nat2Z.inj_succ.
      replace (Z.succ (Z.of_nat k) =? 0) with false by (symmetry; apply Z.eqb_neq; lia).
      by replace (Z.succ (Z.of_nat k) - 1) with (Z.of_nat k) by lia.
    + unfold round_bit, sticky_bit. rewrite Nat2Z.inj_succ.
      replace (Z.succ (Z.of_nat k) =? 0) with false by (symmetry; apply Z.eqb_neq; lia).
      replace (Z.succ (Z.of_nat k) - 1) with (Z.of_nat k) by lia.
      destruct (Z.of_nat k =? 0) eqn:E0.
      * apply Z.eqb_eq in E0. rewrite E0. simpl. by rewrite Z.mod_1_r.
      * apply Z.eqb_neq in E0.
        assert (Hq : 0 < 2 ^ (Z.of_nat k - 1)) by (apply Z.pow_pos_nonneg; lia).
        destruct (half_split (2 ^ (Z.of_nat k - 1)) m Hq Hm) as [_ Hs].
        replace (2 * 2 ^ (Z.of_nat k - 1)) with (2 ^ Z.of_nat k) in Hs
          by (rewrite <- Z.pow_succ_r by lia; f_equal; lia).
        rewrite Hs.
        pose proof (Z.mod_pos_bound m (2 ^ (Z.of_nat k - 1)) Hq).
        destruct (Z.odd (m / 2 ^ (Z.of_nat k - 1))); simpl.
        -- symmetry. apply negb_true_iff, Z.eqb_neq. lia.
        -- done.
Qed.

(** Rounding the result of [k] shifts is [rnd]. *)
Lemma round_shr (k m : Z) :
  0 ≤ k → 0 ≤ m →
  round_nearest_even (m / 2 ^ k)
    (loc_of_shr_record {| shr_m := m / 2 ^ k;
                          shr_r := round_bit k m;
                          shr_s := sticky_bit k m |})
  = rnd k m.
Proof.
  intros Hk Hm. unfold rnd, round_bit, sticky_bit. cbv zeta.
  destruct (k =? 0) eqn:E0.
  - apply Z.eqb_eq in E0. subst k. simpl. rewrite Z.mod_1_r, Z.div_1_r. done.
  - apply Z.eqb_neq in E0.
    assert (Hq : 0 < 2 ^ (k - 1)) by (apply Z.pow_pos_nonneg; lia).
    destruct (half_split (2 ^ (k - 1)) m Hq Hm) as [Hd Hs].
    replace (2 * 2 ^ (k - 1)) with (2 ^ k) in *
      by (rewrite <- Z.pow_succ_r by lia; f_equal; lia).
    rewrite Hs.
    assert (E2 : 2 ^ k = 2 * 2 ^ (k - 1))
      by (rewrite <- Z.pow_succ_r by lia; f_equal; lia).
    pose proof (Z.mod_pos_bound m (2 ^ (k - 1)) Hq) as Hb.
    destruct (Z.odd (m / 2 ^ (k - 1))); simpl;
      destruct (m mod 2 ^ (k - 1) =? 0) eqn:Em; simpl.
    + apply Z.eqb_eq in Em. rewrite Em.
      replace (2 ^ k <? 2 * (2 ^ (k - 1) + 0)) with false
        by (symmetry; apply Z.ltb_ge; lia).
      replace (2 ^ k =? 2 * (2 ^ (k - 1) + 0)) with true
        by (symmetry; apply Z.eqb_eq; lia).
      simpl. rewrite <- Z.negb_odd. by destruct (Z.odd (m / 2 ^ k)).
    + apply Z.eqb_neq in Em.
      by replace (2 ^ k <? 2 * (2 ^ (k - 1) + m mod 2 ^ (k - 1))) with true
        by (symmetry; apply Z.ltb_lt; lia).
    + apply Z.eqb_eq in Em. rewrite Em.
      replace (2 ^ k <? 2 * (0 + 0)) with false by (symmetry; apply Z.ltb_ge; lia).
      by replace (2 ^ k =? 2 * (0 + 0)) with false by (symmetry; apply Z.eqb_neq; lia).
    + replace (2 ^ k <? 2 * (0 + m mod 2 ^ (k - 1))) with false
        by (symmetry; apply Z.ltb_ge; lia).
      by replace (2 ^ k =? 2 * (0 + m mod 2 ^ (k - 1))) with false
        by (symmetry; apply Z.eqb_neq; lia).
Qed.

End Shifts.

Section Rnd.
Import Binary64.
Local Open Scope Z_scope.

Lemma rnd_bounds k m : m / 2 ^ k ≤ rnd k m ≤ m / 2 ^ k + 1.
Proof. unfold rnd. cbv zeta. case_match; lia. Qed.

Lemma rnd_exact k c : 0 ≤ k → rnd k (c * 2 ^ k) = c.
Proof.
  intros Hk. unfold rnd. cbv zeta.
  assert (0 < 2 ^ k) by (apply Z.pow_pos_nonneg; lia).
  rewrite Z.div_mul, Z.mod_mul by lia.
  replace (2 ^ k <? 2 * 0) with false by (symmetry; apply Z.ltb_ge; lia).
  by replace (2 ^ k =? 2 * 0) with false by (symmetry; apply Z.eqb_neq; lia).
Qed.

Lemma rnd_mono k m1 m2 : 0 ≤ k → m1 ≤ m2 → rnd k m1 ≤ rnd k m2.
Proof.
  intros Hk Hm.
  assert (Hp : 0 < 2 ^ k) by (apply Z.pow_pos_nonneg; lia).
  pose proof (Z.div_le_mono m1 m2 (2 ^ k) Hp Hm) as Hq.
  destruct (Z.eq_dec (m1 / 2 ^ k) (m2 / 2 ^ k)) as [E|N].
  - unfold rnd. cbv zeta. rewrite E.
    pose proof (Z.div_mod m1 (2 ^ k) ltac:(lia)) as E1.
    pose proof (Z.div_mod m2 (2 ^ k) ltac:(lia)) as E2.
    rewrite E in E1.
    assert (Hr : m1 mod 2 ^ k ≤ m2 mod 2 ^ k) by lia.
    destruct (2 ^ k <? 2 * (m1 mod 2 ^ k)) eqn:L1;
      destruct (2 ^ k <? 2 * (m2 mod 2 ^ k)) eqn:L2;
      destruct (2 ^ k =? 2 * (m1 mod 2 ^ k)) eqn:Q1;
      destruct (2 ^ k =? 2 * (m2 mod 2 ^ k)) eqn:Q2;
      destruct (Z.odd (m2 / 2 ^ k)); simpl; lia.
  - pose proof (rnd_bounds k m1). pose proof (rnd_bounds k m2). lia.
Qed.

Lemma rnd_scale k j m : 0 ≤ k → 0 ≤ j → rnd (k + j) (m * 2 ^ j) = rnd k m.
Proof.
  intros Hk Hj. unfold rnd. cbv zeta.
  assert (Hpk : 0 < 2 ^ k) by (apply Z.pow_pos_nonneg; lia).
  assert (Hpj : 0 < 2 ^ j) by (apply Z.pow_pos_nonneg; lia).
  rewrite Z.pow_add_r by lia.
  rewrite Z.div_mul_cancel_r by lia.
  replace ((m * 2 ^ j) mod (2 ^ k * 2 ^ j)) with ((m mod 2 ^ k) * 2 ^ j)
    by (rewrite Z.mul_mod_distr_r; lia).
  replace (2 ^ k * 2 ^ j <? 2 * (m mod 2 ^ k * 2 ^ j))
    with (2 ^ k <? 2 * (m mod 2 ^ k)).
  2:{ destruct (2 ^ k <? 2 * (m mod 2 ^ k)) eqn:L; symmetry.
      - apply Z.ltb_lt in L. apply Z.ltb_lt. nia.
      - apply Z.ltb_ge in L. apply Z.ltb_ge. nia. }
  replace (2 ^ k * 2 ^ j =? 2 * (m mod 2 ^ k * 2 ^ j))
    with (2 ^ k =? 2 * (m mod 2 ^ k)).
  2:{ destruct (2 ^ k =? 2 * (m mod 2 ^ k)) eqn:L; symmetry.
      - apply Z.eqb_eq in L. apply Z.eqb_eq. nia.
      - apply Z.eqb_neq in L. apply Z.eqb_neq. nia. }
  done.
Qed.

Lemma rnd_zero k : 0 ≤ k → rnd k 0 = 0.
Proof. intros Hk. by rewrite <- (rnd_exact k 0 Hk) at 2. Qed.

(** Rounding does not cross a multiple of [2 ^ k]. *)
Lemma rnd_le_multiple k m c : 0 ≤ k → m ≤ c * 2 ^ k → rnd k m ≤ c.
Proof. intros Hk H. rewrite <- (rnd_exact k c Hk). by apply rnd_mono. Qed.

Lemma rnd_ge_multiple k m c : 0 ≤ k → c * 2 ^ k ≤ m → c ≤ rnd k m.
Proof. intros Hk H. rewrite <- (rnd_exact k c Hk). by apply rnd_mono. Qed.

End Rnd.

Section Values.
Import Binary64.
Local Open Scope Z_scope.

Lemma shift_of_nonneg v : 0 ≤ shift_of v.
Proof. unfold shift_of, bias. lia. Qed.

Lemma shift_of_mono v1 v2 : v1 ≤ v2 → shift_of v1 ≤ shift_of v2.
Proof.
  intros H. unfold shift_of. pose proof (Z.log2_le_mono v1 v2 H). lia.
Qed.

Lemma RN_zero : RN 0 = 0.
Proof. unfold RN. rewrite rnd_zero by apply shift_of_nonneg. lia. Qed.

Lemma RN_nonneg v : 0 ≤ v → 0 ≤ RN v.
Proof.
  intros Hv. unfold RN.
  pose proof (shift_of_nonneg v) as Hk.
  pose proof (rnd_ge_multiple (shift_of v) v 0 Hk ltac:(lia)).
  assert (0 < 2 ^ shift_of v) by (apply Z.pow_pos_nonneg; lia). nia.
Qed.

(** Rounding is monotone. *)
Lemma RN_mono v1 v2 : 0 ≤ v1 → v1 ≤ v2 → RN v1 ≤ RN v2.
Proof.
  intros H0 Hle.
  destruct (Z.eq_dec v1 0) as [->|Hne].
  { rewrite RN_zero. apply RN_nonneg. lia. }
  assert (Hv1 : 0 < v1) by lia. assert (Hv2 : 0 < v2) by lia.
  pose proof (shift_of_mono v1 v2 Hle) as HK.
  pose proof (shift_of_nonneg v1) as HK1.
  pose proof (shift_of_nonneg v2) as HK2.
  unfold RN.
  assert (Hp1 : 0 < 2 ^ shift_of v1) by (apply Z.pow_pos_nonneg; lia).
  assert (Hp2 : 0 < 2 ^ shift_of v2) by (apply Z.pow_pos_nonneg; lia).
  destruct (Z.eq_dec (shift_of v1) (shift_of v2)) as [E|N].
  - rewrite E. pose proof (rnd_mono (shift_of v2) v1 v2 HK2 Hle). nia.
  - assert (Hlt : shift_of v1 < shift_of v2) by lia.
    pose proof (Z.log2_spec v1 Hv1) as [_ Hu1].
    pose proof (Z.log2_spec v2 Hv2) as [Hl2 _].
    pose proof (Z.log2_nonneg v1) as Hn1.
    assert (E2 : shift_of v2 = Z.log2 v2 - 52) by (unfold shift_of in *; lia).
    set (A := Z.max (Z.log2 v1 + 1) (shift_of v1)).
    assert (HA : A ≤ Z.log2 v2) by (unfold A, shift_of in *; lia).
    (* RN v1 ≤ 2 ^ A *)
    assert (H1 : rnd (shift_of v1) v1 * 2 ^ shift_of v1 ≤ 2 ^ A).
    { assert (EA : 2 ^ A = 2 ^ (A - shift_of v1) * 2 ^ shift_of v1).
      { rewrite <- Z.pow_add_r by (unfold A; lia). f_equal. lia. }
      assert (Hv : v1 ≤ 2 ^ A).
      { transitivity (2 ^ Z.succ (Z.log2 v1)); [lia|].
        apply Z.pow_le_mono_r; [lia|unfold A; lia]. }
      rewrite EA in Hv.
      pose proof (rnd_le_multiple _ _ _ HK1 Hv). rewrite EA. nia. }
    (* 2 ^ log2 v2 ≤ RN v2 *)
    assert (H2 : 2 ^ Z.log2 v2 ≤ rnd (shift_of v2) v2 * 2 ^ shift_of v2).
    { assert (EL : 2 ^ Z.log2 v2 = 2 ^ 52 * 2 ^ shift_of v2).
      { rewrite <- Z.pow_add_r by lia. f_equal. lia. }
      rewrite EL in Hl2.
      pose proof (rnd_ge_multiple _ _ _ HK2 Hl2). rewrite EL. nia. }
    pose proof (Z.pow_le_mono_r 2 A (Z.log2 v2) ltac:(lia) HA). lia.
Qed.

Lemma digits2_pos_size p : digits2_pos p = Pos.size p.
Proof. induction p; simpl; by rewrite ?IHp. Qed.

Lemma Zdigits2_log2 p : Zdigits2 (Zpos p) = Z.log2 (Zpos p) + 1.
Proof.
  simpl. rewrite digits2_pos_size. destruct p; simpl; lia.
Qed.

Lemma fexp_eq x : fexp prec emax x = Z.max (x - 53) (-1074).
Proof. reflexivity. Qed.

(** A canonical mantissa has at most 53 bits, exactly 53 above the
    smallest exponent. *)
Lemma bounded_spec m e :
  bounded prec emax m e = true →
  -1074 ≤ e ≤ 971 ∧ Z.log2 (Zpos m) ≤ 52
  ∧ (-1074 < e → Z.log2 (Zpos m) = 52).
Proof.
  unfold bounded, canonical_mantissa. intros H.
  apply andb_true_iff in H as [H1 H2].
  apply Z.eqb_eq in H1. apply Z.leb_le in H2.
  change (Zpos (digits2_pos m)) with (Zdigits2 (Zpos m)) in H1.
  rewrite Zdigits2_log2, fexp_eq in H1.
  change (emax - prec) with 971 in H2. lia.
Qed.

Lemma bounded_intro m e :
  e = Z.max (Z.log2 (Zpos m) + 1 + e - 53) (-1074) → e ≤ 971 →
  bounded prec emax m e = true.
Proof.
  intros H1 H2. unfold bounded, canonical_mantissa.
  apply andb_true_iff. split.
  - apply Z.eqb_eq.
    change (Zpos (digits2_pos m)) with (Zdigits2 (Zpos m)).
    rewrite Zdigits2_log2, fexp_eq. lia.
  - apply Z.leb_le. change (emax - prec) with 971. lia.
Qed.

Lemma repr_nonneg f v : repr f v → 0 ≤ v.
Proof.
  destruct f as [s| | |[] m e]; simpl; try done; [lia|].
  intros [Hb ->]. apply bounded_spec in Hb as (He & _).
  assert (0 < 2 ^ (e + bias)) by (apply Z.pow_pos_nonneg; unfold bias; lia).
  lia.
Qed.

Lemma lex_lt (m1 m2 e1 e2 : Z) :
  -1074 ≤ e1 → e1 < e2 → 0 < m1 < 2 ^ 53 → 2 ^ 52 ≤ m2 →
  m1 * 2 ^ (e1 + bias) < m2 * 2 ^ (e2 + bias).
Proof.
  intros He1 Hlt Hm1 Hm2.
  replace (e2 + bias) with ((e2 - e1 - 1) + (1 + (e1 + bias))) by lia.
  rewrite (Z.pow_add_r 2 (e2 - e1 - 1)) by (unfold bias; lia).
  rewrite (Z.pow_add_r 2 1) by (unfold bias; lia).
  change (2 ^ 1) with 2.
  assert (HQ : 0 < 2 ^ (e1 + bias)) by (apply Z.pow_pos_nonneg; unfold bias; lia).
  assert (HP : 1 ≤ 2 ^ (e2 - e1 - 1)) by (apply (Z.pow_le_mono_r 2 0); lia).
  set (Q := 2 ^ (e1 + bias)) in *. set (P := 2 ^ (e2 - e1 - 1)) in *.
  change (2 ^ 53) with (2 * 2 ^ 52) in Hm1.
  assert (HT : 0 < 2 ^ 52) by lia.
  set (T := 2 ^ 52) in *.
  assert (m1 * Q < 2 * T * Q) by nia.
  assert (2 * T * Q ≤ m2 * (2 * Q)) by nia.
  assert (m2 * (2 * Q) ≤ m2 * (P * (2 * Q))) by nia.
  lia.
Qed.

(** On canonical floats the order of the floats is the order of their
    values. *)
Lemma repr_leb f1 f2 v1 v2 :
  repr f1 v1 → repr f2 v2 → SFleb f1 f2 = (v1 <=? v2).
Proof.
  destruct f1 as [s1| | |[] m1 e1], f2 as [s2| | |[] m2 e2]; simpl; try done.
  - intros -> ->. reflexivity.
  - intros -> [Hb ->]. unfold SFleb. simpl. symmetry. apply Z.leb_le.
    apply bounded_spec in Hb as (He & _).
    assert (0 < 2 ^ (e2 + bias)) by (apply Z.pow_pos_nonneg; unfold bias; lia).
    lia.
  - intros [Hb ->] ->. unfold SFleb. simpl. symmetry. apply Z.leb_gt.
    apply bounded_spec in Hb as (He & _).
    assert (0 < 2 ^ (e1 + bias)) by (apply Z.pow_pos_nonneg; unfold bias; lia).
    lia.
  - intros [Hb1 ->] [Hb2 ->]. unfold SFleb. simpl.
    apply bounded_spec in Hb1 as (He1 & Hm1 & Hn1).
    apply bounded_spec in Hb2 as (He2 & Hm2 & Hn2).
    pose proof (Z.log2_spec (Zpos m1) ltac:(lia)) as [Hl1 Hu1].
    pose proof (Z.log2_spec (Zpos m2) ltac:(lia)) as [Hl2 Hu2].
    assert (Hp1 : 0 < 2 ^ (e1 + bias)) by (apply Z.pow_pos_nonneg; unfold bias; lia).
    assert (Hp2 : 0 < 2 ^ (e2 + bias)) by (apply Z.pow_pos_nonneg; unfold bias; lia).
    assert (Hu : ∀ m, Z.log2 (Zpos m) ≤ 52 → Zpos m < 2 ^ 53).
    { intros m Hm. pose proof (Z.log2_spec (Zpos m) ltac:(lia)) as [_ Hu].
      pose proof (Z.pow_le_mono_r 2 (Z.succ (Z.log2 (Zpos m))) 53 ltac:(lia) ltac:(lia)).
      lia. }
    destruct (Z.compare_spec e1 e2) as [->|Hlt|Hgt].
    + rewrite Pos.compare_cont_spec. simpl.
      change ((m1 ?= m2)%positive) with (Zpos m1 ?= Zpos m2).
      destruct (Z.compare_spec (Zpos m1) (Zpos m2)) as [E|L|G]; symmetry.
      * apply Z.leb_le. rewrite E. lia.
      * apply Z.leb_le. nia.
      * apply Z.leb_gt. nia.
    + symmetry. apply Z.leb_le. apply Z.lt_le_incl.
      rewrite (Hn2 ltac:(lia)) in Hl2.
      pose proof (Hu m1 Hm1).
      apply (lex_lt (Zpos m1) (Zpos m2) e1 e2); lia.
    + symmetry. apply Z.leb_gt.
      rewrite (Hn1 ltac:(lia)) in Hl1.
      pose proof (Hu m2 Hm2).
      apply (lex_lt (Zpos m2) (Zpos m1) e2 e1); lia.
Qed.

End Values.

Section RoundAux.
Import Binary64.
Local Open Scope Z_scope.

Lemma shr_spec (m e n : Z) :
  0 ≤ m → 0 ≤ n →
  shr {| shr_m := m; shr_r := false; shr_s := false |} e n
  = ({| shr_m := m / 2 ^ n; shr_r := round_bit n m; shr_s := sticky_bit n m |},
     e + n).
Proof.
  intros Hm Hn. destruct n as [|p|p]; [| |lia].
  - simpl. unfold round_bit, sticky_bit. simpl. by rewrite Z.div_1_r, Z.add_0_r.
  - unfold shr. rewrite iter_pos_nat, shr_iter by done.
    by rewrite positive_nat_Z.
Qed.

Lemma shr_fexp_spec (m e : Z) :
  0 ≤ m →
  let n := fexp prec emax (Zdigits2 m + e) - e in
  0 ≤ n →
  shr_fexp prec emax m e loc_Exact
  = ({| shr_m := m / 2 ^ n; shr_r := round_bit n m; shr_s := sticky_bit n m |},
     e + n).
Proof. intros Hm n Hn. unfold shr_fexp. simpl shr_record_of_loc. by apply shr_spec. Qed.

Lemma log2_scaled (m : positive) (k : Z) :
  0 ≤ k → Z.log2 (Zpos m * 2 ^ k) = Z.log2 (Zpos m) + k.
Proof. intros Hk. rewrite Z.log2_mul_pow2 by lia. lia. Qed.

Lemma pow2_split (a b : Z) : 0 ≤ a → 0 ≤ b → 2 ^ (a + b) = 2 ^ a * 2 ^ b.
Proof. intros. by rewrite Z.pow_add_r. Qed.

(** The second [shr_fexp] of [binary_round_aux], on a mantissa that
    already fits. *)
Lemma renormalize_fits (m2 : positive) (E : Z) :
  Z.log2 (Zpos m2) ≤ 52 → (-1074 < E → Z.log2 (Zpos m2) = 52) → -1074 ≤ E →
  shr_fexp prec emax (Zpos m2) E loc_Exact
  = ({| shr_m := Zpos m2; shr_r := false; shr_s := false |}, E).
Proof.
  intros Hl Hn HE.
  assert (Hz : fexp prec emax (Zdigits2 (Zpos m2) + E) - E = 0).
  { rewrite Zdigits2_log2, fexp_eq. lia. }
  rewrite shr_fexp_spec; [|lia|lia]. rewrite Hz.
  unfold round_bit, sticky_bit. simpl. by rewrite Z.div_1_r, Z.add_0_r.
Qed.

(** The second [shr_fexp] when rounding has carried into a 54th bit. *)
Lemma renormalize_carry (E : Z) :
  -1074 ≤ E →
  shr_m (fst (shr_fexp prec emax (2 ^ 53) E loc_Exact)) = 2 ^ 52
  ∧ snd (shr_fexp prec emax (2 ^ 53) E loc_Exact) = E + 1.
Proof.
  intros HE.
  assert (Hz : fexp prec emax (Zdigits2 (2 ^ 53) + E) - E = 1).
  { change (Zdigits2 (2 ^ 53)) with 54. rewrite fexp_eq. lia. }
  rewrite shr_fexp_spec; [|lia|lia]. rewrite Hz. simpl. done.
Qed.

(** [binary_round_aux] on an exact positive input whose exponent is not
    above the one it will be rounded to: the result is canonical and
    its value is the rounded value. *)
Lemma round_aux_repr (m : positive) (e : Z) :
  let E := Z.max (Z.log2 (Zpos m) + 1 + e - 53) (-1074) in
  e ≤ E → - bias ≤ e → E ≤ 900 →
  repr (binary_round_aux prec emax false (Zpos m) e loc_Exact)
       (RN (Zpos m * 2 ^ (e + bias))).
Proof.
  intros E HeE Hb Hover.
  set (n1 := E - e).
  assert (Hn1 : fexp prec emax (Zdigits2 (Zpos m) + e) - e = n1).
  { rewrite Zdigits2_log2, fexp_eq. unfold n1, E. lia. }
  (* the value side *)
  assert (HK : shift_of (Zpos m * 2 ^ (e + bias)) = E + bias).
  { unfold shift_of. rewrite log2_scaled by lia. unfold E. lia. }
  assert (HRN : RN (Zpos m * 2 ^ (e + bias)) = rnd n1 (Zpos m) * 2 ^ (E + bias)).
  { unfold RN. rewrite HK. f_equal.
    replace (E + bias) with (n1 + (e + bias)) by (unfold n1; lia).
    apply rnd_scale; unfold n1; lia. }
  rewrite HRN.
  (* the float side *)
  unfold binary_round_aux.
  rewrite shr_fexp_spec; [|lia|lia]. rewrite Hn1.
  replace (e + n1) with E by (unfold n1; lia).
  cbv beta iota. simpl shr_m. rewrite round_shr by (unfold n1; lia).
  pose proof (Z.log2_spec (Zpos m) ltac:(lia)) as [Hlo Hhi].
  pose proof (Z.log2_nonneg (Zpos m)) as Hlog.
  set (L := Z.log2 (Zpos m)) in *.
  assert (Hn1' : 0 ≤ n1) by (unfold n1; lia).
  destruct (Z_le_gt_dec (-1074) (L + 1 + e - 53)) as [Hnorm|Hsub].
  - (* at least 53 bits: the rounded mantissa lies in [2^52, 2^53] *)
    assert (EE : E = L + 1 + e - 53) by (unfold E; lia).
    assert (En : n1 = L - 52) by (unfold n1; lia).
    assert (Hge : 2 ^ 52 ≤ rnd n1 (Zpos m)).
    { apply rnd_ge_multiple; [lia|]. rewrite <- pow2_split by lia.
      by replace (52 + n1) with L by lia. }
    assert (Hle : rnd n1 (Zpos m) ≤ 2 ^ 53).
    { apply rnd_le_multiple; [lia|]. rewrite <- pow2_split by lia.
      replace (53 + n1) with (Z.succ L) by lia. lia. }
    destruct (Z.eq_dec (rnd n1 (Zpos m)) (2 ^ 53)) as [Ec|Nc].
    + rewrite Ec.
      destruct (renormalize_carry E ltac:(lia)) as [Hm' He'].
      destruct (shr_fexp prec emax (2 ^ 53) E loc_Exact) as [mrs e'].
      simpl in Hm', He'. rewrite Hm', He'.
      change (2 ^ 52) with (Zpos (2 ^ 52)%positive). cbv iota.
      replace (E + 1 <=? emax - prec) with true
        by (symmetry; apply Z.leb_le; change (emax - prec) with 971; lia).
      simpl repr. split.
      * apply bounded_intro; [|lia].
        change (Z.log2 (Zpos (2 ^ 52)%positive)) with 52. lia.
      * replace (E + 1 + bias) with (1 + (E + bias)) by lia.
        rewrite (pow2_split 1 (E + bias)) by (unfold bias in *; lia).
        change (Zpos (2 ^ 52)%positive) with (2 ^ 52).
        change (2 ^ 53) with (2 ^ 52 * 2 ^ 1). ring.
    + destruct (rnd n1 (Zpos m)) as [|m2|m2] eqn:Em2; [lia| |lia].
      assert (Hl2 : Z.log2 (Zpos m2) = 52).
      { apply Z.log2_unique; [lia|]. change (2 ^ Z.succ 52) with (2 ^ 53). lia. }
      rewrite renormalize_fits by lia. simpl shr_m. cbv iota.
      replace (E <=? emax - prec) with true
        by (symmetry; apply Z.leb_le; change (emax - prec) with 971; lia).
      simpl repr. split; [|done].
      apply bounded_intro; lia.
  - (* fewer than 53 bits are kept: the rounded mantissa is at most 2^52 *)
    assert (EE : E = -1074) by (unfold E; lia).
    assert (Hle : rnd n1 (Zpos m) ≤ 2 ^ 52).
    { apply rnd_le_multiple; [lia|]. rewrite <- pow2_split by lia.
      transitivity (2 ^ Z.succ L); [lia|].
      apply Z.pow_le_mono_r; unfold n1; lia. }
    pose proof (rnd_ge_multiple n1 (Zpos m) 0 Hn1' ltac:(lia)) as Hge.
    destruct (rnd n1 (Zpos m)) as [|m2|m2] eqn:Em2; [| |lia].
    + (* underflow to zero *)
      assert (Hz : fexp prec emax (Zdigits2 0 + E) - E = 0).
      { rewrite fexp_eq. simpl Zdigits2. lia. }
      rewrite shr_fexp_spec; [|lia|lia]. rewrite Hz.
      simpl shr_m. rewrite Z.div_0_l by lia.
      cbv iota. simpl. lia.
    + assert (Hl2 : Z.log2 (Zpos m2) ≤ 52).
      { destruct (Z.eq_dec (Zpos m2) (2 ^ 52)) as [->|Hne]; [done|].
        assert (Z.log2 (Zpos m2) < 52); [|lia].
        apply Z.log2_lt_pow2; lia. }
      rewrite renormalize_fits by lia. simpl shr_m. cbv iota.
      replace (E <=? emax - prec) with true
        by (symmetry; apply Z.leb_le; change (emax - prec) with 971; lia).
      simpl repr. split; [|done].
      apply bounded_intro; lia.
Qed.

End RoundAux.

Section Operations.
Import Binary64.
Local Open Scope Z_scope.

Lemma iter_xO (m d : positive) : Zpos (Pos.iter xO m d) = Zpos m * 2 ^ Zpos d.
Proof.
  induction d as [|d IH] using Pos.peano_ind.
  - simpl. lia.
  - rewrite Pos.iter_succ, Pos2Z.inj_xO, IH, Pos2Z.inj_succ, Z.pow_succ_r by lia.
    ring.
Qed.

(** [shl_align] towards a smaller or equal exponent shifts the
    mantissa left and keeps the value. *)
Lemma shl_align_spec (m : positive) (e e' : Z) :
  e' ≤ e →
  Zpos (fst (shl_align m e e')) = Zpos m * 2 ^ (e - e')
  ∧ (snd (shl_align m e e') = e' ∨ (e' = e ∧ snd (shl_align m e e') = e)).
Proof.
  intros H. unfold shl_align.
  destruct (e' - e) as [|p|p] eqn:E; try lia; simpl.
  - replace (e - e') with 0 by lia. simpl. split; [lia|]. right. split; lia.
  - rewrite iter_xO. replace (e - e') with (Zpos p) by lia. split; [done|by left].
Qed.

Lemma shl_align_snd (m : positive) (e e' : Z) :
  e' ≤ e → snd (shl_align m e e') = e'.
Proof. intros H. destruct (shl_align_spec m e e' H) as [_ [?|[? ?]]]; lia. Qed.

Lemma shl_align_above (m : positive) (e e' : Z) :
  e ≤ e' → shl_align m e e' = (m, e).
Proof. intros H. unfold shl_align. destruct (e' - e) eqn:E; try done. lia. Qed.

(** [binary_round] on a positive mantissa. *)
Lemma binary_round_repr (m : positive) (e : Z) :
  - bias ≤ e → Z.log2 (Zpos m) + e ≤ 900 →
  repr (binary_round prec emax false m e) (RN (Zpos m * 2 ^ (e + bias))).
Proof.
  intros Hb Hover. unfold binary_round.
  change (Zpos (digits2_pos m)) with (Zdigits2 (Zpos m)).
  rewrite Zdigits2_log2, fexp_eq.
  set (E0 := Z.max (Z.log2 (Zpos m) + 1 + e - 53) (-1074)).
  pose proof (Z.log2_nonneg (Zpos m)) as Hlog.
  destruct (Z_le_gt_dec e E0) as [Hle|Hgt].
  - rewrite shl_align_above by done.
    apply round_aux_repr; fold E0; [done|done|unfold E0; lia].
  - destruct (shl_align_spec m e E0 ltac:(lia)) as [Hv _].
    pose proof (shl_align_snd m e E0 ltac:(lia)) as Hs.
    destruct (shl_align m e E0) as [mz ez]. simpl in Hv, Hs. subst ez.
    assert (Hl : Z.log2 (Zpos mz) = Z.log2 (Zpos m) + (e - E0)).
    { rewrite Hv. apply log2_scaled. lia. }
    replace (Zpos m * 2 ^ (e + bias)) with (Zpos mz * 2 ^ (E0 + bias)).
    2:{ rewrite Hv. replace (e + bias) with ((e - E0) + (E0 + bias)) by lia.
        rewrite (pow2_split (e - E0)) by (unfold E0, bias in *; lia). ring. }
    apply round_aux_repr; rewrite ?Hl; unfold E0, bias in *; lia.
Qed.


Lemma twelve_value : Zpos 6755399441055744 = 12 * 2 ^ 49.
Proof. reflexivity. Qed.

(** Multiplying a value of at most 1 by 12. *)
Lemma mul_twelve_repr (X : spec_float) (vx : Z) :
  repr X vx → vx ≤ 2 ^ bias →
  repr (SF64mul X twelve) (RN (12 * vx)).
Proof.
  destruct X as [s| | |[] m e]; simpl repr; try done.
  - intros -> _. simpl. apply RN_zero.
  - intros [Hbd ->] Hle.
    unfold SF64mul, twelve, SFmul. simpl xorb.
    pose proof (bounded_spec m e Hbd) as (He & Hl52 & Hnorm).
    pose proof (Z.log2_spec (Zpos m) ltac:(lia)) as [Hlo Hhi].
    pose proof (Z.log2_nonneg (Zpos m)) as Hlog.
    set (L := Z.log2 (Zpos m)) in *.
    assert (He0 : e ≤ 0).
    { destruct (Z_le_gt_dec e 0) as [?|Hgt]; [done|exfalso].
      assert (2 ^ bias < 2 ^ (e + bias))
        by (apply Z.pow_lt_mono_r; unfold bias; lia).
      assert (0 < 2 ^ (e + bias)) by (apply Z.pow_pos_nonneg; unfold bias; lia).
      nia. }
    (* the size of the product *)
    assert (Hprod : Zpos (m * 6755399441055744) = Zpos m * (12 * 2 ^ 49)).
    { rewrite Pos2Z.inj_mul. by rewrite twelve_value. }
    assert (HL : L + 52 ≤ Z.log2 (Zpos (m * 6755399441055744)) ≤ L + 53).
    { split.
      - apply Z.log2_le_pow2; [lia|]. rewrite Hprod.
        rewrite (pow2_split L 52) by lia.
        change (2 ^ 52) with (8 * 2 ^ 49). nia.
      - assert (Z.log2 (Zpos (m * 6755399441055744)) < L + 54); [|lia].
        apply Z.log2_lt_pow2; [lia|]. rewrite Hprod.
        replace (L + 54) with (Z.succ L + 53) by lia.
        rewrite (pow2_split (Z.succ L) 53) by lia.
        change (2 ^ 53) with (16 * 2 ^ 49).
        assert (0 < 2 ^ 49) by lia. nia. }
    replace (12 * (Zpos m * 2 ^ (e + bias)))
      with (Zpos (m * 6755399441055744) * 2 ^ (e + -49 + bias)).
    2:{ rewrite Hprod.
        replace (e + bias) with (49 + (e + -49 + bias)) by lia.
        rewrite (pow2_split 49) by (unfold bias; lia). ring. }
    apply round_aux_repr; unfold bias; lia.
Qed.

Lemma RN_three : RN (3 * 2 ^ bias) = 3 * 2 ^ bias.
Proof. vm_compute. reflexivity. Qed.

Lemma RN_sixteen : RN (2 ^ (bias + 4)) = 2 ^ (bias + 4).
Proof. vm_compute. reflexivity. Qed.

Lemma three_repr : repr three (3 * 2 ^ bias).
Proof. split; vm_compute; reflexivity. Qed.

(** Adding 3 to a value of at most 16. *)
Lemma add_three_repr (Y : spec_float) (vy : Z) :
  repr Y vy → vy ≤ 2 ^ (bias + 4) →
  repr (SF64add three Y) (RN (3 * 2 ^ bias + vy)).
Proof.
  destruct Y as [s| | |[] m e]; simpl repr; try done.
  - intros -> _. simpl. rewrite Z.add_0_r, RN_three. apply three_repr.
  - intros [Hbd ->] Hle.
    pose proof (bounded_spec m e Hbd) as (He & Hl52 & Hnorm).
    unfold SF64add, three, SFadd. simpl cond_Zopp.
    set (ez := Z.min (-51) e).
    destruct (shl_align_spec 6755399441055744 (-51) ez ltac:(unfold ez; lia)) as [Ha _].
    destruct (shl_align_spec m e ez ltac:(unfold ez; lia)) as [Hb _].
    set (a := fst (shl_align 6755399441055744 (-51) ez)) in *.
    set (b := fst (shl_align m e ez)) in *.
    change (Zpos a + Zpos b) with (Zpos (a + b)). simpl binary_normalize.
    assert (Hval : Zpos (a + b) * 2 ^ (ez + bias)
                   = 3 * 2 ^ bias + Zpos m * 2 ^ (e + bias)).
    { rewrite Pos2Z.inj_add, Ha, Hb, Z.mul_add_distr_r.
      rewrite <- !Z.mul_assoc, <- !pow2_split by (unfold ez, bias; lia).
      replace (-51 - ez + (ez + bias)) with (-51 + bias) by lia.
      replace (e - ez + (ez + bias)) with (e + bias) by lia.
      f_equal; try (vm_compute; reflexivity). }
    rewrite <- Hval.
    apply binary_round_repr; [unfold ez, bias; lia|].
    (* no overflow: the sum is below 2 ^ (bias + 5) *)
    assert (Hsum : Zpos (a + b) * 2 ^ (ez + bias) < 2 ^ (bias + 5)).
    { rewrite Hval.
      assert (3 * 2 ^ bias < 2 ^ (bias + 4)) by (vm_compute; reflexivity).
      replace (bias + 5) with (Z.succ (bias + 4)) by lia.
      rewrite Z.pow_succ_r by (unfold bias; lia). lia. }
    assert (Z.log2 (Zpos (a + b) * 2 ^ (ez + bias)) < bias + 5).
    { apply Z.log2_lt_pow2; [|done].
      assert (0 < 2 ^ (ez + bias)) by (apply Z.pow_pos_nonneg; unfold ez, bias; lia).
      lia. }
    rewrite log2_scaled in H by (unfold ez, bias; lia). lia.
Qed.


Lemma guidance_repr (X : spec_float) (vx : Z) :
  repr X vx → vx ≤ 2 ^ bias →
  repr (guidance_spec X) (RN (3 * 2 ^ bias + RN (12 * vx))).
Proof.
  intros Hr Hle. apply add_three_repr; [by apply mul_twelve_repr|].
  rewrite <- RN_sixteen. apply RN_mono.
  - pose proof (repr_nonneg _ _ Hr). lia.
  - rewrite (pow2_split bias 4) by (unfold bias; lia).
    change (2 ^ 4) with 16. lia.
Qed.

(** A float between 0 and 1 is a zero or a canonical positive number
    of value at most 1. *)
Lemma unit_interval_repr (x : float) :
  (0 <=? x)%float = true → (x <=? 1)%float = true →
  ∃ vx, repr (Prim2SF x) vx ∧ vx ≤ 2 ^ bias.
Proof.
  rewrite !leb_spec. intros H0 H1.
  pose proof (Prim2SF_valid x) as Hv.
  change (Prim2SF 0) with (S754_zero false) in H0.
  assert (Hone : repr (Prim2SF 1) (2 ^ bias)) by (split; vm_compute; reflexivity).
  destruct (Prim2SF x) as [s| [] | |[] m e] eqn:E; try done.
  - exists 0. split; [done|]. apply Z.lt_le_incl, Z.pow_pos_nonneg; unfold bias; lia.
  - exists (Zpos m * 2 ^ (e + bias)).
    assert (Hr : repr (S754_finite false m e) (Zpos m * 2 ^ (e + bias))) by done.
    split; [done|].
    rewrite (repr_leb _ _ _ _ Hr Hone) in H1. by apply Z.leb_le.
Qed.

End Operations.

Section GuidanceClaims.
Import Protocol Binary64.
Local Open Scope Z_scope.

Lemma guidance_of_intensity_spec (x : float) :
  Prim2SF (guidance_of_intensity x) = guidance_spec (Prim2SF x).
Proof.
  unfold guidance_of_intensity, guidance_spec. by rewrite add_spec, mul_spec.
Qed.

Lemma guidance_monotone (x y : float) :
  NuevaRequest.intensity_in_range x = true →
  NuevaRequest.intensity_in_range y = true →
  (x <=? y)%float = true →
  (guidance_of_intensity x <=? guidance_of_intensity y)%float = true.
Proof.
  unfold NuevaRequest.intensity_in_range.
  intros [Hx0 Hx1]%andb_true_iff [Hy0 Hy1]%andb_true_iff Hxy.
  destruct (unit_interval_repr x Hx0 Hx1) as (vx & Hrx & Hbx).
  destruct (unit_interval_repr y Hy0 Hy1) as (vy & Hry & Hby).
  rewrite leb_spec in Hxy. rewrite (repr_leb _ _ _ _ Hrx Hry) in Hxy.
  apply Z.leb_le in Hxy.
  rewrite leb_spec, !guidance_of_intensity_spec.
  rewrite (repr_leb _ _ _ _ (guidance_repr _ _ Hrx Hbx) (guidance_repr _ _ Hry Hby)).
  apply Z.leb_le.
  pose proof (repr_nonneg _ _ Hrx) as Hx.
  assert (H12 : RN (12 * vx) ≤ RN (12 * vy)) by (apply RN_mono; lia).
  pose proof (RN_nonneg (12 * vx) ltac:(lia)) as Hn.
  assert (0 < 2 ^ bias) by (apply Z.pow_pos_nonneg; unfold bias; lia).
  apply RN_mono; lia.
Qed.

Lemma guidance_scale_eq (q : NuevaRequest.t) :
  AceStepRequest.guidance_scale (nueva_to_acestep q)
  = guidance_of_intensity (NuevaRequest.intensity q).
Proof. reflexivity. Qed.

(** C1: for every request with intensity in [0,1] the engine task's
    guidance scale is [3.0 + intensity * 12.0] in binary64 arithmetic;
    it depends on the intensity only, it lies in [3,15], and it does not
    decrease when the intensity grows. *)
Theorem guidance_scale_contract (r r' : NuevaRequest.t) :
  NuevaRequest.intensity_in_range (NuevaRequest.intensity r) = true →
  NuevaRequest.intensity_in_range (NuevaRequest.intensity r') = true →
  let g := λ q, AceStepRequest.guidance_scale (nueva_to_acestep q) in
  g r = (3 + NuevaRequest.intensity r * 12)%float
  ∧ (3 <=? g r)%float = true
  ∧ (g r <=? 15)%float = true
  ∧ (NuevaRequest.intensity r = NuevaRequest.intensity r' → g r = g r')
  ∧ ((NuevaRequest.intensity r <=? NuevaRequest.intensity r')%float = true →
     (g r <=? g r')%float = true).
Proof.
  intros Hr Hr'. cbv beta zeta. rewrite !guidance_scale_eq.
  assert (H0 : NuevaRequest.intensity_in_range 0%float = true) by reflexivity.
  assert (H1 : NuevaRequest.intensity_in_range 1%float = true) by reflexivity.
  pose proof Hr as [Hlo Hhi]%andb_true_iff.
  split_and!.
  - reflexivity.
  - change 3%float with (guidance_of_intensity 0).
    by apply guidance_monotone.
  - change 15%float with (guidance_of_intensity 1).
    by apply guidance_monotone.
  - intros E. by rewrite E.
  - by apply guidance_monotone.
Qed.

End GuidanceClaims.

Lemma guidance_scale_contract_witness :
  Protocol.NuevaRequest.intensity_in_range
    (Protocol.NuevaRequest.intensity Examples.cover_jazz) = true
  ∧ Protocol.NuevaRequest.intensity_in_range
      (Protocol.NuevaRequest.intensity Examples.extract_empty_target) = true
  ∧ (Protocol.AceStepRequest.guidance_scale
       (Protocol.nueva_to_acestep Examples.cover_jazz)
     <=? Protocol.AceStepRequest.guidance_scale
           (Protocol.nueva_to_acestep Examples.extract_empty_target))%float = true.
Proof.
  split_and!; [reflexivity|reflexivity|].
  apply (guidance_scale_contract Examples.cover_jazz Examples.extract_empty_target
           eq_refl eq_refl).
  reflexivity.
Defined.


(** * The protocol translation *)

Section ProtocolFacts.
Import Protocol.

(** The scenario of the specification: a cover request at intensity 0.5. *)
Example cover_jazz_forward :
  let t := nueva_to_acestep Examples.cover_jazz in
  AceStepRequest.task t = "cover"
  ∧ AceStepRequest.guidance_scale t = 9%float
  ∧ map_to_list (AceStepRequest.kwargs t)
    = [("preserve_key", Py.Bool true); ("preserve_melody", Py.Bool true);
       ("preserve_tempo", Py.Bool true)].
Proof. vm_compute. done. Qed.

Example cover_jazz_backward :
  NuevaResponse.intentional_artifacts
    (acestep_to_nueva Examples.as_is Examples.engine_done Examples.cover_jazz 12)
  = ["cover_timbre"; "different_timbre"; "genre_transformation"].
Proof. vm_compute. done. Qed.

Local Ltac kw_lookup :=
  unfold computed_kwargs, mode_kwargs; simpl;
  repeat case_match; simplify_eq/=;
  rewrite ?lookup_insert_ne by done;
  rewrite ?lookup_insert_eq, ?lookup_empty;
  try done;
  try match goal with
      | H : ¬ (_ ∧ _) |- _ => by destruct H
      | H : _ ∧ _ |- _ => by destruct H
      end.

(** What [computed_kwargs] holds under each of the seven names it can
    assign, and nothing under any other name. *)
Lemma computed_kwargs_preserve_melody r :
  computed_kwargs r !! "preserve_melody" =
  if decide (NuevaRequest.mode r = COVER)
  then Some (Py.Bool (NuevaRequest.preserve_melody r)) else None.
Proof.
  destruct r as [[] ? ? ? ? ? ? ? t a b ? s ? ?]; kw_lookup.
Qed.

Lemma computed_kwargs_preserve_tempo r :
  computed_kwargs r !! "preserve_tempo" =
  if decide (NuevaRequest.mode r = COVER)
  then Some (Py.Bool (NuevaRequest.preserve_tempo r)) else None.
Proof.
  destruct r as [[] ? ? ? ? ? ? ? t a b ? s ? ?]; kw_lookup.
Qed.

Lemma computed_kwargs_preserve_key r :
  computed_kwargs r !! "preserve_key" =
  if decide (NuevaRequest.mode r = COVER)
  then Some (Py.Bool (NuevaRequest.preserve_key r)) else None.
Proof.
  destruct r as [[] ? ? ? ? ? ? ? t a b ? s ? ?]; kw_lookup.
Qed.

Lemma computed_kwargs_target r :
  computed_kwargs r !! "target" =
  match NuevaRequest.extract_target r with
  | Some tgt =>
      if decide (NuevaRequest.mode r = EXTRACT ∧ tgt ≠ "")
      then Some (Py.Str tgt) else None
  | None => None
  end.
Proof.
  destruct r as [[] ? ? ? ? ? ? ? [[|c t]|] a b ? s ? ?]; kw_lookup.
Qed.

Lemma computed_kwargs_add_instruments r :
  computed_kwargs r !! "add_instruments" =
  match NuevaRequest.add_layers r with
  | Some l =>
      if decide (NuevaRequest.mode r = LAYER ∧ l ≠ [])
      then Some (str_list l) else None
  | None => None
  end.
Proof.
  destruct r as [[] ? ? ? ? ? ? ? t [[|a0 a]|] b ? s ? ?]; kw_lookup.
Qed.

Lemma computed_kwargs_remove_instruments r :
  computed_kwargs r !! "remove_instruments" =
  match NuevaRequest.remove_layers r with
  | Some l =>
      if decide (NuevaRequest.mode r = LAYER ∧ l ≠ [])
      then Some (str_list l) else None
  | None => None
  end.
Proof.
  destruct r as [[] ? ? ? ? ? ? ? t a [[|b0 b]|] ? s ? ?]; kw_lookup.
Qed.

Lemma computed_kwargs_seed r :
  computed_kwargs r !! "seed" = Py.Int <$> NuevaRequest.seed r.
Proof.
  destruct r as [[] ? ? ? ? ? ? ? t a b ? s ? ?]; kw_lookup.
Qed.

Lemma is_Some_if_decide {A} (P : Prop) `{Decision P} (x : A) :
  is_Some (if decide P then Some x else None) ↔ P.
Proof. case_decide; split; try done; by intros [? ?]. Qed.

Lemma is_Some_guarded {A B} (o : option A) (M : Prop) (Q : A → Prop)
    `{∀ a, Decision (M ∧ Q a)} (f : A → B) :
  is_Some (match o with
           | Some a => if decide (M ∧ Q a) then Some (f a) else None
           | None => None
           end)
  ↔ M ∧ ∃ a, o = Some a ∧ Q a.
Proof.
  destruct o as [a|].
  - case_decide as HD.
    + split; [intros _; split; [apply HD | exists a; split; [done | apply HD]]
             | by eexists].
    + split; [by intros [? ?] | intros (HM & a' & [= <-] & HQ); by destruct HD].
  - split; [by intros [? ?] | by intros (_ & ? & ? & _)].
Qed.


Lemma computed_kwargs_other r k :
  k ∉ computed_names → computed_kwargs r !! k = None.
Proof.
  unfold computed_names. intros Hk.
  repeat (apply not_elem_of_cons in Hk as [? Hk]).
  destruct r as [[] ? ? ? ? ? ? ? t a b ? s ? ?]; kw_lookup.
Qed.

(** [kwargs.update(extra_params)]: the keys of [extra_params] win, the
    other keys keep what was computed. *)
Lemma kwargs_merge r k :
  AceStepRequest.kwargs (nueva_to_acestep r) !! k =
  match NuevaRequest.extra_params r !! k with
  | Some v => Some v
  | None => computed_kwargs r !! k
  end.
Proof.
  unfold nueva_to_acestep; simpl. rewrite lookup_union.
  destruct (NuevaRequest.extra_params r !! k) as [v|] eqn:E; simpl.
  - by destruct (computed_kwargs r !! k).
  - by rewrite (left_id None _).
Qed.

End ProtocolFacts.

Section ProtocolClaims.
Import Protocol.

(** C5, as the claim words it, at a request that has no extra
    parameters: mode [extract] with [extract_target] set to the empty
    string yields no [target] entry, although the target is set. *)
Lemma target_set_but_absent :
  ¬ (∀ r : NuevaRequest.t,
       NuevaRequest.extra_params r = ∅ →
       (is_Some (AceStepRequest.kwargs (nueva_to_acestep r) !! "target")
        ↔ NuevaRequest.mode r = EXTRACT ∧ is_Some (NuevaRequest.extract_target r))).
Proof.
  intros H. destruct (H Examples.extract_empty_target eq_refl) as [_ H2].
  destruct H2 as [v Hv]; [by split; [|eexists]|].
  vm_compute in Hv. discriminate.
Qed.

(** C5 (amended): the keyword arguments of the engine task are the
    computed entries overridden by [extra_params].  Every key of
    [extra_params] maps to its [extra_params] value; every other key maps
    to what was computed, where the three [preserve_*] entries are
    present iff the mode is [cover], [target] iff the mode is [extract]
    and [extract_target] is a non-empty string, [add_instruments] and
    [remove_instruments] iff the mode is [layer] and the corresponding
    list is non-empty, and [seed] iff the request's seed is set. *)
Theorem kwargs_built (r : NuevaRequest.t) :
  let kw := AceStepRequest.kwargs (nueva_to_acestep r) in
  let base := computed_kwargs r in
  (∀ k v, NuevaRequest.extra_params r !! k = Some v → kw !! k = Some v)
  ∧ (∀ k, NuevaRequest.extra_params r !! k = None → kw !! k = base !! k)
  ∧ (∀ k, k ∈ ["preserve_melody"; "preserve_tempo"; "preserve_key"] →
       (is_Some (base !! k) ↔ NuevaRequest.mode r = COVER))
  ∧ (is_Some (base !! "target") ↔
       NuevaRequest.mode r = EXTRACT
       ∧ ∃ tgt, NuevaRequest.extract_target r = Some tgt ∧ tgt ≠ "")
  ∧ (is_Some (base !! "add_instruments") ↔
       NuevaRequest.mode r = LAYER
       ∧ ∃ l, NuevaRequest.add_layers r = Some l ∧ l ≠ [])
  ∧ (is_Some (base !! "remove_instruments") ↔
       NuevaRequest.mode r = LAYER
       ∧ ∃ l, NuevaRequest.remove_layers r = Some l ∧ l ≠ [])
  ∧ (is_Some (base !! "seed") ↔ is_Some (NuevaRequest.seed r))
  ∧ (∀ k, k ∉ computed_names → base !! k = None).
Proof.
  cbv zeta. split_and!.
  - intros k v E. by rewrite kwargs_merge, E.
  - intros k E. by rewrite kwargs_merge, E.
  - intros k Hk.
    repeat (apply elem_of_cons in Hk as [->|Hk]); [| | |by apply elem_of_nil in Hk].
    + rewrite computed_kwargs_preserve_melody. apply is_Some_if_decide.
    + rewrite computed_kwargs_preserve_tempo. apply is_Some_if_decide.
    + rewrite computed_kwargs_preserve_key. apply is_Some_if_decide.
  - rewrite computed_kwargs_target. apply is_Some_guarded.
  - rewrite computed_kwargs_add_instruments. apply is_Some_guarded.
  - rewrite computed_kwargs_remove_instruments. apply is_Some_guarded.
  - rewrite computed_kwargs_seed. apply fmap_is_Some.
  - apply computed_kwargs_other.
Qed.

Lemma kwargs_built_witness :
  NuevaRequest.extra_params Examples.cover_overridden !! "preserve_melody"
  = Some (Py.Bool false)
  ∧ AceStepRequest.kwargs (nueva_to_acestep Examples.cover_overridden)
    !! "preserve_melody" = Some (Py.Bool false).
Proof.
  assert (H : NuevaRequest.extra_params Examples.cover_overridden !! "preserve_melody"
              = Some (Py.Bool false)) by (vm_compute; reflexivity).
  split; [exact H|].
  exact (proj1 (kwargs_built Examples.cover_overridden) _ _ H).
Defined.

(** C2, as the claim words it, at a failed engine result: the error
    code is not "ENGINE_ERROR". *)
Lemma engine_failure_code_differs :
  NuevaResponse.error_code
    (acestep_to_nueva Examples.as_is Examples.engine_failed Examples.cover_jazz 0)
  ≠ Some "ENGINE_ERROR".
Proof. vm_compute. discriminate. Qed.

(** C2 (amended): for every engine result with success=false the
    response of [acestep_to_nueva] has success=false, error code
    "ACESTEP_ERROR", the engine's error as error message, and the
    description "ACE-Step processing failed: " followed by the engine's
    error string (by "None" when the engine gave none). *)
Theorem engine_failure_response
    (unicode_lower : string → string)
    (resp : AceStepResponse.t) (req : NuevaRequest.t) (ms : Z) :
  AceStepResponse.success resp = false →
  let out := acestep_to_nueva unicode_lower resp req ms in
  NuevaResponse.success out = false
  ∧ NuevaResponse.error_code out = Some "ACESTEP_ERROR"
  ∧ NuevaResponse.error_message out = AceStepResponse.error resp
  ∧ NuevaResponse.description out
    = "ACE-Step processing failed: " +:+
      match AceStepResponse.error resp with Some e => e | None => "None" end
  ∧ NuevaResponse.output_path out = None
  ∧ NuevaResponse.processing_time_ms out = ms.
Proof.
  intros Hf. unfold acestep_to_nueva. rewrite Hf. simpl. done.
Qed.

Lemma engine_failure_response_witness :
  AceStepResponse.success Examples.engine_failed = false
  ∧ NuevaResponse.description
      (acestep_to_nueva Examples.as_is Examples.engine_failed Examples.cover_jazz 7)
    = "ACE-Step processing failed: CUDA out of memory".
Proof.
  split; [reflexivity|].
  exact (proj1 (proj2 (proj2 (proj2
    (engine_failure_response Examples.as_is Examples.engine_failed
       Examples.cover_jazz 7 eq_refl))))).
Defined.

(** C10: the engine task of every request carries the schema default
    of 50 inference steps, whatever the request's fields are; in the
    payload the client sends, only a "num_inference_steps" key of
    [extra_params] replaces it. *)
Theorem inference_steps_fixed (r : NuevaRequest.t) :
  AceStepRequest.num_inference_steps (nueva_to_acestep r) = 50
  ∧ Client.payload_of (nueva_to_acestep r) !! "num_inference_steps"
    = match NuevaRequest.extra_params r !! "num_inference_steps" with
      | Some v => Some v
      | None => Some (Py.Int 50)
      end.
Proof.
  split; [reflexivity|].
  unfold Client.payload_of.
  assert (Hk : (AceStepRequest.kwargs (nueva_to_acestep r)
                ∪ (<["num_inference_steps" :=
                      Py.Int (AceStepRequest.num_inference_steps (nueva_to_acestep r))]>
                   (<["guidance_scale" :=
                      Py.Float (AceStepRequest.guidance_scale (nueva_to_acestep r))]>
                   (<["prompt" := match AceStepRequest.prompt (nueva_to_acestep r) with
                                  | Some p => Py.Str p | None => Py.None_ end]>
                   (<["task" := Py.Str (AceStepRequest.task (nueva_to_acestep r))]>
                      (∅ : gmap string Py.value))))))
               !! "num_inference_steps"
               = match NuevaRequest.extra_params r !! "num_inference_steps" with
                 | Some v => Some v
                 | None => Some (Py.Int 50)
                 end).
  { rewrite lookup_union, kwargs_merge, lookup_insert_eq.
    rewrite computed_kwargs_other
      by (unfold computed_names; rewrite !not_elem_of_cons;
          repeat split; try done; apply not_elem_of_nil).
    by destruct (NuevaRequest.extra_params r !! "num_inference_steps"). }
  repeat case_match; rewrite ?lookup_insert_ne by done; exact Hk.
Qed.

End ProtocolClaims.

(** * The engine client and the health probe *)

Section ClientClaims.
Import Protocol.

Lemma health_check_total (self : Supervisor.AceStepProcessManager)
    (send : Http.transport) :
  Supervisor.health_check self send =
  let healthy := Supervisor.answers_healthy (send (Supervisor.health_request self)) in
  Py.Ok (healthy, Supervisor.set_healthy healthy self).
Proof.
  unfold Supervisor.health_check.
  by destruct (send (Supervisor.health_request self)).
Qed.

Lemma process_total (str_seconds : Q → string) (c : Client.AceStepClient)
    (request : AceStepRequest.t) (send : Http.transport) :
  ∃ r, Client.process str_seconds c request send = Py.Ok r.
Proof.
  unfold Client.process, Py.try_except.
  destruct (Client.process_try c request send) as [r|[]]; simpl; eauto.
Qed.

Lemma process_failure (str_seconds : Q → string) (c : Client.AceStepClient)
    (request : AceStepRequest.t) (send : Http.transport) r :
  Client.transport_failure (send (Client.generate_request c request)) →
  Client.process str_seconds c request send = Py.Ok r →
  AceStepResponse.success r = false ∧ is_Some (AceStepResponse.error r).
Proof.
  unfold Client.process, Client.process_try, Py.try_except.
  intros Hf. inversion Hf as [m E|m E|m E|resp Hs E|resp e Hj E]; simpl.
  - intros [= <-]; simpl; eauto.
  - intros [= <-]; simpl; eauto.
  - intros [= <-]; simpl; eauto.
  - apply Z.eqb_neq in Hs. rewrite Hs. simpl. intros [= <-]; simpl; eauto.
  - destruct (Http.status_code resp =? 200)%Z; simpl.
    + rewrite Hj. simpl. destruct e; intros [= <-]; simpl; eauto.
    + intros [= <-]; simpl; eauto.
Qed.

(** C8: neither the supervisor's [health_check] nor the client's
    [process] raises.  [health_check] sends one GET with a 5 second
    timeout and answers false whenever the transport fails (and exactly
    when the status is not 200 otherwise); [process] returns a result,
    and on every transport-level failure (connection refused, timeout,
    any other library error, a status other than 200, a body that is not
    JSON) that result has success=false and carries an error reason. *)
Theorem no_exception_escapes
    (self : Supervisor.AceStepProcessManager) (send_health : Http.transport)
    (str_seconds : Q → string) (c : Client.AceStepClient)
    (request : AceStepRequest.t) (send : Http.transport) :
  (∃ healthy,
      Supervisor.health_check self send_health
      = Py.Ok (healthy, Supervisor.set_healthy healthy self)
      ∧ Http.timeout (Supervisor.health_request self) = 5%Q
      ∧ healthy = match send_health (Supervisor.health_request self) with
                  | Py.Ok response => (Http.status_code response =? 200)%Z
                  | Py.Raise _ => false
                  end
      ∧ (∀ e, send_health (Supervisor.health_request self) = Py.Raise e →
              healthy = false))
  ∧ (∃ r,
      Client.process str_seconds c request send = Py.Ok r
      ∧ (Client.transport_failure (send (Client.generate_request c request)) →
         AceStepResponse.success r = false
         ∧ is_Some (AceStepResponse.error r))).
Proof.
  split.
  - eexists. split; [apply health_check_total|]. split_and!; [done|done|].
    by intros e ->.
  - destruct (process_total str_seconds c request send) as [r Hr].
    exists r. split; [done|]. intros Hf. by eapply process_failure.
Qed.

End ClientClaims.

Lemma no_exception_escapes_witness :
  ∃ r,
    Client.process (λ _, "300.0")
      {| Client.base_url := "http://localhost:8000"; Client.timeout := 300%Q |}
      (Protocol.nueva_to_acestep Examples.cover_jazz)
      (λ _, SupervisorExamples.refused) = Py.Ok r
    ∧ Protocol.AceStepResponse.success r = false.
Proof.
  destruct (no_exception_escapes SupervisorExamples.manager0
              (λ _, SupervisorExamples.refused) (λ _, "300.0")
              {| Client.base_url := "http://localhost:8000"; Client.timeout := 300%Q |}
              (Protocol.nueva_to_acestep Examples.cover_jazz)
              (λ _, SupervisorExamples.refused)) as [_ (r & Hr & Hf)].
  exists r. split; [exact Hr|].
  apply Hf. constructor.
Defined.

(** * The line protocol *)


Section BridgeClaims.
Import Bridge.
Variable json_dumps : Py.value → string.
Variable str_value : Py.value → string.

Lemma put_if_lookup_ne key v (m : gmap string Py.value) k :
  key ≠ k → put_if key v m !! k = m !! k.
Proof. intros. unfold put_if. case_match; [by rewrite lookup_insert_ne|done]. Qed.

Lemma to_json_success (r : BridgeResponse) :
  to_json r !! "success" = Some (Py.Bool (success r)).
Proof.
  unfold to_json. destruct (neural_changes r);
    rewrite !put_if_lookup_ne by done; apply lookup_singleton_eq.
Qed.

Lemma to_json_error_code (r : BridgeResponse) code :
  error_code r = Some code → code ≠ "" →
  to_json r !! "error_code" = Some (Py.Str code).
Proof.
  intros E Hne. unfold to_json. rewrite E. unfold put_if at 1. simpl.
  destruct code; [done|]. simpl. apply lookup_insert_eq.
Qed.

(** A [process] request without output path never reaches a processor,
    and fails. *)
Lemma _handle_process_no_output (self : AIBridge) (request : BridgeRequest) (w : World) :
  output_path request = Py.None_ →
  ∃ r : Py.exc BridgeResponse,
    _handle_process str_value self request w = (r, w)
    ∧ ∀ resp, r = Py.Ok resp → success resp = false.
Proof.
  intros Ho. unfold _handle_process. rewrite Ho. simpl.
  destruct (model_missing self (model request)) as [[]|e];
    [| destruct (negb (Py.truthy (input_path request))) |];
    eexists; (split; [reflexivity|]); intros resp [= <-]; done.
Qed.

Lemma _handle_process_loaded_no_output (self : AIBridge) (request : BridgeRequest)
    (w : World) name :
  model request = Py.Str name → name ≠ "" → is_Some (models self !! name) →
  output_path request = Py.None_ →
  ∃ resp, _handle_process str_value self request w = (Py.Ok resp, w)
          ∧ success resp = false
          ∧ error_code resp = Some "MISSING_PARAMETER".
Proof.
  intros Hm Hne [p Hp] Ho. unfold _handle_process. rewrite Ho, Hm. simpl.
  unfold model_missing. simpl. destruct name; [done|]. simpl.
  rewrite Hp. rewrite bool_decide_eq_false_2 by done.
  destruct (negb (Py.truthy (input_path request))); eexists; done.
Qed.

Lemma from_json_process (d : gmap string Py.value) :
  d !! "action" = Some (Py.Str "process") →
  ∃ request, from_json (Py.Dict d) = Py.Ok request
             ∧ action request = PROCESS
             ∧ model request = default Py.None_ (d !! "model")
             ∧ output_path request = default Py.None_ (d !! "output_path").
Proof.
  intros Ha. unfold from_json, get. rewrite Ha. simpl. eexists. done.
Qed.

(** C9, as the claim words it, at the request
    [{"action": "process", "input_path": "a.wav"}], which omits
    [output_path] (and [model]): the error code of the response is
    MODEL_NOT_FOUND, not MISSING_PARAMETER. *)
Lemma missing_output_path_other_code :
  BridgeExamples.no_model_no_output !! "output_path" = None
  ∧ (serve_line BridgeExamples.dumps BridgeExamples.str BridgeExamples.bridge
       (Some (Py.Dict BridgeExamples.no_model_no_output)) "" BridgeExamples.world).1
    !! "error_code" = Some (Py.Str "MODEL_NOT_FOUND").
Proof. split; vm_compute; reflexivity. Qed.

(** C9 (amended): on the line protocol every [process] request that
    omits [output_path] yields a response with success=false, and no
    model processor is invoked for it; when the request names a loaded
    model, the error code is MISSING_PARAMETER. *)
Theorem process_without_output_path
    (self : AIBridge) (d : gmap string Py.value) (why : string) (w : World) :
  d !! "action" = Some (Py.Str "process") →
  d !! "output_path" = None →
  let out := serve_line json_dumps str_value self (Some (Py.Dict d)) why w in
  out.1 !! "success" = Some (Py.Bool false)
  ∧ invocations out.2 = invocations w
  ∧ ∀ name, d !! "model" = Some (Py.Str name) → name ≠ "" →
            is_Some (models self !! name) →
            out.1 !! "error_code" = Some (Py.Str "MISSING_PARAMETER").
Proof.
  intros Ha Ho. cbv zeta.
  destruct (from_json_process d Ha) as (request & Hfrom & Hact & Hmodel & Hout).
  rewrite Ho in Hout. simpl in Hout.
  unfold serve_line. rewrite Hfrom. unfold handle_request. rewrite Hact.
  split_and!.
  - destruct (_handle_process_no_output self request w Hout) as (r & -> & Hr).
    destruct r as [resp|e]; simpl; rewrite to_json_success; [|done].
    by rewrite (Hr resp eq_refl).
  - by destruct (_handle_process_no_output self request w Hout) as ([resp|e] & -> & _).
  - intros name Hn Hne Hl. rewrite Hn in Hmodel. simpl in Hmodel.
    destruct (_handle_process_loaded_no_output self request w name
                Hmodel Hne Hl Hout) as (resp & -> & _ & Hc).
    simpl. by apply to_json_error_code.
Qed.

End BridgeClaims.

Lemma process_without_output_path_witness :
  BridgeExamples.no_output !! "action" = Some (Py.Str "process")
  ∧ BridgeExamples.no_output !! "output_path" = None
  ∧ (Bridge.serve_line BridgeExamples.dumps BridgeExamples.str BridgeExamples.bridge
       (Some (Py.Dict BridgeExamples.no_output)) "" BridgeExamples.world).1
    !! "error_code" = Some (Py.Str "MISSING_PARAMETER").
Proof.
  assert (Ha : BridgeExamples.no_output !! "action" = Some (Py.Str "process"))
    by (vm_compute; reflexivity).
  assert (Ho : BridgeExamples.no_output !! "output_path" = None)
    by (vm_compute; reflexivity).
  split_and!; [exact Ha | exact Ho |].
  refine (proj2 (proj2 (process_without_output_path BridgeExamples.dumps
            BridgeExamples.str BridgeExamples.bridge BridgeExamples.no_output ""
            BridgeExamples.world Ha Ho)) "ace-step" _ _ _).
  - vm_compute; reflexivity.
  - discriminate.
  - vm_compute. eexists. reflexivity.
Defined.

(** * The supervisor *)


Section FlightFacts.
Import Supervisor Flight.

Lemma replay_from_app ph tr1 tr2 :
  replay_from ph (tr1 ++ tr2) = ph' ← replay_from ph tr1; replay_from ph' tr2.
Proof.
  revert ph. induction tr1 as [|a tr1 IH]; intros ph; simpl; [done|].
  destruct (observe ph a); simpl; [apply IH|done].
Qed.

Lemma replay_snoc tr a ph :
  replay tr = Some ph → replay (tr ++ [a]) = observe ph a.
Proof.
  unfold replay. intros H. rewrite replay_from_app, H. simpl.
  by destruct (observe ph a).
Qed.

Lemma launches_snoc tr a :
  launches (tr ++ [a]) = (launches tr + if is_launch a then 1 else 0)%nat.
Proof.
  unfold launches. rewrite List.filter_app, length_app. simpl.
  by destruct (is_launch a).
Qed.


Lemma owners_insert ts i t t' :
  ts !! i = Some t →
  (owners (<[i := t']> ts) + (if is_owner t then 1 else 0)
   = owners ts + (if is_owner t' then 1 else 0))%nat.
Proof.
  unfold owners. revert i. induction ts as [|x ts IH]; intros [|i]; simpl; try done.
  - intros [= ->]. destruct (is_owner t), (is_owner t'); simpl; lia.
  - intros H. specialize (IH _ H). destruct (is_owner x); simpl; lia.
Qed.

Lemma owner_present ts i t :
  ts !! i = Some t → is_owner t = true → (1 ≤ owners ts)%nat.
Proof.
  unfold owners. revert i. induction ts as [|x ts IH]; intros [|i]; simpl; try done.
  - intros [= ->] ->. simpl. lia.
  - intros H Ho. specialize (IH _ H Ho). destruct (is_owner x); simpl; lia.
Qed.


Lemma leave_keeps owner r self h : keeps owner self h (leave owner r self h).
Proof.
  unfold keeps, leave. intros Htr Hch Hown.
  destruct owner; simpl.
  - rewrite (Hown eq_refl) in *. split_and!; [|by rewrite launches_snoc; simpl; lia|done].
    by rewrite (replay_snoc _ _ _ Htr).
  - split_and!; [done|done|lia].
Qed.

Lemma wait_loop_keeps owner t0 self h : keeps owner self h (wait_loop owner t0 self h).
Proof.
  unfold wait_loop. case_match; [|apply leave_keeps].
  unfold keeps. intros Htr Hch Hown. simpl. split_and!.
  - by rewrite (replay_snoc _ _ _ Htr).
  - rewrite launches_snoc. simpl. lia.
  - destruct owner; lia.
Qed.

(** Entering the wait as the owner right after the launch. *)
Lemma start_keeps self h : keeps false self h (start self h).
Proof.
  unfold start. destruct (_starting self) eqn:Hs.
  { apply wait_loop_keeps. }
  unfold keeps. rewrite Hs. simpl. intros Htr Hch _.
  pose proof (replay_snoc _ StartEntered _ Htr) as Htr1. simpl in Htr1.
  destruct (_find_python_command (record StartEntered h)) as [cmd|].
  2:{ simpl. split_and!; [|by rewrite !launches_snoc; simpl; lia|done].
      unfold replay in *. by rewrite replay_from_app, Htr1. }
  simpl. destruct (spawn h _ _) as [[life err]|e].
  2:{ simpl. split_and!; [|by rewrite !launches_snoc; simpl; lia|done].
      unfold replay in *. by rewrite replay_from_app, Htr1. }
  match goal with |- context [_wait_for_healthy true ?m ?h'] =>
    pose proof (wait_loop_keeps true (now h') m h') as K;
    change (wait_loop true (now h') m h') with (_wait_for_healthy true m h') in K;
    destruct (_wait_for_healthy true m h') as [[t' m'] h''] eqn:E
  end.
  unfold keeps in K. simpl in K.
  destruct K as (K1 & K2 & K3); [| |done|].
  - unfold replay in *. by rewrite replay_from_app, Htr1.
  - rewrite !launches_snoc, length_app. simpl. lia.
  - split_and!; [done|done|lia].
Qed.

Lemma health_check_fields self r healthy self' :
  health_check self (λ _, r) = Py.Ok (healthy, self') →
  self' = set_healthy healthy self.
Proof. rewrite health_check_total. simpl. by intros [= <- <-]. Qed.

Lemma ensure_probed_keeps r self h st :
  ensure_probed r self h = Some st → keeps false self h st.
Proof.
  unfold ensure_probed.
  destruct (health_check self (λ _, r)) as [[healthy self']|] eqn:E; [|done].
  apply health_check_fields in E as ->.
  destruct healthy; [|destruct (negb _); [|destruct (_starting _) eqn:Hs]];
    intros [= <-].
  - unfold keeps; simpl; intros; split_and!; [done|done|lia].
  - unfold keeps; simpl; intros; split_and!; [done|done|lia].
  - apply (wait_loop_keeps false _ (set_healthy false self) h).
  - apply (start_keeps (set_healthy false self) h).
Qed.

Lemma raising_keeps owner e self h : keeps owner self h (raising owner e self h).
Proof.
  unfold raising. destruct owner; [apply leave_keeps|].
  unfold keeps; simpl; intros; split_and!; [done|done|lia].
Qed.

Lemma wait_probed_keeps owner t0 r self h st :
  wait_probed owner t0 r self h = Some st → keeps owner self h st.
Proof.
  unfold wait_probed.
  destruct (health_check self (λ _, r)) as [[healthy self']|] eqn:E; [|done].
  apply health_check_fields in E as ->.
  destruct healthy; [|destruct (process_died _ _); [destruct (log_death _ _)|]];
    intros [= <-].
  - apply (leave_keeps owner true (set_healthy true self) h).
  - apply (leave_keeps owner false (set_healthy false self) h).
  - apply (raising_keeps owner e (set_healthy false self) h).
  - unfold keeps; simpl; intros; split_and!; [done|done|destruct owner; lia].
Qed.

Lemma elapse_fields dt h h' :
  elapse dt h = Some h' →
  trace h' = trace h ∧ children h' = children h ∧ (0 <= dt)%Q
  ∧ (now h' == now h + dt)%Q.
Proof.
  unfold elapse. destruct (Qle_bool 0 dt) eqn:E; [|done].
  intros [= <-]. simpl. split_and!; try done.
  - by apply Qle_bool_iff.
  - apply Qred_correct.
Qed.

Lemma Qltb_true x y : Qltb x y = true → (x < y)%Q.
Proof.
  unfold Qltb. intros H. apply negb_true_iff in H.
  apply Qnot_le_lt. intros Hle. apply Qle_bool_iff in Hle. congruence.
Qed.

Lemma Qltb_false x y : Qltb x y = false → (y <= x)%Q.
Proof.
  unfold Qltb. intros H. apply negb_false_iff in H. by apply Qle_bool_iff.
Qed.

Lemma resume_keeps ev t self h st :
  resume ev t self h = Some st → keeps (is_owner t) self h st.
Proof.
  unfold resume.
  destruct ev as [tid|tid dt r|tid dt], t as [[]| |owner t0|owner t0 wake|res|exn];
    try done; simpl.
  - intros [= <-]. unfold keeps; simpl. intros Htr Hch _. split_and!; [|by rewrite launches_snoc; simpl; lia|lia].
    by rewrite (replay_snoc _ _ _ Htr).
  - intros [= <-]. apply start_keeps.
  - destruct (elapse dt h) as [h1|] eqn:E; [|done]. simpl.
    apply elapse_fields in E as (Et & Ec & _). intros H.
    apply ensure_probed_keeps in H. unfold keeps in *. by rewrite Et, Ec in H.
  - destruct (elapse dt h) as [h1|] eqn:E; [|done]. simpl.
    apply elapse_fields in E as (Et & Ec & _). intros H.
    apply wait_probed_keeps in H. unfold keeps in *. by rewrite Et, Ec in H.
  - destruct (elapse dt h) as [h1|] eqn:E; [|done]. simpl.
    apply elapse_fields in E as (Et & Ec & _).
    destruct (Qle_bool wake (now h1)); [|done]. intros [= <-].
    pose proof (wait_loop_keeps owner t0 self h1) as K.
    unfold keeps in *. by rewrite Et, Ec in K.
Qed.

Lemma step_inv ev s s' : inv s → step ev s = Some s' → inv s'.
Proof.
  intros [Htr Hown Hch]. unfold step.
  destruct (tasks s !! tid_of ev) as [t|] eqn:Et; [|done]. simpl.
  destruct (resume ev t (manager s) (host s)) as [[[t' self'] h']|] eqn:Er; [|done].
  simpl. intros [= <-].
  apply resume_keeps in Er. unfold keeps in Er.
  destruct Er as (K1 & K2 & K3); [done|done| |].
  { intros Ho. pose proof (owner_present _ _ _ Et Ho).
    rewrite Hown in *. by destruct (_starting (manager s)); [|lia]. }
  constructor; simpl; [done| |done].
  pose proof (owners_insert _ _ _ t' Et) as Hi.
  rewrite Hown in Hi.
  destruct (_starting self'), (_starting (manager s)), (is_owner t), (is_owner t');
    lia.
Qed.

Lemma run_inv evs s s' : inv s → run evs s = Some s' → inv s'.
Proof.
  revert s. induction evs as [|ev evs IH]; intros s Hi; simpl.
  - by intros [= <-].
  - destruct (step ev s) as [s1|] eqn:E; [|done]. simpl.
    apply IH. by eapply step_inv.
Qed.

Lemma owners_ready (es : list entry) : owners (Ready <$> es) = 0%nat.
Proof. unfold owners. induction es; simpl; done. Qed.

End FlightFacts.


Section SupervisorClaims.
Import Supervisor Flight.





End SupervisorClaims.


(** ** A start that never sees the engine healthy *)

Section StartTimesOut.
Import Supervisor Flight.

Variable net : Net.
Hypothesis engine_down : ∀ i, answers_healthy (reply net i) = false.
Hypothesis latency_nonneg : ∀ i, (0 <= latency net i)%Q.
Hypothesis oversleep_nonneg : ∀ i, (0 <= oversleep net i)%Q.


Local Arguments drive : simpl never.

Lemma drive_done fuel i self h r :
  drive fuel net i (alone self h (Finished r)) = Some (alone self h (Finished r)).
Proof. by destruct fuel. Qed.

Lemma drive_ended fuel i self h t :
  ended t = true → drive fuel net i (alone self h t) = Some (alone self h t).
Proof. destruct t; try done; intros _; by destruct fuel. Qed.

Lemma drive_unfold fuel i s :
  drive (S fuel) net i s =
  match tasks s !! 0%nat with
  | Some (Finished _) | Some (Raised _) => Some s
  | Some t =>
      ev ← next_event net i t (host s); s' ← step ev s; drive fuel net (S i) s'
  | None => None
  end.
Proof. reflexivity. Qed.

Lemma elapse_some dt h :
  (0 <= dt)%Q → elapse dt h = Some (set_now (Qred (now h + dt)) h).
Proof. intros H. unfold elapse. apply Qle_bool_iff in H. by rewrite H. Qed.

Lemma drive_probe fuel i self h owner t0 :
  drive (S fuel) net i (alone self h (AwaitWaitProbe owner t0)) =
  match wait_probed owner t0 (reply net i) self
          (set_now (Qred (now h + latency net i)) h) with
  | Some (t', self', h') => drive fuel net (S i) (alone self' h' t')
  | None => None
  end.
Proof.
  rewrite drive_unfold. simpl. unfold step. simpl.
  rewrite (elapse_some _ _ (latency_nonneg i)). simpl.
  by destruct (wait_probed _ _ _ _ _) as [[[? ?] ?]|].
Qed.

Lemma drive_sleep fuel i self h owner t0 wake :
  (now h <= wake)%Q →
  drive (S fuel) net i (alone self h (AwaitSleep owner t0 wake)) =
  let h1 := set_now (Qred (now h + (wake - now h + oversleep net i))) h in
  let '(t', self', h') := wait_loop owner t0 self h1 in
  drive fuel net (S i) (alone self' h' t').
Proof.
  intros Hw. rewrite drive_unfold. simpl. unfold step. simpl.
  pose proof (oversleep_nonneg i) as Ho.
  rewrite elapse_some by lra. simpl.
  assert (Hle : Qle_bool wake (Qred (now h + (wake - now h + oversleep net i))) = true).
  { apply Qle_bool_iff. rewrite Qred_correct. lra. }
  rewrite Hle. by destruct (wait_loop _ _ _ _) as [[? ?] ?].
Qed.

(** The polling loop of the owner of a start, entered with at most [r]
    rounds of patience left, ends within [2 r + 2] events and answers
    false, also when the log line for a dead child cannot be written. *)
Lemma wait_times_out (r : nat) : ∀ fuel i self h t0,
  (0 < health_check_interval self)%Q →
  (startup_timeout self - (now h - t0)
   <= inject_Z (Z.of_nat r) * health_check_interval self)%Q →
  (2 * r + 2 ≤ fuel)%nat →
  ∃ self' h',
    drive fuel net i (alone self h (AwaitWaitProbe true t0))
    = Some (alone self' h' (Finished false))
    ∧ _starting self' = false
    ∧ _healthy self' = false
    ∧ _process self' = _process self
    ∧ children h' = children h.
Proof.
  induction r as [|r IH]; intros fuel i self h t0 Hiv Hleft Hfuel.
  all: destruct fuel as [|[|fuel]]; [lia|lia|].
  all: rewrite drive_probe; unfold wait_probed; rewrite health_check_total.
  all: cbv zeta; rewrite engine_down; cbv iota beta.
  all: destruct (process_died _ _); [destruct (log_death _ _)|].
  all: try (unfold raising, leave; cbv iota beta; rewrite drive_done;
            eexists _, _; (split; [reflexivity|]); simpl; by repeat split).
  all: pose proof (latency_nonneg i) as Hl; pose proof (oversleep_nonneg (S i)) as Ho.
  all: pose proof (Qred_correct (now h + latency net i)) as E1.
  all: rewrite drive_sleep by (simpl; lra).
  all: cbv zeta; unfold wait_loop.
  all: match goal with |- context [Qltb ?a ?b] => destruct (Qltb a b) eqn:Hlt end.
  all: try (unfold leave; cbv iota beta; rewrite drive_done;
            eexists _, _; (split; [reflexivity|]); simpl; by repeat split).
  all: apply Qltb_true in Hlt; simpl in Hlt.
  all: match type of Hlt with context [Qminus (Qred ?x) _] =>
         pose proof (Qred_correct x) as E2 end.
  - (* no patience left, yet the loop goes on: impossible *)
    change (inject_Z (Z.of_nat 0)) with 0%Q in Hleft. exfalso. lra.
  - cbv iota beta.
    edestruct (IH fuel (S (S i)) (set_healthy false self)) as (self' & h' & Hd & ?);
      [exact Hiv| |lia|].
    2:{ rewrite Hd. eexists _, _. split; [reflexivity|]. done. }
    simpl.
    rewrite Nat2Z.inj_succ, <- Z.add_1_r, inject_Z_plus in Hleft.
    change (inject_Z 1) with 1%Q in Hleft. lra.
Qed.

(** The polling loop always ends: with at most [r] rounds of patience
    left it returns or raises within [2 r + 2] events, whatever the
    probes answer. *)
Lemma wait_terminates (r : nat) : ∀ fuel i self h owner t0,
  (0 < health_check_interval self)%Q →
  (startup_timeout self - (now h - t0)
   <= inject_Z (Z.of_nat r) * health_check_interval self)%Q →
  (2 * r + 2 ≤ fuel)%nat →
  ∃ t' self' h',
    drive fuel net i (alone self h (AwaitWaitProbe owner t0))
    = Some (alone self' h' t')
    ∧ ended t' = true.
Proof.
  clear engine_down.
  induction r as [|r IH]; intros fuel i self h owner t0 Hiv Hleft Hfuel.
  all: destruct fuel as [|[|fuel]]; [lia|lia|].
  all: rewrite drive_probe; unfold wait_probed; rewrite health_check_total.
  all: cbv zeta; destruct (answers_healthy (reply net i)); cbv iota beta.
  all: try (unfold leave; destruct owner; cbv iota beta; rewrite drive_done;
            by eexists _, _, _).
  all: destruct (process_died _ _); [destruct (log_death _ _)|].
  all: try (unfold raising, leave; destruct owner; cbv iota beta;
            rewrite drive_ended by done; by eexists _, _, _).
  all: pose proof (latency_nonneg i) as Hl; pose proof (oversleep_nonneg (S i)) as Ho.
  all: pose proof (Qred_correct (now h + latency net i)) as E1.
  all: rewrite drive_sleep by (simpl; lra).
  all: cbv zeta; unfold wait_loop.
  all: match goal with |- context [Qltb ?a ?b] => destruct (Qltb a b) eqn:Hlt end.
  all: try (unfold leave; destruct owner; cbv iota beta; rewrite drive_done;
            by eexists _, _, _).
  all: apply Qltb_true in Hlt; simpl in Hlt.
  all: match type of Hlt with context [Qminus (Qred ?x) _] =>
         pose proof (Qred_correct x) as E2 end.
  - change (inject_Z (Z.of_nat 0)) with 0%Q in Hleft. exfalso. lra.
  - cbv iota beta.
    apply (IH fuel (S (S i)) (set_healthy false self)); [exact Hiv| |lia].
    simpl.
    rewrite Nat2Z.inj_succ, <- Z.add_1_r, inject_Z_plus in Hleft.
    change (inject_Z 1) with 1%Q in Hleft. lra.
Qed.

Lemma patience_covers (self : AceStepProcessManager) :
  (0 < health_check_interval self)%Q →
  (startup_timeout self
   <= inject_Z (Z.of_nat (Z.to_nat (Qceiling (startup_timeout self
                                              / health_check_interval self))))
      * health_check_interval self)%Q.
Proof.
  intros Hiv.
  set (c := Qceiling (startup_timeout self / health_check_interval self)).
  pose proof (Qle_ceiling (startup_timeout self / health_check_interval self)) as Hc.
  fold c in Hc.
  assert (Hm : (inject_Z c <= inject_Z (Z.of_nat (Z.to_nat c)))%Q).
  { rewrite <- Zle_Qle. lia. }
  assert (Hd : (startup_timeout self
                == startup_timeout self / health_check_interval self
                   * health_check_interval self)%Q).
  { field. intros E. rewrite E in Hiv. by apply Qlt_irrefl in Hiv. }
  rewrite Hd at 1. apply Qmult_le_compat_r; [|by apply Qlt_le_weak].
  eapply Qle_trans; [exact Hc | exact Hm].
Qed.

(** Entering [_wait_for_healthy] with the whole timeout ahead. *)
Lemma wait_for_healthy_returns fuel i self h owner :
  (0 < health_check_interval self)%Q →
  (patience self ≤ S fuel)%nat →
  let '(t, self1, h1) := _wait_for_healthy owner self h in
  ∃ t' self' h',
    drive fuel net i (alone self1 h1 t) = Some (alone self' h' t')
    ∧ ended t' = true.
Proof.
  clear engine_down.
  intros Hiv Hfuel. unfold patience in Hfuel.
  unfold _wait_for_healthy, wait_loop.
  destruct (Qltb (now h - now h) (startup_timeout self)).
  - apply (wait_terminates
             (Z.to_nat (Qceiling (startup_timeout self / health_check_interval self))));
      [exact Hiv| |lia].
    simpl. pose proof (patience_covers self Hiv). lra.
  - unfold leave. destruct owner; rewrite drive_done; by eexists _, _, _.
Qed.

(** [start] once it has run to its first suspension point. *)
Lemma start_returns fuel i self h :
  (0 < health_check_interval self)%Q →
  (patience self ≤ S fuel)%nat →
  let '(t, self1, h1) := start self h in
  ∃ t' self' h',
    drive fuel net i (alone self1 h1 t) = Some (alone self' h' t')
    ∧ ended t' = true.
Proof.
  clear engine_down.
  intros Hiv Hfuel. unfold start.
  destruct (_starting self).
  { by apply wait_for_healthy_returns. }
  destruct (_find_python_command _) as [cmd|].
  2:{ unfold leave. rewrite drive_done. by eexists _, _, _. }
  destruct (spawn _ _ _) as [[life err]|e].
  2:{ unfold leave. rewrite drive_done. by eexists _, _, _. }
  by apply wait_for_healthy_returns.
Qed.

(** What [call] makes of a drive that has ended. *)
Lemma call_of_ended (s : option system) t' self' h' :
  s = Some (alone self' h' t') → ended t' = true →
  ∃ res,
    (s0 ← s; match tasks s0 with
             | [Finished r] => Some (Py.Ok r, manager s0, host s0)
             | [Raised e] => Some (Py.Raise e, manager s0, host s0)
             | _ => None
             end) = Some (res, self', h').
Proof. intros -> Ht. destruct t'; try done; simpl; by eexists. Qed.

Local Ltac fold_alone :=
  repeat match goal with
  | |- context [{| manager := ?m; host := ?h; tasks := [?t] |}] =>
      change {| manager := m; host := h; tasks := [t] |} with (alone m h t)
  end.

(** [ensure_running] and [start], awaited alone, always come back:
    they return or raise. *)
Lemma call_returns fuel e self h :
  (0 < health_check_interval self)%Q →
  (patience self + 1 ≤ fuel)%nat →
  ∃ res self' h', call fuel net e self h = Some (res, self', h').
Proof.
  clear engine_down.
  intros Hiv Hfuel.
  destruct fuel as [|[|fuel]]; [unfold patience in Hfuel; lia..|].
  unfold call. rewrite drive_unfold. simpl. unfold step.
  destruct e; simpl.
  - (* ensure_running *)
    rewrite drive_unfold. simpl. unfold step. simpl.
    rewrite (elapse_some _ _ (latency_nonneg 1)). simpl.
    unfold ensure_probed. rewrite health_check_total. cbv zeta.
    set (h1 := set_now _ _).
    destruct (answers_healthy (reply net 1)); simpl.
    { fold_alone. rewrite drive_done. by eexists _, _, _. }
    destruct (negb (auto_start self)); simpl.
    { fold_alone. rewrite drive_done. by eexists _, _, _. }
    fold_alone.
    destruct (_starting self) eqn:Hs.
    + pose proof (wait_for_healthy_returns fuel 2 (set_healthy false self) h1 false
                    Hiv ltac:(unfold patience in *; simpl; lia)) as Hw.
      destruct (_wait_for_healthy false (set_healthy false self) h1) as [[t self2] h3].
      destruct Hw as (t' & self' & h' & Hd & Ht).
      destruct (call_of_ended _ _ _ _ Hd Ht) as [res Hres].
      exists res, self', h'. exact Hres.
    + pose proof (start_returns fuel 2 (set_healthy false self) h1
                    Hiv ltac:(unfold patience in *; simpl; lia)) as Hw.
      destruct (start (set_healthy false self) h1) as [[t self2] h3].
      destruct Hw as (t' & self' & h' & Hd & Ht).
      destruct (call_of_ended _ _ _ _ Hd Ht) as [res Hres].
      exists res, self', h'. exact Hres.
  - (* start *)
    fold_alone.
    pose proof (start_returns (S fuel) 1 self h
                  Hiv ltac:(unfold patience in *; lia)) as Hw.
    destruct (start self h) as [[t self2] h3].
    destruct Hw as (t' & self' & h' & Hd & Ht).
    destruct (call_of_ended _ _ _ _ Hd Ht) as [res Hres].
    exists res, self', h'. exact Hres.
Qed.

End StartTimesOut.

Section StartClaim.
Import Supervisor Flight.

(** C6, as the claim words it: the engine is launched and never
    answers a probe; [start] returns false after the timeout with
    [_starting] cleared, but the manager still holds the child it
    launched, and that child is still running. *)
Lemma start_gave_up_child_alive :
  (λ '(r, self, h), (r, _starting self, _process self, is_running self h))
    <$> call (patience SupervisorExamples.manager0) SupervisorExamples.down
          Start SupervisorExamples.manager0 SupervisorExamples.machine
  = Some (Py.Ok false, false, Some 0%nat, true).
Proof. vm_compute. reflexivity. Qed.

(** C6 (amended): when [start] launches the engine process and no
    health probe succeeds, [start] returns false within a bounded number
    of loop events; afterwards [_starting] is cleared (the supervisor is
    not stuck in Starting) and [_healthy] is false, while [_process]
    still refers to the launched child, which [start] neither terminates
    nor forgets: it is running afterwards unless it exited by itself. *)
Theorem start_gives_up
    (self : AceStepProcessManager) (h : Host) (net : Net)
    (cmd : string) (life : option Q) (err : string) :
  _starting self = false →
  (0 < health_check_interval self)%Q →
  (0 < startup_timeout self)%Q →
  (∀ i, answers_healthy (reply net i) = false) →
  (∀ i, (0 <= latency net i)%Q) →
  (∀ i, (0 <= oversleep net i)%Q) →
  _find_python_command h = Some cmd →
  spawn h (length (children h)) (command_line h cmd) = Py.Ok (life, err) →
  ∀ fuel, (patience self ≤ fuel)%nat →
  ∃ self' h',
    call fuel net Start self h = Some (Py.Ok false, self', h')
    ∧ _starting self' = false
    ∧ _healthy self' = false
    ∧ _process self' = Some (length (children h))
    ∧ children h'
      = (children h ++ [{| args := command_line h cmd;
                           exits_at := (λ d, now h + d)%Q <$> life;
                           stderr := err |}])%list
    ∧ is_running self' h'
      = negb (exited (now h') {| args := command_line h cmd;
                                 exits_at := (λ d, now h + d)%Q <$> life;
                                 stderr := err |}).
Proof.
  intros Hs Hiv Hto Hdown Hlat Hover Hcmd Hspawn fuel Hfuel.
  unfold patience in Hfuel.
  destruct fuel as [|fuel]; [lia|].
  unfold call. rewrite (drive_unfold net). simpl. unfold step. simpl.
  unfold start. rewrite Hs.
  change (_find_python_command (record StartEntered h))
    with (_find_python_command h).
  rewrite Hcmd.
  change (command_line (record StartEntered h) cmd) with (command_line h cmd).
  change (spawn (record StartEntered h)) with (spawn h).
  change (children (record StartEntered h)) with (children h).
  rewrite Hspawn.
  unfold _wait_for_healthy, wait_loop.
  match goal with |- context [Qltb ?a ?b] => destruct (Qltb a b) eqn:Hlt end.
  2:{ apply Qltb_false in Hlt. simpl in Hlt. exfalso. lra. }
  simpl.
  match goal with |- context [drive fuel net 1 ?s] =>
    match s with {| manager := ?m; host := ?h1; tasks := [AwaitWaitProbe true ?t0] |} =>
      destruct (wait_times_out net Hdown Hlat Hover
                  (Z.to_nat (Qceiling (startup_timeout self / health_check_interval self)))
                  fuel 1%nat m h1 t0) as (self' & h' & Hd & H1 & H2 & H3 & H4)
    end
  end.
  - exact Hiv.
  - simpl. pose proof (patience_covers self Hiv). lra.
  - lia.
  - unfold alone in Hd. rewrite Hd. simpl.
    exists self', h'. simpl in *. split_and!; try done.
    unfold is_running. rewrite H3, H4.
    by rewrite lookup_app_r, Nat.sub_diag by done.
Qed.

End StartClaim.

Lemma start_gives_up_witness :
  ∃ self' h',
    Supervisor.call 60 SupervisorExamples.down Supervisor.Start
      SupervisorExamples.manager0 SupervisorExamples.machine
    = Some (Py.Ok false, self', h')
    ∧ Supervisor._starting self' = false
    ∧ Supervisor._process self' = Some 0%nat.
Proof.
  destruct (start_gives_up SupervisorExamples.manager0 SupervisorExamples.machine
              SupervisorExamples.down "/usr/bin/uv" None "")
    with (fuel := 60%nat)
    as (self' & h' & Hc & Hs & _ & Hp & _).
  - reflexivity.
  - reflexivity.
  - reflexivity.
  - intros i. reflexivity.
  - intros i. discriminate.
  - intros i. discriminate.
  - reflexivity.
  - reflexivity.
  - vm_compute. lia.
  - exists self', h'. split_and!; [exact Hc | exact Hs | exact Hp].
Defined.

(** * The HTTP dispatcher *)


(** * Calls awaited alone *)

Section LoneCalls.
Import Supervisor Flight Between.

Local Arguments drive : simpl never.

(** What every uninterrupted run of a lone task preserves holds when
    the task has ended. *)
Lemma drive_invariant (P : task → AceStepProcessManager → Host → Prop) (net : Net) :
  (∀ i t self h ev t' self' h',
     P t self h → next_event net i t h = Some ev →
     resume ev t self h = Some (t', self', h') → P t' self' h') →
  ∀ fuel i self h t s',
    P t self h →
    drive fuel net i (alone self h t) = Some s' →
    ∃ t', s' = alone (manager s') (host s') t'
          ∧ ended t' = true
          ∧ P t' (manager s') (host s').
Proof.
  intros Hstep. induction fuel as [|fuel IH]; intros i self h t s' HP.
  - destruct t; try done; intros [= <-]; by eexists.
  - rewrite drive_unfold. simpl.
    assert (Hgo : (ev ← next_event net i t h;
                   s1 ← step ev (alone self h t);
                   drive fuel net (S i) s1) = Some s' →
                  ∃ t', s' = alone (manager s') (host s') t'
                        ∧ ended t' = true
                        ∧ P t' (manager s') (host s')).
    { destruct (next_event net i t h) as [ev|] eqn:Hev; [|done]. simpl.
      assert (Htid : tid_of ev = 0%nat)
        by (destruct t; simpl in Hev; simplify_eq; done).
      unfold step. rewrite Htid. simpl.
      destruct (resume ev t self h) as [[[t' self'] h']|] eqn:Er; [|done].
      simpl. intros Hd. eapply (IH _ _ _ _ _ (Hstep _ _ _ _ _ _ _ _ HP Hev Er)).
      exact Hd. }
    destruct t; try exact Hgo; intros [= <-]; by eexists.
Qed.

(** What [call] answers, read off the drive. *)
Lemma call_inv (P : task → AceStepProcessManager → Host → Prop)
    fuel net e self h res self' h' :
  (∀ i t self h ev t' self' h',
     P t self h → next_event net i t h = Some ev →
     resume ev t self h = Some (t', self', h') → P t' self' h') →
  P (Ready e) self h →
  call fuel net e self h = Some (res, self', h') →
  match res with
  | Py.Ok r => P (Finished r) self' h'
  | Py.Raise exn => P (Raised exn) self' h'
  end.
Proof.
  intros Hstep HP. unfold call.
  destruct (drive fuel net 0 _) as [s|] eqn:Hd; [|done]. simpl.
  apply (drive_invariant P net Hstep) in Hd as (t' & -> & Ht & HP'); [|done].
  simpl. destruct t'; try done; by intros [= <- <- <-].
Qed.

Local Ltac run_resume :=
  unfold resume, ensure_probed, wait_probed, start, _wait_for_healthy, wait_loop,
    raising, leave, elapse;
  rewrite ?health_check_total.

Lemma resume_reports ev t self h t' self' h' :
  reports t self → resume ev t self h = Some (t', self', h') → reports t' self'.
Proof.
  destruct ev as [tid|tid dt r|tid dt], t as [[]| |owner t0|owner t0 wake|res|exn];
    try done; run_resume; intros HP H; simplify_eq/=;
    repeat (case_match; simplify_eq/=); done.
Qed.

Lemma resume_sheltered ev t self h t' self' h' :
  sheltered t self → resume ev t self h = Some (t', self', h') → sheltered t' self'.
Proof.
  destruct ev as [tid|tid dt r|tid dt], t as [[]| |owner t0|owner t0 wake|res|exn];
    try done; run_resume; unfold process_died, log_death; intros HP H;
    simplify_eq/=; repeat (case_match; simplify_eq/=);
    try done; try (by destruct HP); try (by left); try (by right).
Qed.

End LoneCalls.

Section ServerClaims.
Import Protocol Server.

Lemma int_of_comp x y : (x == y)%Q → Py.int_of x = Py.int_of y.
Proof.
  intros H. unfold Py.int_of.
  rewrite (Qfloor_comp _ _ H), (Qceiling_comp _ _ H).
  destruct (Qle_bool 0 x) eqn:Ex, (Qle_bool 0 y) eqn:Ey; try done.
  - apply Qle_bool_iff in Ex. rewrite H in Ex. apply Qle_bool_iff in Ex. congruence.
  - apply Qle_bool_iff in Ey. rewrite <- H in Ey. apply Qle_bool_iff in Ey. congruence.
Qed.






(** The exception of [ensure_running] that the handler does not
    catch: the request arrives while a start is in flight, the engine
    process that start launched has died, and what it wrote to stderr
    is not UTF-8. *)
Example waiter_meets_undecodable_stderr :
  (λ '(out, w), (out, engine_calls w))
    <$> process_audio ServerExamples.env_down
          Examples.cover_jazz ServerExamples.mid_start
  = Some (Unhandled (Py.OtherException
                       "'utf-8' codec can't decode bytes: invalid start byte"),
          []).
Proof. vm_compute. reflexivity. Qed.


(** C3, as the claim words it: the supervisor needs two seconds and a
    launch before the engine answers, the file check takes half a
    second, and the engine client's call takes one second; the response
    reports 3500 ms, not the 1000 ms of the client call. *)
Lemma processing_time_includes_startup :
  (λ '(out, w), match out with
                | Returned r => Some (NuevaResponse.success r,
                                      NuevaResponse.processing_time_ms r)
                | _ => None
                end)
    <$> process_audio (ServerExamples.env ServerExamples.every_file)
          Examples.cover_jazz ServerExamples.world
  = Some (Some (true, 3500))
  ∧ Py.int_of (send_secs (ServerExamples.env ServerExamples.every_file) * 1000)
    = 1000.
Proof. split; vm_compute; reflexivity. Qed.

Lemma input_missing_time env request h missing h' :
  input_missing env request h = Some (missing, h') →
  let t_validation :=
    if Py.truthy_str (NuevaRequest.input_path request)
    then exists_secs env else 0%Q in
  (Supervisor.now h' == Supervisor.now h + t_validation)%Q
  ∧ (0 <= t_validation)%Q.
Proof.
  unfold input_missing. cbv zeta. destruct (Py.truthy_str _).
  - destruct (Supervisor.elapse _ h) as [h2|] eqn:Ee; [|done].
    simpl. intros [= _ <-].
    by apply elapse_fields in Ee as (_ & _ & ? & ?).
  - intros [= _ <-]. split; [ring|done].
Qed.

(** C3 (amended): the reported [processing_time_ms] is the wall-clock
    span from the entry of the handler to the return of the engine
    client's call, in whole milliseconds: the time [ensure_running]
    took, plus the time of the input file check, plus the time of the
    engine client's call.  When the engine client cannot be created
    ([get_client] raises inside the [try]), the response is the
    handler's own PROCESSING_ERROR and reports the span up to that
    failure: the time of [ensure_running] plus the time of the input
    file check, with no engine call made. *)
Theorem processing_time_spans_handler
    (env : Env) (request : NuevaRequest.t) (w : World)
    (response : NuevaResponse.t) (w' : World) :
  process_audio env request w = Some (Returned response, w') →
  ∃ pm h1,
    Supervisor.call (fuel env) (net env) Supervisor.EnsureRunning
      (process_manager w) (host w) = Some (Py.Ok true, pm, h1)
    ∧ let t_supervisor := (Supervisor.now h1 - Supervisor.now (host w))%Q in
      let t_validation :=
        if Py.truthy_str (NuevaRequest.input_path request)
        then exists_secs env else 0%Q in
      let t_engine :=
        match get_client env w with
        | Py.Ok _ => send_secs env
        | Py.Raise _ => 0%Q
        end in
      NuevaResponse.processing_time_ms response
      = Py.int_of ((t_supervisor + t_validation + t_engine) * 1000)
      ∧ (0 <= t_validation)%Q ∧ (0 <= t_engine)%Q
      ∧ match get_client env w with
        | Py.Ok _ =>
            engine_calls w' = (engine_calls w ++ [nueva_to_acestep request])%list
        | Py.Raise e =>
            engine_calls w' = engine_calls w
            ∧ NuevaResponse.success response = false
            ∧ NuevaResponse.error_code response = Some "PROCESSING_ERROR"
            ∧ NuevaResponse.error_message response = Some (Py.str_exn e)
        end.
Proof.
  unfold process_audio.
  destruct (Supervisor.call _ _ _ _ _) as [[[[running|e] pm] h1]|] eqn:Ec;
    [|done|done].
  destruct running; simpl; [|done].
  destruct (input_missing env request h1) as [[[] h2]|] eqn:Em; [done| |done].
  apply input_missing_time in Em as [Hval Hvpos]. cbv zeta in Hval, Hvpos.
  destruct (get_client env w) as [[c created]|e] eqn:Eg.
  - destruct (Supervisor.elapse (send_secs env) h2) as [h3|] eqn:Ee; [|done].
    apply elapse_fields in Ee as (_ & _ & Hpos & Hnow).
    intros Hout. exists pm, h1. split; [done|]. cbv zeta.
    destruct (process_total (str_seconds env) c
                (nueva_to_acestep request) (send env)) as [r Hr].
    rewrite Hr in Hout. simpl in Hout. injection Hout as <- <-.
    split_and!; [|done|done|done].
    assert (Hms : NuevaResponse.processing_time_ms
                    (acestep_to_nueva (unicode_lower env) r request
                       (elapsed_ms (Supervisor.now (host w)) h3))
                  = elapsed_ms (Supervisor.now (host w)) h3).
    { unfold acestep_to_nueva. by destruct (negb _). }
    rewrite Hms. unfold elapsed_ms. apply int_of_comp.
    rewrite Hnow, Hval. ring.
  - intros [= <- <-]. exists pm, h1. split; [done|]. cbv zeta. simpl.
    split_and!; try done.
    unfold elapsed_ms. apply int_of_comp. rewrite Hval. ring.
Qed.

End ServerClaims.


Lemma processing_time_spans_handler_witness :
  ∃ response w',
    Server.process_audio (ServerExamples.env ServerExamples.every_file)
      Examples.cover_jazz ServerExamples.world = Some (Server.Returned response, w')
    ∧ ∃ pm h1,
        Supervisor.call 60 ServerExamples.comes_up Supervisor.EnsureRunning
          SupervisorExamples.manager0 SupervisorExamples.machine
        = Some (Py.Ok true, pm, h1).
Proof.
  destruct (Server.process_audio (ServerExamples.env ServerExamples.every_file)
              Examples.cover_jazz ServerExamples.world) as [[[response| |] w']|] eqn:E;
    try (vm_compute in E; discriminate).
  exists response, w'. split; [reflexivity|].
  destruct (processing_time_spans_handler _ _ _ _ _ E) as (pm & h1 & Hc & _).
  by exists pm, h1.
Defined.

(** * Further properties of the protocol translation and the client *)

Section ProtocolMore.
Import Protocol.

(** A test that fails on the empty string sees of a prompt only its
    lowered form: the emptiness test in front of it changes nothing. *)
Lemma lowered_only (unicode_lower : string → string) (f : string → bool) p :
  f "" = false →
  (Py.truthy_str p && f (Py.lower unicode_lower p))%bool
  = f (Py.lower unicode_lower p).
Proof.
  intros Hf. destruct p; [|done].
  change (Py.lower unicode_lower "") with "". by rewrite Hf.
Qed.

(** X1: whatever the engine answered, the response of
    [acestep_to_nueva] succeeds exactly when the engine did, carries an
    error code exactly when it failed and an output path exactly when
    it succeeded; on success the output path is the engine's
    [audio_path] when that is a non-empty string and the request's
    [output_path] otherwise, and the engine's metadata is passed on;
    the processing time is passed through and no warning is ever
    set. *)
Theorem response_invariant
    (unicode_lower : string → string)
    (resp : AceStepResponse.t) (req : NuevaRequest.t) (ms : Z) :
  let out := acestep_to_nueva unicode_lower resp req ms in
  NuevaResponse.success out = AceStepResponse.success resp
  ∧ (is_Some (NuevaResponse.error_code out) ↔ NuevaResponse.success out = false)
  ∧ (is_Some (NuevaResponse.output_path out) ↔ NuevaResponse.success out = true)
  ∧ (NuevaResponse.success out = true →
     NuevaResponse.output_path out
     = Some (match AceStepResponse.audio_path resp with
             | Some (String c p) => String c p
             | _ => NuevaRequest.output_path req
             end)
     ∧ NuevaResponse.metadata out = AceStepResponse.metadata resp
     ∧ NuevaResponse.error_message out = None)
  ∧ NuevaResponse.processing_time_ms out = ms
  ∧ NuevaResponse.warnings out = [].
Proof.
  cbv zeta. unfold acestep_to_nueva.
  destruct (AceStepResponse.success resp) eqn:Es; simpl.
  - split_and!; try done.
    + split; [done|]. intros _. unfold Py.or_opt_str.
      destruct (AceStepResponse.audio_path resp) as [[|c p]|]; by eexists.
    + intros _. split_and!; try done.
      by destruct (AceStepResponse.audio_path resp) as [[|c p]|].
  - by split_and!.
Qed.

(** X2: the artifact tags of a response depend on the prompt only
    through [prompt.lower()]: two requests of the same mode whose
    prompts have the same lowered form get the same tags, whatever the
    interpreter's tables make of characters beyond ASCII.  For prompts
    of ASCII characters the lowered forms agree exactly when the
    prompts agree up to the case of the letters A to Z. *)
Theorem artifacts_ignore_case
    (unicode_lower : string → string)
    (resp : AceStepResponse.t) (r r' : NuevaRequest.t) (ms : Z) :
  NuevaRequest.mode r' = NuevaRequest.mode r →
  Py.lower unicode_lower <$> NuevaRequest.prompt r'
  = Py.lower unicode_lower <$> NuevaRequest.prompt r →
  NuevaResponse.intentional_artifacts (acestep_to_nueva unicode_lower resp r' ms)
  = NuevaResponse.intentional_artifacts (acestep_to_nueva unicode_lower resp r ms)
  ∧ ∀ p p', NuevaRequest.prompt r = Some p → NuevaRequest.prompt r' = Some p' →
            Py.is_ascii p = true → Py.is_ascii p' = true →
            Py.lower_letters p' = Py.lower_letters p.
Proof.
  intros Hm Hp. split.
  - unfold acestep_to_nueva.
    destruct (negb (AceStepResponse.success resp)); simpl; [done|].
    unfold artifacts_of. rewrite Hm.
    destruct (NuevaRequest.prompt r') as [p'|], (NuevaRequest.prompt r) as [p|];
      simpl in Hp; try done.
    injection Hp as Hp.
    rewrite (lowered_only unicode_lower
               (λ q, existsb (λ g, Py.contains g q) genres) p') by done.
    rewrite (lowered_only unicode_lower
               (λ q, existsb (λ g, Py.contains g q) genres) p) by done.
    rewrite (lowered_only unicode_lower (Py.contains "vintage") p') by done.
    rewrite (lowered_only unicode_lower (Py.contains "vintage") p) by done.
    by rewrite Hp.
  - intros p p' E E' Ha Ha'. rewrite E, E' in Hp. simpl in Hp.
    injection Hp as Hp. unfold Py.lower in Hp. by rewrite Ha, Ha' in Hp.
Qed.

Lemma payload_of_lookup (req : AceStepRequest.t) (k : string) :
  k ≠ "audio_path" → k ≠ "audio_duration" →
  Client.payload_of req !! k
  = match AceStepRequest.kwargs req !! k with
    | Some v => Some v
    | None => Payload.named_fields req !! k
    end.
Proof.
  intros H1 H2. unfold Client.payload_of. fold (Payload.named_fields req).
  assert (E : (AceStepRequest.kwargs req ∪ Payload.named_fields req) !! k
              = match AceStepRequest.kwargs req !! k with
                | Some v => Some v
                | None => Payload.named_fields req !! k
                end).
  { rewrite lookup_union. destruct (AceStepRequest.kwargs req !! k); simpl.
    - by destruct (Payload.named_fields req !! k).
    - by rewrite (left_id None _). }
  repeat case_match; rewrite ?lookup_insert_ne by done; exact E.
Qed.

Lemma extra_or_named (r : NuevaRequest.t) (k : string) :
  k ∉ computed_names →
  AceStepRequest.kwargs (nueva_to_acestep r) !! k = NuevaRequest.extra_params r !! k.
Proof.
  intros Hk. rewrite kwargs_merge, (computed_kwargs_other r k Hk).
  by destruct (NuevaRequest.extra_params r !! k).
Qed.

Local Ltac not_computed :=
  unfold computed_names; rewrite !not_elem_of_cons;
  repeat split; try done; apply not_elem_of_nil.

(** X3: in the body the client posts for a request, the request's
    non-empty [input_path] and non-zero [duration_seconds] always win
    over [extra_params], while an [extra_params] entry named [task],
    [prompt] or [guidance_scale] replaces what the translation
    computed for that field. *)
Theorem payload_precedence (r : NuevaRequest.t) :
  let payload := Client.payload_of (nueva_to_acestep r) in
  let extra := NuevaRequest.extra_params r in
  payload !! "audio_path"
  = (if Py.truthy_str (NuevaRequest.input_path r)
     then Some (Py.Str (NuevaRequest.input_path r))
     else extra !! "audio_path")
  ∧ payload !! "audio_duration"
    = match NuevaRequest.duration_seconds r with
      | Some d => if Py.truthy_float d then Some (Py.Float d)
                  else extra !! "audio_duration"
      | None => extra !! "audio_duration"
      end
  ∧ payload !! "task"
    = Some (default (Py.Str (NUEVA_TO_ACESTEP_TASK (NuevaRequest.mode r)))
                    (extra !! "task"))
  ∧ payload !! "prompt"
    = Some (default (match NuevaRequest.prompt r with
                     | Some p => Py.Str p | None => Py.None_ end)
                    (extra !! "prompt"))
  ∧ payload !! "guidance_scale"
    = Some (default (Py.Float (guidance_of_intensity (NuevaRequest.intensity r)))
                    (extra !! "guidance_scale")).
Proof.
  cbv zeta.
  assert (Hbase : ∀ k, k ∉ computed_names →
            (AceStepRequest.kwargs (nueva_to_acestep r)
             ∪ Payload.named_fields (nueva_to_acestep r)) !! k
            = match NuevaRequest.extra_params r !! k with
              | Some v => Some v
              | None => Payload.named_fields (nueva_to_acestep r) !! k
              end).
  { intros k Hk. rewrite lookup_union, (extra_or_named r k Hk).
    destruct (NuevaRequest.extra_params r !! k); simpl.
    - by destruct (Payload.named_fields _ !! k).
    - by rewrite (left_id None _). }
  split_and!.
  - unfold Client.payload_of. fold (Payload.named_fields (nueva_to_acestep r)).
    change (AceStepRequest.audio_path (nueva_to_acestep r))
      with (Some (NuevaRequest.input_path r)).
    change (AceStepRequest.audio_duration (nueva_to_acestep r))
      with (NuevaRequest.duration_seconds r).
    destruct (NuevaRequest.duration_seconds r) as [d|];
      [destruct (Py.truthy_float d)|];
      rewrite ?lookup_insert_ne by done;
      (destruct (Py.truthy_str (NuevaRequest.input_path r));
       [by rewrite lookup_insert_eq|]);
      (rewrite Hbase by not_computed);
      by destruct (NuevaRequest.extra_params r !! "audio_path").
  - unfold Client.payload_of. fold (Payload.named_fields (nueva_to_acestep r)).
    change (AceStepRequest.audio_path (nueva_to_acestep r))
      with (Some (NuevaRequest.input_path r)).
    change (AceStepRequest.audio_duration (nueva_to_acestep r))
      with (NuevaRequest.duration_seconds r).
    destruct (NuevaRequest.duration_seconds r) as [d|];
      [destruct (Py.truthy_float d); [by rewrite lookup_insert_eq|]|];
      (destruct (Py.truthy_str (NuevaRequest.input_path r));
       rewrite ?lookup_insert_ne by done);
      (rewrite Hbase by not_computed);
      by destruct (NuevaRequest.extra_params r !! "audio_duration").
  - rewrite payload_of_lookup by done.
    rewrite extra_or_named by not_computed.
    by destruct (NuevaRequest.extra_params r !! "task").
  - rewrite payload_of_lookup by done.
    rewrite extra_or_named by not_computed.
    by destruct (NuevaRequest.extra_params r !! "prompt").
  - rewrite payload_of_lookup by done.
    rewrite extra_or_named by not_computed.
    by destruct (NuevaRequest.extra_params r !! "guidance_scale").
Qed.

End ProtocolMore.

Lemma artifacts_ignore_case_witness :
  Protocol.NuevaResponse.intentional_artifacts
    (Protocol.acestep_to_nueva Examples.as_is Examples.engine_done
       (Examples.request Protocol.COVER (Some "JAZZ Version") 0.5%float) 12)
  = ["cover_timbre"; "different_timbre"; "genre_transformation"].
Proof.
  rewrite (proj1 (artifacts_ignore_case Examples.as_is Examples.engine_done
                    Examples.cover_jazz
                    (Examples.request Protocol.COVER (Some "JAZZ Version") 0.5%float)
                    12 eq_refl eq_refl)).
  vm_compute. reflexivity.
Defined.

Section ClientMore.
Import Protocol.

(** X4: [process] reports success exactly when the engine answered
    status 200 with a JSON object whose [audio_path] is null or a
    string and whose [metadata], when present, is an object; these two
    entries are then passed on as they are.  In every other case the
    result carries an error text, no audio path and no metadata. *)
Theorem process_succeeds_exactly
    (str_seconds : Q → string) (c : Client.AceStepClient)
    (request : AceStepRequest.t) (send : Http.transport) :
  ∃ r, Client.process str_seconds c request send = Py.Ok r
    ∧ (AceStepResponse.success r = true ↔
       ∃ resp d audio meta,
         send (Client.generate_request c request) = Py.Ok resp
         ∧ Http.status_code resp = 200
         ∧ Http.json resp = Py.Ok (Py.Dict d)
         ∧ Client.validate_audio_path (default Py.None_ (d !! "audio_path"))
           = Py.Ok audio
         ∧ Client.validate_metadata (default (Py.Dict ∅) (d !! "metadata"))
           = Py.Ok meta
         ∧ r = {| AceStepResponse.success := true;
                  AceStepResponse.audio_path := audio;
                  AceStepResponse.error := None;
                  AceStepResponse.metadata := meta |})
    ∧ (AceStepResponse.success r = false →
       is_Some (AceStepResponse.error r)
       ∧ AceStepResponse.audio_path r = None
       ∧ AceStepResponse.metadata r = ∅).
Proof.
  unfold Client.process, Client.process_try, Py.try_except.
  destruct (send (Client.generate_request c request)) as [resp|e] eqn:Es; simpl.
  2:{ destruct e; simpl; eexists; (split; [reflexivity|]); simpl;
      (split; [split; [done|by intros (? & ? & ? & ? & ? & _)]
              |intros _; split_and!; [by eexists|done|done]]). }
  destruct (Z.eqb_spec (Http.status_code resp) 200) as [Hs|Hs]; simpl.
  2:{ eexists; (split; [reflexivity|]); simpl.
      split; [split; [done|]|intros _; split_and!; [by eexists|done|done]].
      intros (? & ? & ? & ? & [= <-] & ? & _). done. }
  destruct (Http.json resp) as [data|e] eqn:Ej; simpl.
  2:{ destruct e; simpl; eexists; (split; [reflexivity|]); simpl;
      (split; [split; [done|intros (? & ? & ? & ? & [= <-] & _ & ? & _); congruence]
              |intros _; split_and!; [by eexists|done|done]]). }
  destruct data as [| | | | | |d]; simpl;
    try (eexists; (split; [reflexivity|]); simpl;
         (split; [split; [done|intros (? & ? & ? & ? & [= <-] & _ & ? & _); congruence]
                 |intros _; split_and!; [by eexists|done|done]])).
  destruct (Client.validate_audio_path (default Py.None_ (d !! "audio_path")))
    as [audio|e] eqn:Ea; simpl.
  2:{ destruct e; simpl; eexists; (split; [reflexivity|]); simpl;
      (split; [split; [done|]
              |intros _; split_and!; [by eexists|done|done]]);
      intros (? & ? & ? & ? & [= <-] & _ & Hj & Ha & _);
      rewrite Ej in Hj; simplify_eq; congruence. }
  destruct (Client.validate_metadata (default (Py.Dict ∅) (d !! "metadata")))
    as [meta|e] eqn:Em; simpl.
  2:{ destruct e; simpl; eexists; (split; [reflexivity|]); simpl;
      (split; [split; [done|]
              |intros _; split_and!; [by eexists|done|done]]);
      intros (? & ? & ? & ? & [= <-] & _ & Hj & _ & Hm & _);
      rewrite Ej in Hj; simplify_eq; congruence. }
  eexists. split; [reflexivity|]. simpl. split; [|done].
  split; [|done]. intros _. by exists resp, d, audio, meta.
Qed.

Lemma get_models_ok (c : Client.AceStepClient) (send : Http.transport) :
  ∃ models, ClientProbes.get_models c send = Py.Ok models.
Proof.
  unfold ClientProbes.get_models, Py.try_except.
  destruct (send (ClientProbes.models_request c)) as [resp|e]; simpl;
    [|by eexists].
  destruct (Http.status_code resp =? 200)%Z; simpl; [|by eexists].
  destruct (Http.json resp) as [[| | | | | |d]|e]; simpl; by eexists.
Qed.

(** X5: [get_models] never raises.  It answers the empty list unless
    the engine replied to [GET /models] (sent with a 10 second
    timeout) with status 200 and a JSON object, in which case it
    answers that object's [models] entry, or the empty list when there
    is none. *)
Theorem get_models_total (c : Client.AceStepClient) (send : Http.transport) :
  ∃ models,
    ClientProbes.get_models c send = Py.Ok models
    ∧ Http.timeout (ClientProbes.models_request c) = 10%Q
    ∧ models
      = match send (ClientProbes.models_request c) with
        | Py.Ok resp =>
            if (Http.status_code resp =? 200)%Z then
              match Http.json resp with
              | Py.Ok (Py.Dict d) => default (Py.List_ []) (d !! "models")
              | _ => Py.List_ []
              end
            else Py.List_ []
        | Py.Raise _ => Py.List_ []
        end.
Proof.
  unfold ClientProbes.get_models, Py.try_except.
  destruct (send (ClientProbes.models_request c)) as [resp|e]; simpl;
    [|by eexists].
  destruct (Http.status_code resp =? 200)%Z; simpl; [|by eexists].
  destruct (Http.json resp) as [[| | | | | |d]|e]; simpl; by eexists.
Qed.

Lemma lower_str_bool (unicode_lower : string → string) b :
  String.eqb (Py.lower unicode_lower (Py.lower unicode_lower (Main.str_bool b)))
             "true" = b.
Proof. by destruct b. Qed.

(** X6: what the command line settles reaches both singletons.  After
    [main] has rewritten the environment, the process manager created
    from it has the URL of [--acestep-url] (or its default) and has
    auto-start on exactly when [--auto-start] was given or the variable
    NUEVA_ACESTEP_AUTO_START was unset or spelled "true" in any case:
    with the variable unset, auto-start is on whatever the command line
    says.  The engine client created from the same environment sends
    its health probe to the same address as the manager, so that its
    [health_check] answers what the manager's would.  Once created,
    manager and client are returned as they are whatever the
    environment has become. *)
Theorem configuration_reaches_singletons
    (unicode_lower : string → string)
    (seconds_of_ms : string → Py.exc Q) (environ : gmap string string)
    (cl : Main.CommandLine) :
  let environ' := Main.main unicode_lower environ cl in
  let pm := (Lifecycle.get_process_manager unicode_lower environ' None).1 in
  Supervisor.acestep_url pm = Main.args_acestep_url environ cl
  ∧ Supervisor.auto_start pm
    = (Main.auto_start cl
       || String.eqb (Py.lower unicode_lower
                        (default "true" (environ !! "NUEVA_ACESTEP_AUTO_START")))
                     "true")%bool
  ∧ (environ !! "NUEVA_ACESTEP_AUTO_START" = None → Supervisor.auto_start pm = true)
  ∧ (∀ c g, ClientProbes.get_client seconds_of_ms environ' None = Py.Ok (c, g) →
            (∀ send, ClientProbes.health_check c send
                     = Py.Ok (Supervisor.answers_healthy
                                (send (Supervisor.health_request pm))))
            ∧ g = Some c
            ∧ ∀ environ2, ClientProbes.get_client seconds_of_ms environ2 g
                          = Py.Ok (c, g))
  ∧ (∀ environ2,
       Lifecycle.get_process_manager unicode_lower environ2
         (Lifecycle.get_process_manager unicode_lower environ' None).2
       = (pm, Some pm)).
Proof.
  cbv zeta. unfold Lifecycle.get_process_manager, Main.main. simpl.
  rewrite lookup_insert_eq.
  rewrite lookup_insert_ne, lookup_insert_eq by done. simpl.
  rewrite lower_str_bool.
  split_and!; try done.
  - intros E. unfold Main.args_auto_start. rewrite E.
    by destruct (Main.auto_start cl).
  - unfold ClientProbes.get_client.
    rewrite !lookup_insert_ne by done.
    intros c g.
    destruct (seconds_of_ms _) as [t|e]; simpl; [|done].
    intros [= <- <-]. split_and!; try done.
    intros send. unfold ClientProbes.health_check, Py.try_except.
    change (ClientProbes.health_request _)
      with (Supervisor.health_request
              (Supervisor.init (Main.args_acestep_url environ cl)
                 (Main.args_auto_start unicode_lower environ cl))).
    by destruct (send _).
Qed.

End ClientMore.

(** * Further properties of the supervisor *)

Section SupervisorMore.
Import Supervisor Flight Between.

Local Arguments drive : simpl never.

Lemma resume_vouched ev t self h t' self' h' :
  vouched t self → resume ev t self h = Some (t', self', h') → vouched t' self'.
Proof.
  unfold resume.
  destruct ev as [tid|tid dt r|tid dt], t as [[]| |owner t0|owner t0 wake|res|exn];
    try done;
    unfold ensure_probed, wait_probed, start, _wait_for_healthy, wait_loop,
      raising, leave, elapse;
    rewrite ?health_check_total; intros HP H; simplify_eq/=;
    repeat (case_match; simplify_eq/=); done.
Qed.

(** X7: the answer of [ensure_running], awaited alone, is the health
    flag it leaves behind: it answers true only after a probe found
    the engine healthy, and whenever it answers false the manager
    holds the engine for unhealthy. *)
Theorem ensure_running_reports_health
    (fuel : nat) (net : Net) (self : AceStepProcessManager) (h : Host)
    (r : bool) (self' : AceStepProcessManager) (h' : Host) :
  call fuel net EnsureRunning self h = Some (Py.Ok r, self', h') →
  _healthy self' = r.
Proof.
  intros Hc.
  apply (call_inv (λ t self _, reports t self) _ _ _ _ _ _ _ _) in Hc; [done| |done].
  intros i t self0 h0 ev t' self1 h1 HP _ Hr. by eapply resume_reports.
Qed.

(** X8: when the engine answers the first probe of [ensure_running]
    with status 200, the call returns true after that one probe and
    touches nothing else: no subprocess is launched, [_process] and
    [_starting] keep their values, and only the health flag is set. *)
Theorem healthy_engine_left_alone
    (fuel : nat) (net : Net) (self : AceStepProcessManager) (h : Host) :
  answers_healthy (reply net 1) = true →
  (0 <= latency net 1)%Q →
  (2 ≤ fuel)%nat →
  call fuel net EnsureRunning self h
  = Some (Py.Ok true, set_healthy true self,
          set_now (Qred (now h + latency net 1)) (record Probed h)).
Proof.
  intros Hok Hlat Hfuel. destruct fuel as [|[|fuel]]; [lia|lia|].
  unfold call. rewrite drive_unfold. simpl. unfold step. simpl.
  rewrite drive_unfold. simpl. unfold step. simpl.
  rewrite (elapse_some _ _ Hlat). simpl.
  unfold ensure_probed. rewrite health_check_total. cbv zeta.
  rewrite Hok. simpl.
  match goal with
  | |- context [{| manager := ?m; host := ?h; tasks := [?t] |}] =>
      change {| manager := m; host := h; tasks := [t] |} with (alone m h t)
  end.
  by rewrite drive_done.
Qed.

Lemma step_probing ev s s' :
  auto_start (manager s) = false →
  Forall probing (tasks s) →
  step ev s = Some s' →
  auto_start (manager s') = false
  ∧ Forall probing (tasks s')
  ∧ children (host s') = children (host s)
  ∧ _process (manager s') = _process (manager s)
  ∧ _starting (manager s') = _starting (manager s)
  ∧ launches (trace (host s')) = launches (trace (host s)).
Proof.
  intros Ha Hf. unfold step.
  destruct (tasks s !! tid_of ev) as [t|] eqn:Et; [|done]. simpl.
  destruct (resume ev t (manager s) (host s)) as [[[t' self'] h']|] eqn:Er; [|done].
  simpl. intros [= <-]. simpl.
  assert (Ht : probing t) by (eapply Forall_lookup_1; eauto).
  assert (Hr : probing t' ∧ auto_start self' = false
               ∧ children h' = children (host s)
               ∧ _process self' = _process (manager s)
               ∧ _starting self' = _starting (manager s)
               ∧ launches (trace h') = launches (trace (host s))).
  { unfold resume in Er.
    destruct ev as [tid|tid dt r|tid dt], t as [[]| |owner t0|owner t0 wake|res|exn];
      try done; simpl in *.
    - simplify_eq. simpl. rewrite launches_snoc. simpl. split_and!; try done; lia.
    - destruct (elapse dt (host s)) as [h1|] eqn:Ee; [|done]. simpl in Er.
      apply elapse_fields in Ee as (Etr & Ech & _).
      unfold ensure_probed in Er. rewrite health_check_total in Er.
      cbv zeta in Er. simpl in Er. rewrite Ha in Er. simpl in Er.
      destruct (answers_healthy r); simplify_eq; simpl;
        rewrite ?Etr; by split_and!. }
  destruct Hr as (? & ? & ? & ? & ? & ?). split_and!; try done.
  by apply Forall_insert.
Qed.

(** X9: with auto-start off, [ensure_running] never launches
    anything.  Whatever the event loop does with any number of
    concurrent calls, no subprocess is launched, [_process] and
    [_starting] keep their values, and every call is still at its first
    probe or has returned. *)
Theorem no_launch_without_auto_start
    (self : AceStepProcessManager) (h : Host) (n : nat)
    (evs : list event) (s : system) :
  auto_start self = false →
  run evs {| manager := self; host := h;
             tasks := replicate n (Ready EnsureRunning) |} = Some s →
  children (host s) = children h
  ∧ launches (trace (host s)) = launches (trace h)
  ∧ _process (manager s) = _process self
  ∧ _starting (manager s) = _starting self
  ∧ Forall probing (tasks s).
Proof.
  intros Ha.
  assert (Hgen : ∀ evs s0,
            auto_start (manager s0) = false → Forall probing (tasks s0) →
            run evs s0 = Some s →
            children (host s) = children (host s0)
            ∧ launches (trace (host s)) = launches (trace (host s0))
            ∧ _process (manager s) = _process (manager s0)
            ∧ _starting (manager s) = _starting (manager s0)
            ∧ Forall probing (tasks s)).
  { clear. induction evs as [|ev evs IH]; intros s0 Ha Hf; simpl.
    - by intros [= <-].
    - destruct (step ev s0) as [s1|] eqn:Es; [|done]. simpl.
      destruct (step_probing _ _ _ Ha Hf Es) as (Ha1 & Hf1 & E1 & E2 & E3 & E4).
      intros Hr. destruct (IH _ Ha1 Hf1 Hr) as (? & ? & ? & ? & ?).
      split_and!; [congruence|congruence|congruence|congruence|done]. }
  intros Hr. apply Hgen in Hr; [done|done|]. simpl.
  by apply Forall_replicate.
Qed.

Lemma owners_finished ts : Forall finished ts → owners ts = 0%nat.
Proof.
  unfold owners. induction 1 as [|t ts Ht _ IH]; simpl; [done|].
  by destruct t.
Qed.

(** X10: the supervisor is never stuck in Starting.  Beginning with
    no start in flight (the record so far is well bracketed and ends
    outside a start, and every launch is on record), whatever the event
    loop has done with any number of concurrent calls of
    [ensure_running] and [start], once every call has returned or
    raised [_starting] is down again. *)
Theorem never_stuck_in_starting
    (self : AceStepProcessManager) (h : Host) (es : list entry)
    (evs : list event) (s : system) :
  _starting self = false →
  replay (trace h) = Some Idle →
  launches (trace h) = length (children h) →
  run evs {| manager := self; host := h; tasks := Ready <$> es |} = Some s →
  Forall finished (tasks s) →
  _starting (manager s) = false.
Proof.
  intros Hs Htr Hch Hrun Hfin.
  assert (Hi : inv {| manager := self; host := h; tasks := Ready <$> es |}).
  { constructor; simpl; rewrite ?Hs; [done|apply owners_ready|done]. }
  apply (run_inv _ _ _ Hi) in Hrun as [_ Ho _].
  rewrite (owners_finished _ Hfin) in Ho.
  by destruct (_starting (manager s)).
Qed.

(** X11: [_find_python_command] answers the path of [uv] whenever
    that is found, and answers nothing only when [uv], [python3] and
    [python] are all missing and the interpreter does not know its own
    path; [start] then fails at once: it returns false without
    launching anything and leaves [_starting] down. *)
Theorem start_needs_a_python (self : AceStepProcessManager) (h : Host) :
  (∀ p, which h "uv" = Some p → p ≠ "" → _find_python_command h = Some p)
  ∧ (_find_python_command h = None ↔
     sys_executable h = None
     ∧ ∀ name, name ∈ ["uv"; "python3"; "python"] →
               which h name = None ∨ which h name = Some "")
  ∧ (_find_python_command h = None → _starting self = false →
     start self h
     = (Finished false, set_starting false (set_starting true self),
        record StartLeft (record StartEntered h))).
Proof.
  split_and!.
  - intros p Hp Hne. unfold _find_python_command. rewrite Hp.
    by destruct p.
  - unfold _find_python_command, Py.or_opt_str. split.
    + intros H.
      destruct (which h "uv") as [[|? ?]|] eqn:E1; simpl in H; try done;
        destruct (which h "python3") as [[|? ?]|] eqn:E2; simpl in H; try done;
        destruct (which h "python") as [[|? ?]|] eqn:E3; simpl in H; try done;
        (split; [done|]); intros name Hn;
        repeat (apply elem_of_cons in Hn as [->|Hn]); try (by apply elem_of_nil in Hn);
        rewrite ?E1, ?E2, ?E3; auto.
    + intros [Hs Hw].
      destruct (Hw "uv") as [->| ->]; [rewrite !elem_of_cons; auto| |];
        destruct (Hw "python3") as [->| ->]; try (rewrite !elem_of_cons; by auto);
        destruct (Hw "python") as [->| ->]; try (rewrite !elem_of_cons; by auto);
        done.
  - intros Hn Hs. unfold start. rewrite Hs.
    change (_find_python_command (record StartEntered h))
      with (_find_python_command h).
    by rewrite Hn.
Qed.

End SupervisorMore.

Section OnTime.
Import Supervisor Flight Between.

Variable net : Net.
Variables t_call T I L O D : Q.
Hypothesis timeout_nonneg : (0 <= T)%Q.
Hypothesis interval_nonneg : (0 <= I)%Q.
Hypothesis head_start_nonneg : (0 <= D)%Q.
Hypothesis latency_bounded : ∀ i, (0 <= latency net i <= L)%Q.
Hypothesis oversleep_bounded : ∀ i, (0 <= oversleep net i <= O)%Q.

Lemma leave_on_time owner r self h :
  startup_timeout self = T → health_check_interval self = I →
  (now h <= t_call + D + T + L + I + O)%Q →
  let '(t', self', h') := leave owner r self h in
  on_time t_call T I L O D t' self' h'.
Proof.
  intros HT HI Hn. unfold leave, on_time.
  destruct owner; (split_and!; [exact HT|exact HI|exact Hn]).
Qed.

Lemma raising_on_time owner e self h :
  startup_timeout self = T → health_check_interval self = I →
  (now h <= t_call + D + T + L + I + O)%Q →
  let '(t', self', h') := raising owner e self h in
  on_time t_call T I L O D t' self' h'.
Proof.
  intros HT HI Hn. unfold raising, leave, on_time.
  destruct owner; (split_and!; [exact HT|exact HI|exact Hn]).
Qed.

Lemma wait_loop_on_time owner t0 self h :
  startup_timeout self = T → health_check_interval self = I →
  (t0 <= t_call + D)%Q → (now h <= t_call + D + T + L + I + O)%Q →
  let '(t', self', h') := wait_loop owner t0 self h in
  on_time t_call T I L O D t' self' h'.
Proof.
  intros HT HI Ht0 Hn. unfold wait_loop.
  destruct (Qltb (now h - t0) (startup_timeout self)) eqn:Hlt.
  - apply Qltb_true in Hlt. rewrite HT in Hlt.
    unfold on_time. split_and!; [exact HT|exact HI|exact Ht0|exact Hlt].
  - by apply leave_on_time.
Qed.

Lemma start_on_time self h :
  startup_timeout self = T → health_check_interval self = I →
  (now h <= t_call + D)%Q →
  let '(t', self', h') := start self h in
  on_time t_call T I L O D t' self' h'.
Proof.
  intros HT HI Hn.
  pose proof (latency_bounded 0) as HL. pose proof (oversleep_bounded 0) as HO.
  assert (Hd : (now h <= t_call + D + T + L + I + O)%Q) by lra.
  unfold start. destruct (_starting self).
  { by apply wait_loop_on_time. }
  destruct (_find_python_command _) as [cmd|].
  2:{ by apply (leave_on_time true false). }
  destruct (spawn _ _ _) as [[life err]|e].
  2:{ by apply (leave_on_time true false). }
  by apply wait_loop_on_time.
Qed.

Lemma resume_on_time i t self h ev t' self' h' :
  on_time t_call T I L O D t self h →
  next_event net i t h = Some ev →
  resume ev t self h = Some (t', self', h') →
  on_time t_call T I L O D t' self' h'.
Proof.
  pose proof (latency_bounded i) as HL. pose proof (oversleep_bounded i) as HO.
  intros Hon Hev Hr.
  destruct t as [[]| |owner t0|owner t0 wake|res|exn]; simpl in Hev;
    [injection Hev as <-..|done|done]; simpl in Hr;
    destruct Hon as (HT & HI & Hpos).
  - (* ensure_running begins *)
    injection Hr as <- <- <-. destruct Hpos as [Hnow HLD].
    unfold on_time. split_and!; [exact HT|exact HI|exact Hnow|exact HLD].
  - (* start begins *)
    injection Hr as Hr.
    pose proof (start_on_time self h HT HI) as Hs.
    rewrite Hr in Hs. apply Hs. lra.
  - (* the first probe of ensure_running is back *)
    destruct Hpos as [Hnow HLD].
    destruct (elapse (latency net i) h) as [h1|] eqn:Ee; [|done]. simpl in Hr.
    apply elapse_fields in Ee as (_ & _ & _ & En).
    unfold ensure_probed in Hr. rewrite health_check_total in Hr.
    cbv zeta in Hr.
    assert (Hd : (now h1 <= t_call + D + T + L + I + O)%Q) by lra.
    destruct (answers_healthy (reply net i)); [|destruct (negb _)].
    + injection Hr as <- <- <-. unfold on_time.
      split_and!; [exact HT|exact HI|exact Hd].
    + injection Hr as <- <- <-. unfold on_time.
      split_and!; [exact HT|exact HI|exact Hd].
    + simpl in Hr. destruct (_starting self).
      * pose proof (wait_loop_on_time false (now h1) (set_healthy false self) h1
                      HT HI) as Hw.
        unfold _wait_for_healthy in Hr. injection Hr as Hr.
        rewrite Hr in Hw. apply Hw; [lra|done].
      * pose proof (start_on_time (set_healthy false self) h1 HT HI) as Hs.
        injection Hr as Hr. rewrite Hr in Hs. apply Hs. lra.
  - (* a probe of the polling loop is back *)
    destruct Hpos as [Ht0 Hlt].
    destruct (elapse (latency net i) h) as [h1|] eqn:Ee; [|done]. simpl in Hr.
    apply elapse_fields in Ee as (_ & _ & _ & En).
    unfold wait_probed in Hr. rewrite health_check_total in Hr.
    cbv zeta in Hr.
    assert (Hd : (now h1 <= t_call + D + T + L + I + O)%Q) by lra.
    destruct (answers_healthy (reply net i));
      [|destruct (process_died _ _); [destruct (log_death _ _) as [[]|exn]|]].
    + pose proof (leave_on_time owner true (set_healthy true self) h1 HT HI Hd) as Hl.
      injection Hr as Hr. by rewrite Hr in Hl.
    + pose proof (leave_on_time owner false (set_healthy false self) h1 HT HI Hd) as Hl.
      injection Hr as Hr. by rewrite Hr in Hl.
    + pose proof (raising_on_time owner exn (set_healthy false self) h1 HT HI Hd) as Hl.
      injection Hr as Hr. by rewrite Hr in Hl.
    + injection Hr as <- <- <-. unfold on_time.
      split_and!; [exact HT|exact HI|exact Ht0|simpl; lra|].
      change (health_check_interval (set_healthy false self))
        with (health_check_interval self).
      rewrite HI. reflexivity.
  - (* the sleep is over *)
    destruct Hpos as (Ht0 & Hlt & Hw).
    destruct (elapse _ h) as [h1|] eqn:Ee; [|done]. simpl in Hr.
    apply elapse_fields in Ee as (_ & _ & _ & En).
    destruct (Qle_bool wake (now h1)); [|done].
    pose proof (wait_loop_on_time owner t0 self h1 HT HI Ht0) as Hl.
    injection Hr as Hr. rewrite Hr in Hl. apply Hl. lra.
Qed.

End OnTime.

Section OnTimeClaim.
Import Supervisor Flight Between.

(** X12: a call of [ensure_running] or [start], awaited alone, comes
    back in bounded time.  With a positive polling interval, when no
    probe takes longer than [L] and no sleep overshoots by more than
    [O], the call returns or raises, within a number of loop events
    that depends only on the two periods of the manager, and at most
    [startup_timeout + health_check_interval + O + L] after it entered
    the polling loop, which [start] does at once and [ensure_running]
    after its first probe. *)
Theorem call_returns_in_time
    (net : Net) (e : entry) (L O : Q)
    (self : AceStepProcessManager) (h : Host) :
  (0 <= startup_timeout self)%Q →
  (0 < health_check_interval self)%Q →
  (∀ i, (0 <= latency net i <= L)%Q) →
  (∀ i, (0 <= oversleep net i <= O)%Q) →
  ∀ fuel, (patience self + 1 ≤ fuel)%nat →
  ∃ answer self' h',
    call fuel net e self h = Some (answer, self', h')
    ∧ (now h' - now h
       <= startup_timeout self + health_check_interval self + O + L
          + match e with EnsureRunning => L | Start => 0 end)%Q.
Proof.
  intros HT HI HL HO fuel Hfuel.
  destruct (call_returns net (λ i, proj1 (HL i)) (λ i, proj1 (HO i))
              fuel e self h HI Hfuel) as (answer & self' & h' & Hc).
  exists answer, self', h'. split; [exact Hc|].
  pose proof (HL 0%nat) as HL0.
  set (D := match e with EnsureRunning => L | Start => 0%Q end).
  assert (HD : (0 <= D)%Q) by (unfold D; destruct e; lra).
  apply (call_inv
           (on_time (now h) (startup_timeout self) (health_check_interval self)
              L O D) _ _ _ _ _ _ _ _) in Hc.
  - destruct answer; destruct Hc as (_ & _ & Hn); simpl in Hn; lra.
  - intros i t self0 h0 ev t' self1 h1. apply resume_on_time; try done; lra.
  - unfold on_time, D. destruct e; split_and!; try done; lra.
Qed.

End OnTimeClaim.

Lemma call_returns_in_time_witness :
  ∃ answer self' h',
    Supervisor.call 60 SupervisorExamples.down Supervisor.Start
      SupervisorExamples.manager0 SupervisorExamples.machine
    = Some (answer, self', h')
    ∧ (Supervisor.now h' - 0 <= 120 + 5 + 0 + (1 # 10) + 0)%Q.
Proof.
  apply (call_returns_in_time SupervisorExamples.down Supervisor.Start
           (1 # 10) 0 SupervisorExamples.manager0 SupervisorExamples.machine).
  - discriminate.
  - reflexivity.
  - intros i. split; discriminate.
  - intros i. split; discriminate.
  - vm_compute. lia.
Defined.

Lemma healthy_engine_left_alone_witness :
  Supervisor.call 2 LifecycleExamples.up Supervisor.EnsureRunning
    SupervisorExamples.manager0 SupervisorExamples.machine
  = Some (Py.Ok true, Supervisor.set_healthy true SupervisorExamples.manager0,
          Supervisor.set_now (1 # 10)%Q
            (Supervisor.record Supervisor.Probed SupervisorExamples.machine)).
Proof.
  rewrite (healthy_engine_left_alone 2 LifecycleExamples.up
             SupervisorExamples.manager0 SupervisorExamples.machine);
    [reflexivity|reflexivity|discriminate|lia].
Defined.

Lemma no_launch_without_auto_start_witness :
  ∃ s,
    Supervisor.run
      [Supervisor.Run 0; Supervisor.Run 1;
       Supervisor.Reply 1 1%Q SupervisorExamples.refused]
      {| Supervisor.manager := Supervisor.init "http://localhost:8000" false;
         Supervisor.host := SupervisorExamples.machine;
         Supervisor.tasks := replicate 2 (Supervisor.Ready Supervisor.EnsureRunning) |}
    = Some s
    ∧ Supervisor.children (Supervisor.host s) = [].
Proof.
  destruct (Supervisor.run
      [Supervisor.Run 0; Supervisor.Run 1;
       Supervisor.Reply 1 1%Q SupervisorExamples.refused]
      {| Supervisor.manager := Supervisor.init "http://localhost:8000" false;
         Supervisor.host := SupervisorExamples.machine;
         Supervisor.tasks := replicate 2 (Supervisor.Ready Supervisor.EnsureRunning) |})
    as [s|] eqn:E; [|vm_compute in E; discriminate].
  exists s. split; [reflexivity|].
  exact (proj1 (no_launch_without_auto_start
                  (Supervisor.init "http://localhost:8000" false)
                  SupervisorExamples.machine 2 _ s eq_refl E)).
Defined.

Lemma never_stuck_in_starting_witness :
  ∃ s,
    Supervisor.run
      [Supervisor.Run 0; Supervisor.Reply 0 (1 # 10)%Q SupervisorExamples.refused;
       Supervisor.Reply 0 1%Q (SupervisorExamples.answered 200)]
      {| Supervisor.manager := SupervisorExamples.manager0;
         Supervisor.host := SupervisorExamples.machine;
         Supervisor.tasks := Supervisor.Ready <$> [Supervisor.EnsureRunning] |}
    = Some s
    ∧ Supervisor.tasks s = [Supervisor.Finished true]
    ∧ Supervisor._starting (Supervisor.manager s) = false.
Proof.
  destruct (Supervisor.run
      [Supervisor.Run 0; Supervisor.Reply 0 (1 # 10)%Q SupervisorExamples.refused;
       Supervisor.Reply 0 1%Q (SupervisorExamples.answered 200)]
      {| Supervisor.manager := SupervisorExamples.manager0;
         Supervisor.host := SupervisorExamples.machine;
         Supervisor.tasks := Supervisor.Ready <$> [Supervisor.EnsureRunning] |})
    as [s|] eqn:E; [|vm_compute in E; discriminate].
  assert (Ht : Supervisor.tasks s = [Supervisor.Finished true]).
  { vm_compute in E. injection E as <-. reflexivity. }
  exists s. split_and!; [reflexivity|exact Ht|].
  apply (never_stuck_in_starting SupervisorExamples.manager0
           SupervisorExamples.machine [Supervisor.EnsureRunning] _ s
           eq_refl eq_refl eq_refl E).
  rewrite Ht. by repeat constructor.
Defined.

Lemma ensure_running_reports_health_witness :
  ∃ self' h',
    Supervisor.call 10 ServerExamples.comes_up Supervisor.EnsureRunning
      SupervisorExamples.manager0 SupervisorExamples.machine
    = Some (Py.Ok true, self', h')
    ∧ Supervisor._healthy self' = true.
Proof.
  destruct (Supervisor.call 10 ServerExamples.comes_up Supervisor.EnsureRunning
              SupervisorExamples.manager0 SupervisorExamples.machine)
    as [[[[[]|] self'] h']|] eqn:E; try (vm_compute in E; discriminate).
  exists self', h'. split; [reflexivity|].
  exact (ensure_running_reports_health _ _ _ _ _ _ _ E).
Defined.

(** * Stopping and restarting the engine *)

Section LifecycleFacts.
Import Supervisor Flight Between Lifecycle.

Lemma Qle_bool_false x y : Qle_bool x y = false → (y < x)%Q.
Proof. intros H. apply Qltb_true. unfold Qltb. by rewrite H. Qed.

Lemma Qle_bool_true x y : Qle_bool x y = true → (x <= y)%Q.
Proof. apply Qle_bool_iff. Qed.

Lemma delay_nonneg g : (0 <= delay g)%Q.
Proof.
  unfold delay. destruct (Qle_bool 0 g) eqn:E; [by apply Qle_bool_true|lra].
Qed.

Lemma death_after t p grace d :
  exited t p = false →
  earliest (exits_at p) ((λ g, t + delay g)%Q <$> grace) = Some d →
  (t <= d)%Q.
Proof.
  unfold exited, earliest. intros Hex.
  destruct (exits_at p) as [d0|], grace as [g|]; simpl; intros [= <-].
  - apply Qle_bool_false in Hex. pose proof (delay_nonneg g).
    destruct (Qle_bool d0 (t + delay g)); lra.
  - apply Qle_bool_false in Hex. lra.
  - pose proof (delay_nonneg g). lra.
Qed.

Lemma exited_at_own_time d p :
  exited (Qred d) (set_exit (Some d) p) = true.
Proof.
  unfold exited. simpl. apply Qle_bool_iff. rewrite Qred_correct. lra.
Qed.

(** What [stop] does, case by case. *)
Lemma stop_spec sig self h :
  ∃ h',
    stop sig self h
    = (match _process self with Some _ => forget self | None => self end, h')
    ∧ trace h' = trace h
    ∧ length (children h') = length (children h)
    ∧ (now h <= now h' <= now h + 10)%Q
    ∧ (∀ j, _process self ≠ Some j → children h' !! j = children h !! j)
    ∧ (∀ pid p,
         _process self = Some pid → children h !! pid = Some p →
         (∀ e, terminate sig pid ≠ Py.Raise e) →
         (∀ e, kill sig pid ≠ Py.Raise e) →
         ∃ p', children h' !! pid = Some p'
               ∧ exited (now h') p' = true
               ∧ args p' = args p ∧ stderr p' = stderr p).
Proof.
  unfold stop.
  destruct (_process self) as [pid|] eqn:Ep.
  2:{ exists h. split_and!; try done; lra. }
  destruct (children h !! pid) as [p|] eqn:Ec.
  2:{ exists h. split_and!; try done; try lra.
      intros pid' p' [= <-] Hp'. congruence. }
  pose proof (lookup_lt_Some _ _ _ Ec) as Hlen.
  destruct (exited (now h) p) eqn:Ex.
  { exists h. split_and!; try done; try lra.
    intros pid' p' [= <-] Hp' _ _. exists p. rewrite Ec in Hp'.
    injection Hp' as <-. by split_and!. }
  destruct (terminate sig pid) as [grace|e] eqn:Et.
  2:{ exists h. split_and!; try done; try lra.
      intros pid' p' [= <-] _ Hno _. by destruct (Hno e). }
  cbv zeta.
  assert (Hother : ∀ q j, Some pid ≠ Some j →
            <[pid := q]> (children h) !! j = children h !! j).
  { intros q j Hj. apply list_lookup_insert_ne. congruence. }
  assert (Hexpired :
    ∃ h',
      (let h0 := set_now (Qred (now h + 10))
                   (set_children
                      (<[pid := set_exit
                                  (earliest (exits_at p)
                                     ((λ g, now h + delay g)%Q <$> grace)) p]>
                         (children h)) h) in
       match kill sig pid with
       | Py.Raise _ => (forget self, h0)
       | Py.Ok _ =>
           (forget self,
            set_children
              (<[pid := set_exit (Some (now h0))
                          (set_exit
                             (earliest (exits_at p)
                                ((λ g, now h + delay g)%Q <$> grace)) p)]>
                 (children h0)) h0)
       end) = (forget self, h')
      ∧ trace h' = trace h
      ∧ length (children h') = length (children h)
      ∧ (now h <= now h' <= now h + 10)%Q
      ∧ (∀ j, Some pid ≠ Some j → children h' !! j = children h !! j)
      ∧ (∀ pid' p',
           Some pid = Some pid' → Some p = Some p' →
           (∀ e, terminate sig pid' ≠ Py.Raise e) →
           (∀ e, kill sig pid' ≠ Py.Raise e) →
           ∃ p'', children h' !! pid' = Some p''
                  ∧ exited (now h') p'' = true
                  ∧ args p'' = args p' ∧ stderr p'' = stderr p')).
  { cbv zeta. pose proof (Qred_correct (now h + 10)) as Er.
    destruct (kill sig pid) as [[]|e] eqn:Ek.
    - eexists. split; [reflexivity|]. simpl.
      split_and!; try done.
      + by rewrite !length_insert.
      + lra.
      + lra.
      + intros j Hj. by rewrite !list_lookup_insert_ne by congruence.
      + intros pid' p' [= <-] [= <-] _ _. eexists.
        split; [apply list_lookup_insert_eq; by rewrite length_insert|].
        split_and!; [|done|done].
        unfold exited. simpl. apply Qle_bool_iff. lra.
    - eexists. split; [reflexivity|]. simpl.
      split_and!; try done.
      + by rewrite length_insert.
      + lra.
      + lra.
      + intros j Hj. by rewrite !list_lookup_insert_ne by congruence.
      + intros pid' p' [= <-] _ _ Hno. by destruct (Hno e). }
  destruct (earliest (exits_at p) ((λ g, now h + delay g)%Q <$> grace))
    as [d|] eqn:Ed.
  2:{ destruct Hexpired as (h' & E & ? & ? & [? ?] & ? & Hp).
      exists h'. split_and!; try done.
      intros pid' p' [= <-] Hp'. rewrite Ec in Hp'. by apply Hp. }
  destruct (Qle_bool d (now h + 10)) eqn:Hle.
  2:{ destruct Hexpired as (h' & E & ? & ? & [? ?] & ? & Hp).
      exists h'. split_and!; try done.
      intros pid' p' [= <-] Hp'. rewrite Ec in Hp'. by apply Hp. }
  pose proof (death_after _ _ _ _ Ex Ed) as Hd.
  apply Qle_bool_true in Hle.
  pose proof (Qred_correct d) as Er.
  eexists. split; [reflexivity|]. simpl.
  split_and!; try done.
  - by rewrite length_insert.
  - lra.
  - lra.
  - intros j Hj. by rewrite !list_lookup_insert_ne by congruence.
  - intros pid' p' [= <-] Hp' _ _. rewrite Ec in Hp'. injection Hp' as <-.
    eexists. split; [by apply list_lookup_insert_eq|].
    split_and!; [apply exited_at_own_time|done|done].
Qed.


Lemma resume_at_most_one ev t self h t' self' h' :
  at_most_one t self h →
  resume ev t self h = Some (t', self', h') →
  at_most_one t' self' h'.
Proof.
  unfold resume.
  destruct ev as [tid|tid dt r|tid dt], t as [[]| |owner t0|owner t0 wake|res|exn];
    try done;
    unfold ensure_probed, wait_probed, start, _wait_for_healthy, wait_loop,
      raising, leave, elapse, at_most_one;
    rewrite ?health_check_total; intros HP H; simplify_eq/=;
    repeat (case_match; simplify_eq/=);
    try (destruct HP as [HP1 HP2]; rewrite ?HP1, ?HP2; simpl);
    try (by left); try (by right; eexists);
    try (destruct HP as [[HP1 HP2]|[c [HP1 HP2]]]; rewrite ?HP1, ?HP2; simpl;
         [by left|by right; eexists]);
    done.
Qed.

End LifecycleFacts.

Section LifecycleClaims.
Import Supervisor Flight Between Lifecycle.

(** X13: [stop] always leaves the manager without a process, whatever
    the signals meet, and is idempotent.  It blocks for at most ten
    seconds, launches and removes nothing, and leaves [_starting] as it
    was; the health flag is lowered, except that a manager which held
    no process returns at once and keeps its flag. *)
Theorem stop_forgets (sig : Signals) (self : AceStepProcessManager) (h : Host) :
  let '(self', h') := stop sig self h in
  _process self' = None
  ∧ _healthy self'
    = match _process self with Some _ => false | None => _healthy self end
  ∧ _starting self' = _starting self
  ∧ is_running self' h' = false
  ∧ (now h <= now h' <= now h + 10)%Q
  ∧ length (children h') = length (children h)
  ∧ trace h' = trace h
  ∧ stop sig self' h' = (self', h').
Proof.
  destruct (stop_spec sig self h) as (h' & -> & Htr & Hlen & [Hn1 Hn2] & _).
  destruct (_process self) as [pid|] eqn:Ep; simpl.
  - by split_and!.
  - split_and!; try done.
    + unfold is_running. by rewrite Ep.
    + unfold stop. by rewrite Ep.
Qed.

(** X14: when neither signal raises, the child the manager holds has
    exited by the time [stop] returns, within ten seconds; every other
    child of the machine, such as one left over from an earlier start,
    is left exactly as it was. *)
Theorem stop_ends_the_child
    (sig : Signals) (self : AceStepProcessManager) (h : Host)
    (pid : nat) (p : Popen) :
  _process self = Some pid →
  children h !! pid = Some p →
  (∀ e, terminate sig pid ≠ Py.Raise e) →
  (∀ e, kill sig pid ≠ Py.Raise e) →
  let '(self', h') := stop sig self h in
  (∃ p', children h' !! pid = Some p'
         ∧ exited (now h') p' = true ∧ args p' = args p)
  ∧ (now h' <= now h + 10)%Q
  ∧ ∀ j, j ≠ pid → children h' !! j = children h !! j.
Proof.
  intros Hp Hc Ht Hk.
  destruct (stop_spec sig self h) as (h' & -> & _ & _ & [_ Hnow] & Ho & Hd).
  split_and!; [|done|].
  - destruct (Hd pid p Hp Hc Ht Hk) as (p' & ? & ? & ? & _). by exists p'.
  - intros j Hj. apply Ho. congruence.
Qed.


(** X16: [POST /restart-acestep] answers "restarted" and healthy only
    when the manager holds the engine for healthy at that moment;
    every other restart that returns is answered with status 500.  The
    engine client is not used. *)
Theorem restart_acestep_answers
    (fuel : nat) (net : Net) (sig : Signals) (w : Server.World)
    (out : Endpoints.reply) (w' : Server.World) :
  Endpoints.restart_acestep fuel net sig w = Some (out, w') →
  (out = Endpoints.Json Endpoints.restarted
   ∧ _healthy (Server.process_manager w') = true
   ∨ out = Endpoints.Error 500 "Failed to restart ACE-Step API")
  ∧ Server.engine_calls w' = Server.engine_calls w
  ∧ Server._client w' = Server._client w.
Proof.
  unfold Endpoints.restart_acestep, call_restart.
  destruct (restart sig _ _) as [[t self1] h1] eqn:Er.
  destruct (drive fuel net 0 _) as [s|] eqn:Hd; [|done]. simpl.
  apply (drive_invariant (λ t self _, vouched t self ∧ sheltered t self)) in Hd
    as (t' & -> & Ht & HP & Hsh).
  - simpl. destruct t' as [| | | |[]|exn]; try done;
      intros [= <- <-]; simpl; split_and!; try done.
    + by left.
    + by right.
  - intros i t0 self0 h0 ev t' self' h' [HP Hsh] _ Hr.
    split; [by eapply resume_vouched|by eapply resume_sheltered].
  - unfold restart in Er.
    destruct (stop_spec sig (Server.process_manager w) (Server.host w))
      as (h0 & Estop & _).
    rewrite Estop in Er.
    set (self0 := match _process (Server.process_manager w) with
                  | Some _ => forget (Server.process_manager w)
                  | None => Server.process_manager w
                  end) in *.
    assert (Hrun : resume (Run 0) (Ready Start) self0 h0 = Some (t, self1, h1))
      by (simpl; by rewrite Er).
    split.
    + by eapply (resume_vouched (Run 0) (Ready Start) self0 h0).
    + eapply (resume_sheltered (Run 0) (Ready Start) self0 h0); [|exact Hrun].
      right. unfold self0. by destruct (_process (Server.process_manager w)) eqn:E.
Qed.

(** X17: a service that is started and shut down again, with no
    request served in between, leaves no engine behind.  On a machine
    where nothing has been launched, the startup handler does not raise
    and launches at most one engine process, and when neither signal
    raises, every process of the machine has exited when the shutdown
    handler returns and the manager holds none. *)
Theorem lifespan_leaves_no_engine
    (fuel : nat) (net : Net) (sig : Signals) (w w1 : Server.World)
    (came_up : Py.exc unit) :
  children (Server.host w) = [] →
  _process (Server.process_manager w) = None →
  (∀ pid e, terminate sig pid ≠ Py.Raise e) →
  (∀ pid e, kill sig pid ≠ Py.Raise e) →
  Endpoints.startup fuel net w = Some (came_up, w1) →
  let w2 := Endpoints.shutdown sig w1 in
  came_up = Py.Ok tt
  ∧ (length (children (Server.host w1)) ≤ 1)%nat
  ∧ all_exited (Server.host w2) = true
  ∧ _process (Server.process_manager w2) = None
  ∧ Server.engine_calls w2 = Server.engine_calls w.
Proof.
  intros Hc Hp Ht Hk Hstart. cbv zeta.
  assert (Hone : at_most_one (Finished true) (Server.process_manager w1)
                   (Server.host w1)
                 ∧ Server.engine_calls w1 = Server.engine_calls w
                 ∧ came_up = Py.Ok tt).
  { unfold Endpoints.startup in Hstart.
    destruct (auto_start (Server.process_manager w)).
    2:{ injection Hstart as <- <-. split_and!; [by left|done|done]. }
    destruct (call fuel net EnsureRunning _ _) as [[[answer pm] h1]|] eqn:Ec;
      [|done].
    pose proof (call_inv (λ t self h, at_most_one t self h ∧ sheltered t self)
                  _ _ _ _ _ _ _ _
                  (λ i t0 self0 h0 ev t' self' h' HP _ Hr,
                     conj (resume_at_most_one _ _ _ _ _ _ _ (proj1 HP) Hr)
                          (resume_sheltered _ _ _ _ _ _ _ (proj2 HP) Hr))
                  (conj (conj Hc Hp) (or_intror Hp)) Ec) as HP.
    destruct answer as [r|exn]; [|by destruct HP].
    injection Hstart as <- <-. simpl. by destruct HP. }
  destruct Hone as (Hone & Hcalls & ->). split; [done|].
  unfold Endpoints.shutdown.
  destruct (stop_spec sig (Server.process_manager w1) (Server.host w1))
    as (h2 & -> & _ & Hlen & _ & _ & Hd).
  simpl. unfold all_exited.
  destruct Hone as [[Hc1 Hp1]|[c [Hc1 Hp1]]]; rewrite Hc1, Hp1 in *; simpl in *.
  - destruct (children h2); [|done]. simpl. split_and!; try done. lia.
  - destruct (Hd 0%nat c eq_refl eq_refl (Ht 0%nat) (Hk 0%nat))
      as (p' & Hl & Hex & _).
    destruct (children h2) as [|q [|q' l]]; try done.
    simpl in Hl. injection Hl as ->. simpl. rewrite Hex.
    split_and!; try done.
Qed.

End LifecycleClaims.

Lemma stop_ends_the_child_witness :
  let h' := (Lifecycle.stop LifecycleExamples.stubborn LifecycleExamples.holding
               LifecycleExamples.running_machine).2 in
  (∃ p', Supervisor.children h' !! 0%nat = Some p'
         ∧ Supervisor.exited (Supervisor.now h') p' = true
         ∧ Supervisor.args p' = ["/usr/bin/uv"; "run"; "acestep-api"])
  ∧ (Supervisor.now h' <= 7 + 10)%Q.
Proof.
  pose proof (stop_ends_the_child LifecycleExamples.stubborn
                LifecycleExamples.holding LifecycleExamples.running_machine
                0 LifecycleExamples.engine eq_refl eq_refl) as H.
  cbv zeta. destruct (Lifecycle.stop _ _ _) as [self' h'].
  destruct H as (Hp & Hn & _); [intros e; discriminate..|].
  split; [exact Hp|exact Hn].
Defined.


Lemma restart_acestep_answers_witness :
  ∃ w',
    Endpoints.restart_acestep 10 LifecycleExamples.up LifecycleExamples.obedient
      {| Server.process_manager := LifecycleExamples.holding;
         Server.host := LifecycleExamples.running_machine;
         Server._client := None;
         Server.engine_calls := [] |}
    = Some (Endpoints.Json Endpoints.restarted, w')
    ∧ Server.engine_calls w' = [].
Proof.
  destruct (Endpoints.restart_acestep 10 LifecycleExamples.up
              LifecycleExamples.obedient _) as [[[body| |] w']|] eqn:E;
    try (vm_compute in E; discriminate).
  assert (Hb : body = Endpoints.restarted).
  { vm_compute in E. injection E as <- _. reflexivity. }
  subst body. exists w'. split; [reflexivity|].
  exact (proj1 (proj2 (restart_acestep_answers _ _ _ _ _ _ E))).
Defined.

Lemma lifespan_leaves_no_engine_witness :
  ∃ came_up w1,
    Endpoints.startup 60 SupervisorExamples.down ServerExamples.world
    = Some (came_up, w1)
    ∧ Lifecycle.all_exited
        (Server.host (Endpoints.shutdown LifecycleExamples.stubborn w1)) = true.
Proof.
  destruct (Endpoints.startup 60 SupervisorExamples.down ServerExamples.world)
    as [[came_up w1]|] eqn:E; [|vm_compute in E; discriminate].
  exists came_up, w1. split; [reflexivity|].
  apply (lifespan_leaves_no_engine 60 SupervisorExamples.down
           LifecycleExamples.stubborn ServerExamples.world w1 came_up);
    [reflexivity|reflexivity|intros pid e; discriminate
    |intros pid e; discriminate|exact E].
Defined.

(** * Further properties of the HTTP dispatcher *)

Section ServerMore.
Import Protocol Server.

Local Arguments Supervisor.drive : simpl never.

(** What the answer of [ensure_running] tells about the manager it
    leaves behind, and when it can raise. *)
Lemma ensure_running_answer fuel net self h answer pm h1 :
  Supervisor.call fuel net Supervisor.EnsureRunning self h = Some (answer, pm, h1) →
  match answer with
  | Py.Ok running => Supervisor._healthy pm = running
  | Py.Raise _ =>
      Supervisor._starting self = true ∧ Supervisor._process self ≠ None
  end.
Proof.
  intros Ec. destruct answer as [running|e].
  - apply (call_inv (λ t self _, Between.reports t self) _ _ _ _ _ _ _ _) in Ec;
      [done| |done].
    intros i t self0 h0 ev t' self' h' HP _ Hr. by eapply resume_reports.
  - assert (Hno : ¬ (Supervisor._starting self = false
                     ∨ Supervisor._process self = None)).
    { intros Hsh.
      apply (call_inv (λ t self _, Between.sheltered t self) _ _ _ _ _ _ _ _) in Ec;
        [done| |exact Hsh].
      intros i t self0 h0 ev t' self' h' HP _ Hr. by eapply resume_sheltered. }
    split.
    + destruct (Supervisor._starting self); [done|]. destruct Hno. by left.
    + intros Hp. destruct Hno. by right.
Qed.

Lemma input_missing_found env request h h' :
  input_missing env request h = Some (false, h') →
  Py.truthy_str (NuevaRequest.input_path request) = true →
  path_exists env (NuevaRequest.input_path request) = true.
Proof.
  unfold input_missing. intros Em Ht. rewrite Ht in Em.
  destruct (Supervisor.elapse _ _); simpl in Em; [|done].
  injection Em as Em _. by apply negb_false_iff in Em.
Qed.

Lemma input_missing_absent env request h h' :
  input_missing env request h = Some (true, h') →
  path_exists env (NuevaRequest.input_path request) = false.
Proof.
  unfold input_missing. intros Em.
  destruct (Py.truthy_str _); [|by simplify_eq].
  destruct (Supervisor.elapse _ _); simpl in Em; [|done].
  injection Em as Em _. by apply negb_true_iff in Em.
Qed.

(** X18: a request that arrives while the engine is down and
    auto-start is off is answered 503 after a single health probe: no
    subprocess is launched, the file system is not consulted and the
    engine client is neither created nor invoked. *)
Theorem unavailable_without_auto_start
    (env : Env) (request : NuevaRequest.t) (w : World) :
  Supervisor.auto_start (process_manager w) = false →
  Supervisor.answers_healthy (Supervisor.reply (net env) 1) = false →
  (0 <= Supervisor.latency (net env) 1)%Q →
  (2 ≤ fuel env)%nat →
  process_audio env request w
  = Some (HTTPException 503 unavailable,
          {| process_manager := Supervisor.set_healthy false (process_manager w);
             host := Supervisor.set_now
                       (Qred (Supervisor.now (host w)
                              + Supervisor.latency (net env) 1))
                       (Supervisor.record Supervisor.Probed (host w));
             _client := _client w;
             engine_calls := engine_calls w |}).
Proof.
  intros Ha Hdown Hlat Hfuel. unfold process_audio.
  assert (Hc : Supervisor.call (fuel env) (net env) Supervisor.EnsureRunning
                 (process_manager w) (host w)
               = Some (Py.Ok false,
                       Supervisor.set_healthy false (process_manager w),
                       Supervisor.set_now
                         (Qred (Supervisor.now (host w)
                                + Supervisor.latency (net env) 1))
                         (Supervisor.record Supervisor.Probed (host w)))).
  { destruct (fuel env) as [|[|n]]; [lia|lia|].
    unfold Supervisor.call. rewrite drive_unfold. simpl.
    unfold Supervisor.step. simpl.
    rewrite drive_unfold. simpl. unfold Supervisor.step. simpl.
    rewrite (elapse_some _ _ Hlat). simpl.
    unfold Supervisor.ensure_probed. rewrite health_check_total. cbv zeta.
    rewrite Hdown. simpl. rewrite Ha. simpl.
    match goal with
    | |- context [{| Supervisor.manager := ?m; Supervisor.host := ?h;
                     Supervisor.tasks := [?t] |}] =>
        change {| Supervisor.manager := m; Supervisor.host := h;
                  Supervisor.tasks := [t] |} with (Supervisor.alone m h t)
    end.
    by rewrite drive_done. }
  by rewrite Hc.
Qed.

(** X19: however [process_audio] ends, for a request served with
    nothing else on the loop.  A response is returned only after the
    supervisor has found the engine healthy and the input file, when
    one is named, was found.  When the engine client exists
    or can be created, it has then been invoked exactly once, with the
    translation of the request, and a failure carries the code
    ACESTEP_ERROR; when [get_client] raises, the response is the
    handler's own PROCESSING_ERROR with the text of that exception, and
    no engine call was made.  An HTTP error is 503, with the engine
    marked unhealthy, or 400, with the engine marked healthy and the
    input file missing, and leaves the engine client unused.  An
    exception escapes the handler only when [ensure_running] raised
    it, for which [_starting] must have been set and the manager must
    have held a process when the request arrived; the engine client is
    then unused as well. *)
Theorem process_audio_outcomes
    (env : Env) (request : NuevaRequest.t) (w : World)
    (out : outcome) (w' : World) :
  process_audio env request w = Some (out, w') →
  match out with
  | Returned response =>
      Supervisor._healthy (process_manager w') = true
      ∧ (Py.truthy_str (NuevaRequest.input_path request) = true →
         path_exists env (NuevaRequest.input_path request) = true)
      ∧ match get_client env w with
        | Py.Ok (_, created) =>
            engine_calls w' = (engine_calls w ++ [nueva_to_acestep request])%list
            ∧ _client w' = created
            ∧ (NuevaResponse.success response = true
               ∧ NuevaResponse.error_code response = None
               ∨ NuevaResponse.success response = false
                 ∧ NuevaResponse.error_code response = Some "ACESTEP_ERROR")
        | Py.Raise e =>
            engine_calls w' = engine_calls w
            ∧ _client w' = _client w
            ∧ response
              = processing_error (NuevaResponse.processing_time_ms response) e
        end
  | HTTPException status_code _ =>
      (status_code = 503
       ∧ Supervisor._healthy (process_manager w') = false
       ∨ status_code = 400
         ∧ Supervisor._healthy (process_manager w') = true
         ∧ path_exists env (NuevaRequest.input_path request) = false)
      ∧ engine_calls w' = engine_calls w
      ∧ _client w' = _client w
  | Unhandled e =>
      Supervisor.call (fuel env) (net env) Supervisor.EnsureRunning
        (process_manager w) (host w)
      = Some (Py.Raise e, process_manager w', host w')
      ∧ Supervisor._starting (process_manager w) = true
      ∧ Supervisor._process (process_manager w) ≠ None
      ∧ engine_calls w' = engine_calls w
      ∧ _client w' = _client w
  end.
Proof.
  unfold process_audio.
  destruct (Supervisor.call _ _ _ _ _) as [[[answer pm] h1]|] eqn:Ec; [|done].
  pose proof (ensure_running_answer _ _ _ _ _ _ _ Ec) as Ha.
  destruct answer as [[]|e]; simpl.
  - destruct (input_missing env request h1) as [[[] h2]|] eqn:Em; [| |done].
    { intros [= <- <-]. simpl. split_and!; try done. right.
      split_and!; try done. by eapply input_missing_absent. }
    destruct (get_client env w) as [[c created]|e] eqn:Eg.
    + destruct (Supervisor.elapse (send_secs env) h2) as [h3|]; [|done].
      destruct (process_total (str_seconds env) c
                  (nueva_to_acestep request) (send env)) as [r Hr].
      rewrite Hr. simpl. intros [= <- <-]. simpl.
      split_and!; try done.
      * by eapply input_missing_found.
      * unfold acestep_to_nueva.
        destruct (AceStepResponse.success r); simpl; [by left|by right].
    + intros [= <- <-]. simpl. split_and!; try done.
      by eapply input_missing_found.
  - intros [= <- <-]. simpl. split_and!; try done. by left.
  - intros [= <- <-]. simpl. by destruct Ha.
Qed.

(** X20: [GET /status] fails only when the engine client cannot be
    created ([get_client] raises, after the health probe).  Otherwise
    it asks the engine for its models only after the health probe has
    succeeded: when the probe fails, no request goes out through the
    engine client and the model list is empty.  The reported connection
    state is the probe's answer, which is also what [GET /health]
    reports and what the manager's health flag holds afterwards. *)
Theorem status_asks_only_a_healthy_engine
    (probe : Http.result) (probe_secs : Q)
    (seconds_of_ms : string → Py.exc Q) (environ : gmap string string)
    (send : Http.transport) (send_secs : Q) (w : World) :
  (0 <= probe_secs)%Q →
  (0 <= send_secs)%Q →
  let healthy := Supervisor.answers_healthy probe in
  match ClientProbes.get_client seconds_of_ms environ (_client w) with
  | Py.Ok (c, created) =>
      ∃ body w' sent,
        Endpoints.status probe probe_secs seconds_of_ms environ send send_secs w
        = Some (Endpoints.Json body, w', sent)
        ∧ body !! "acestep_connected" = Some (Py.Bool healthy)
        ∧ Supervisor._healthy (process_manager w') = healthy
        ∧ sent = (if healthy then [ClientProbes.models_request c] else [])
        ∧ (healthy = false → body !! "available_models" = Some (Py.List_ []))
        ∧ body !! "available_modes"
          = Some (str_list ["transform"; "cover"; "repaint"; "extract"; "layer";
                            "complete"])
        ∧ engine_calls w' = engine_calls w
        ∧ _client w' = created
        ∧ Supervisor.children (host w') = Supervisor.children (host w)
        ∧ ∃ w'', Endpoints.health_check probe probe_secs w
                 = Some (Endpoints.Json (Endpoints.health_body healthy), w'')
  | Py.Raise e =>
      ∃ w',
        Endpoints.status probe probe_secs seconds_of_ms environ send send_secs w
        = Some (Endpoints.Crash e, w', [])
        ∧ Supervisor._healthy (process_manager w') = healthy
        ∧ engine_calls w' = engine_calls w
        ∧ _client w' = _client w
  end.
Proof.
  intros Hp Hs. cbv zeta.
  unfold Endpoints.status, Endpoints.health_check.
  rewrite (elapse_some _ _ Hp). simpl.
  rewrite health_check_total. cbv zeta.
  destruct (ClientProbes.get_client seconds_of_ms environ (_client w))
    as [[c created]|e]; [|by eexists].
  destruct (Supervisor.answers_healthy probe) eqn:Eh.
  - rewrite (elapse_some _ _ Hs). simpl.
    destruct (get_models_ok c send) as (models & ->).
    eexists _, _, _. split; [reflexivity|].
    split_and!; try done. by eexists.
  - eexists _, _, _. split; [reflexivity|].
    split_and!; try done. by eexists.
Qed.

End ServerMore.

Lemma unavailable_without_auto_start_witness :
  ∃ w',
    Server.process_audio (ServerExamples.env ServerExamples.every_file)
      Examples.cover_jazz
      {| Server.process_manager := Supervisor.init "http://localhost:8000" false;
         Server.host := SupervisorExamples.machine;
         Server._client := None;
         Server.engine_calls := [] |}
    = Some (Server.HTTPException 503 Server.unavailable, w')
    ∧ Server.engine_calls w' = []
    ∧ Supervisor.children (Server.host w') = [].
Proof.
  eexists. split.
  - apply (unavailable_without_auto_start
             (ServerExamples.env ServerExamples.every_file) Examples.cover_jazz
             {| Server.process_manager := Supervisor.init "http://localhost:8000" false;
                Server.host := SupervisorExamples.machine;
                Server._client := None;
                Server.engine_calls := [] |});
      [reflexivity|reflexivity|discriminate|vm_compute; lia].
  - split; reflexivity.
Defined.

Lemma process_audio_outcomes_witness :
  ∃ response w',
    Server.process_audio
      (ServerExamples.env_timeout ServerExamples.every_file "five minutes")
      Examples.cover_jazz ServerExamples.world = Some (Server.Returned response, w')
    ∧ Protocol.NuevaResponse.error_code response = Some "PROCESSING_ERROR"
    ∧ Server.engine_calls w' = []
    ∧ Supervisor._healthy (Server.process_manager w') = true.
Proof.
  destruct (Server.process_audio
              (ServerExamples.env_timeout ServerExamples.every_file "five minutes")
              Examples.cover_jazz ServerExamples.world)
    as [[[response| |] w']|] eqn:E; try (vm_compute in E; discriminate).
  exists response, w'. split; [reflexivity|].
  destruct (process_audio_outcomes _ _ _ _ _ E) as (Hh & _ & Hc & _ & Hr).
  split_and!; [by rewrite Hr|exact Hc|exact Hh].
Defined.

Lemma status_asks_only_a_healthy_engine_witness :
  ∃ body w' sent,
    Endpoints.status SupervisorExamples.refused (1 # 10) ServerExamples.read_ms ∅
      (λ _, EndpointExamples.models_body) (1 # 5) ServerExamples.world
    = Some (Endpoints.Json body, w', sent)
    ∧ sent = []
    ∧ body !! "available_models" = Some (Py.List_ [])
    ∧ Server._client w' = Some ServerExamples.client.
Proof.
  destruct (status_asks_only_a_healthy_engine SupervisorExamples.refused (1 # 10)
              ServerExamples.read_ms ∅
              (λ _, EndpointExamples.models_body) (1 # 5) ServerExamples.world)
    as (body & w' & sent & E & _ & _ & Hsent & Hm & _ & _ & Hc & _);
    [discriminate|discriminate|].
  exists body, w', sent.
  split_and!; [exact E|exact Hsent|exact (Hm eq_refl)|exact Hc].
Defined.

(** * The upload endpoint *)

Section UploadClaims.
Import Protocol Server Endpoints.



(** X21: an upload whose [mode] is not the value of a mode, or whose
    [intensity] lies outside [0, 1], is rejected before the supervisor
    is consulted: the handler fails without a health probe, a launch or
    an engine call.  The staged copy of the upload is removed again
    when [remove] succeeds; when [remove] fails, which the handler
    ignores, the copy stays where it was written. *)
Theorem upload_rejected_before_supervisor
    (uenv : UploadEnv) (up : Upload) (files : gmap string string) (w : World) :
  makedirs uenv (temp_dir uenv) = Py.Ok tt →
  open_wb uenv (staged_input uenv up w) = Py.Ok tt →
  (∀ m, AceStepMode_of (mode up) ≠ Py.Ok m)
  ∨ NuevaRequest.intensity_in_range (intensity up) = false →
  ∃ e, process_uploaded_audio uenv up files w
       = Some (Crashed e,
               match remove uenv (staged_input uenv up w) with
               | Py.Ok _ => delete (staged_input uenv up w) files
               | Py.Raise _ => <[staged_input uenv up w := content up]> files
               end,
               w).
Proof.
  intros Hmk Hopen Hbad. unfold process_uploaded_audio. rewrite Hmk.
  unfold upload_try. rewrite Hopen.
  assert (Hclean : cleanup uenv (staged_input uenv up w)
                     (<[staged_input uenv up w := content up]> files)
                   = match remove uenv (staged_input uenv up w) with
                     | Py.Ok _ => delete (staged_input uenv up w) files
                     | Py.Raise _ => <[staged_input uenv up w := content up]> files
                     end).
  { unfold cleanup. rewrite lookup_insert_eq.
    destruct (remove uenv _); [apply delete_insert_eq|done]. }
  destruct (AceStepMode_of (mode up)) as [m|e] eqn:Em; simpl.
  - destruct Hbad as [Hbad|Hbad]; [by destruct (Hbad m)|].
    unfold NuevaRequest_of. rewrite Hbad.
    eexists. by rewrite Hclean.
  - eexists. by rewrite Hclean.
Qed.


End UploadClaims.

Lemma upload_rejected_before_supervisor_witness :
  ∃ e,
    Endpoints.process_uploaded_audio EndpointExamples.sticky_env
      (EndpointExamples.song "remix" 0.5%float) ∅ ServerExamples.world
    = Some (Endpoints.Crashed e,
            {[ "/tmp/nueva/input_0_song.wav" := "RIFF" ]},
            ServerExamples.world).
Proof.
  destruct (upload_rejected_before_supervisor EndpointExamples.sticky_env
              (EndpointExamples.song "remix" 0.5%float) ∅ ServerExamples.world)
    as [e He]; [reflexivity|reflexivity|left; intros m; discriminate|].
  exists e. rewrite He. reflexivity.
Defined.


(** * Further properties of the line protocol *)

Section BridgeMore.
Import Bridge.
Variable json_dumps : Py.value → string.
Variable str_value : Py.value → string.

Lemma put_if_lookup_eq key v (m : gmap string Py.value) :
  put_if key v m !! key = if Py.truthy v then Some v else m !! key.
Proof. unfold put_if. case_match; [by rewrite lookup_insert_eq|done]. Qed.

Lemma to_json_request_id (r : BridgeResponse) :
  to_json r !! "request_id"
  = if Py.truthy (response_id r) then Some (response_id r) else None.
Proof.
  unfold to_json. destruct (neural_changes r);
    rewrite !put_if_lookup_ne by done; rewrite put_if_lookup_eq;
    by rewrite lookup_singleton_ne.
Qed.

Lemma to_json_error (r : BridgeResponse) :
  to_json r !! "error"
  = if Py.truthy (opt_str (error r)) then Some (opt_str (error r)) else None.
Proof.
  unfold to_json. destruct (neural_changes r);
    rewrite put_if_lookup_ne by done; rewrite put_if_lookup_eq;
    rewrite !put_if_lookup_ne by done; by rewrite lookup_singleton_ne.
Qed.

Lemma to_json_error_code_lookup (r : BridgeResponse) :
  to_json r !! "error_code"
  = if Py.truthy (opt_str (error_code r)) then Some (opt_str (error_code r))
    else None.
Proof.
  unfold to_json. destruct (neural_changes r);
    rewrite put_if_lookup_eq;
    rewrite !put_if_lookup_ne by done; by rewrite lookup_singleton_ne.
Qed.

(** The shape of every response a handler builds. *)
Lemma handle_request_shape (self : AIBridge) (request : BridgeRequest) (w : World) :
  let resp := (handle_request json_dumps str_value self request w).1 in
  response_id resp = request_id request
  ∧ (if success resp
     then error resp = None ∧ error_code resp = None
     else error_code resp = Some "MODEL_NOT_FOUND"
          ∨ error_code resp = Some "MISSING_PARAMETER"
          ∨ error_code resp = Some "PROCESSING_ERROR").
Proof.
  cbv zeta. unfold handle_request.
  destruct (action request); simpl; try (by split).
  - unfold _handle_process.
    repeat (case_match; simplify_eq/=); split; auto.
  - unfold _handle_get_model_info.
    destruct (model_missing self (model request)) as [[]|e]; simpl;
      [split; auto| |split; auto].
    destruct (lookup_model self (model request)) as [[name m]|e]; simpl;
      split; auto.
Qed.

(** X23: every object written to the line protocol carries a boolean
    [success].  A success carries neither [error] nor [error_code]; a
    failure always carries an [error_code], which is one of
    MODEL_NOT_FOUND, MISSING_PARAMETER, PROCESSING_ERROR, INVALID_JSON
    and INTERNAL_ERROR. *)
Theorem line_protocol_taxonomy
    (self : AIBridge) (data : option Py.value) (why : string) (w : World) :
  let out := (serve_line json_dumps str_value self data why w).1 in
  ∃ ok : bool,
    out !! "success" = Some (Py.Bool ok)
    ∧ if ok
      then out !! "error_code" = None ∧ out !! "error" = None
      else ∃ code, out !! "error_code" = Some (Py.Str code)
                   ∧ code ∈ ["MODEL_NOT_FOUND"; "MISSING_PARAMETER";
                             "PROCESSING_ERROR"; "INVALID_JSON";
                             "INTERNAL_ERROR"].
Proof.
  cbv zeta. unfold serve_line.
  destruct data as [data|].
  2:{ simpl. exists false. rewrite to_json_success, to_json_error_code_lookup.
      simpl. split; [done|]. eexists. split; [done|].
      rewrite !elem_of_cons. auto 10. }
  destruct (from_json data) as [request|e].
  2:{ simpl. exists false. rewrite to_json_success, to_json_error_code_lookup.
      simpl. split; [done|]. eexists. split; [done|].
      rewrite !elem_of_cons. auto 10. }
  pose proof (handle_request_shape self request w) as [_ Hshape].
  destruct (handle_request json_dumps str_value self request w) as [resp w'].
  simpl in *. exists (success resp).
  rewrite to_json_success, to_json_error_code_lookup, to_json_error.
  split; [done|]. destruct (success resp).
  - destruct Hshape as [-> ->]. done.
  - destruct Hshape as [->|[->| ->]]; simpl; eexists; (split; [done|]);
      rewrite !elem_of_cons; auto 10.
Qed.

(** X24: a line whose document is not an object, or whose [action] is
    none of the five action names, is answered INTERNAL_ERROR (the code
    UNKNOWN_ACTION is never produced); the answer carries no
    [request_id], even when the request had one, and no processor is
    touched. *)
Theorem unknown_action_is_internal_error
    (self : AIBridge) (data : Py.value) (why : string) (w : World) :
  (∀ d, data = Py.Dict d →
        default (Py.Str "ping") (d !! "action")
        ∉ Py.Str <$> ["ping"; "process"; "list_models"; "get_model_info"; "abort"]) →
  let out := serve_line json_dumps str_value self (Some data) why w in
  out.1 !! "success" = Some (Py.Bool false)
  ∧ out.1 !! "error_code" = Some (Py.Str "INTERNAL_ERROR")
  ∧ out.1 !! "request_id" = None
  ∧ out.2 = w.
Proof.
  intros Hbad. cbv zeta. unfold serve_line.
  assert (Hraise : ∃ e, from_json data = Py.Raise e).
  { unfold from_json. destruct data as [| | | | | |d]; try by eexists.
    specialize (Hbad d eq_refl). unfold get.
    destruct (default (Py.Str "ping") (d !! "action")) as [| | | |s| |];
      simpl; try by eexists.
    repeat match goal with
           | |- context [String.eqb s ?x] =>
               destruct (String.eqb_spec s x) as [->|?];
               [exfalso; apply Hbad; simpl; rewrite !elem_of_cons; by auto 10|]
           end.
    by eexists. }
  destruct Hraise as [e ->]. simpl.
  rewrite to_json_success, to_json_error_code_lookup, to_json_request_id.
  done.
Qed.

(** X25: every request that parses is answered with its own
    [request_id], whichever handler serves it and however it ends,
    except that an id that is null, empty, zero or false is left out of
    the answer. *)
Theorem request_id_echoed
    (self : AIBridge) (d : gmap string Py.value) (why : string) (w : World) :
  default (Py.Str "ping") (d !! "action")
  ∈ Py.Str <$> ["ping"; "process"; "list_models"; "get_model_info"; "abort"] →
  let rid := default Py.None_ (d !! "request_id") in
  (serve_line json_dumps str_value self (Some (Py.Dict d)) why w).1 !! "request_id"
  = if Py.truthy rid then Some rid else None.
Proof.
  intros Hact. cbv zeta. unfold serve_line.
  assert (Hok : ∃ request, from_json (Py.Dict d) = Py.Ok request
                           ∧ request_id request = default Py.None_ (d !! "request_id")).
  { unfold from_json, get. simpl in Hact.
    repeat (apply elem_of_cons in Hact as [->|Hact]);
      try (by apply elem_of_nil in Hact); simpl; by eexists. }
  destruct Hok as (request & -> & <-).
  pose proof (handle_request_shape self request w) as [Hid _].
  destruct (handle_request json_dumps str_value self request w) as [resp w'].
  simpl in *. by rewrite to_json_request_id, Hid.
Qed.

(** X26: a [process] request that names a loaded model and gives both
    paths invokes that model exactly once, with the paths, the prompt
    and the parameters of the request.  When the model returns, the
    answer is a success attributed to the neural tool that reports the
    model, the output path and the duration of the call in whole
    milliseconds; when the model raises, the answer is a
    PROCESSING_ERROR with the text of the exception. *)
Theorem process_invokes_the_model_once
    (self : AIBridge) (request : BridgeRequest) (w : World)
    (name i o : string) (m : Processor) :
  model request = Py.Str name → name ≠ "" → models self !! name = Some m →
  input_path request = Py.Str i → i ≠ "" →
  output_path request = Py.Str o → o ≠ "" →
  let call := {| inv_model := name; inv_input_path := i; inv_output_path := o;
                 inv_prompt := prompt request;
                 inv_params := model_params request |} in
  let secs := (process m call).2 in
  action request = PROCESS →
  let '(resp, w') := handle_request json_dumps str_value self request w in
  invocations w' = (invocations w ++ [call])%list
  ∧ (now w' == now w + secs)%Q
  ∧ response_id resp = request_id request
  ∧ match (process m call).1 with
    | Py.Ok result =>
        success resp = true
        ∧ tool_used resp = Some "neural"
        ∧ ∃ changes,
            neural_changes resp = Some changes
            ∧ changes !! "model" = Some (Py.Str name)
            ∧ changes !! "output_path" = Some (Py.Str o)
            ∧ changes !! "processing_time_ms"
              = Some (Py.Int (Py.int_of (secs * 1000)))
            ∧ changes !! "intentional_artifacts"
              = Some (default (Py.List_ []) (result !! "intentional_artifacts"))
    | Py.Raise e =>
        success resp = false
        ∧ error_code resp = Some "PROCESSING_ERROR"
        ∧ error resp = Some (Py.str_exn e)
    end.
Proof.
  intros Hm Hne Hl Hi Hine Ho Hone. cbv zeta. intros Ha.
  destruct (handle_request _ _ _ _ _) as [resp w'] eqn:Eh.
  unfold handle_request in Eh. rewrite Ha in Eh.
  unfold _handle_process, model_missing, lookup_model in Eh.
  rewrite Hm, Hi, Ho in Eh. simpl in Eh.
  destruct name as [|c name]; [done|].
  destruct i as [|ci i]; [done|]. destruct o as [|co o]; [done|].
  simpl in Eh. rewrite Hl in Eh. rewrite bool_decide_eq_false_2 in Eh by done.
  simpl in Eh.
  destruct (process m _) as [[result|e] secs] eqn:Ep; simpl in *;
    injection Eh as <- <-; simpl.
  - split_and!; try done; [apply Qred_correct|].
    eexists. split; [reflexivity|]. split_and!.
    + rewrite !lookup_insert_ne by done. by rewrite lookup_insert_eq.
    + rewrite !lookup_insert_ne by done. by rewrite lookup_insert_eq.
    + rewrite !lookup_insert_ne by done. rewrite lookup_insert_eq.
      do 2 f_equal. apply int_of_comp. rewrite Qred_correct. ring.
    + by rewrite lookup_insert_eq.
  - split_and!; try done. apply Qred_correct.
Qed.

Lemma handle_request_grows
    (self : AIBridge) (request : BridgeRequest) (w : World) :
  ∃ calls,
    invocations (handle_request json_dumps str_value self request w).2
    = (invocations w ++ calls)%list.
Proof.
  assert (Hsame : ∃ calls, invocations w = (invocations w ++ calls)%list)
    by (exists []; by rewrite app_nil_r).
  unfold handle_request.
  destruct (action request); simpl; try done.
  - unfold _handle_process.
    repeat (case_match; simplify_eq/=); try done; by eexists.
  - by destruct (_handle_get_model_info _ _ _ _).
Qed.

(** X27: only a [process] request reaches a processor, and at most
    once.  Every other action leaves the clock and the record of
    invocations as they are; a [process] request either invokes nothing
    or adds one invocation of a loaded model. *)
Theorem only_process_invokes
    (self : AIBridge) (request : BridgeRequest) (w : World) :
  let w' := (handle_request json_dumps str_value self request w).2 in
  (action request ≠ PROCESS → w' = w)
  ∧ (w' = w
     ∨ ∃ call, invocations w' = (invocations w ++ [call])%list
               ∧ is_Some (models self !! inv_model call)
               ∧ model request = Py.Str (inv_model call)
               ∧ input_path request = Py.Str (inv_input_path call)
               ∧ output_path request = Py.Str (inv_output_path call)).
Proof.
  cbv zeta. unfold handle_request.
  destruct (action request); simpl;
    try (by split; [done|left]);
    try (destruct (_handle_get_model_info _ _ _ _); by split; [done|left]).
  split; [done|].
  unfold _handle_process.
  destruct (model_missing self (model request)) as [[]|e]; simpl; try by left.
  destruct (negb (Py.truthy (input_path request))); simpl; [by left|].
  destruct (negb (Py.truthy (output_path request))); simpl; [by left|].
  destruct (lookup_model self (model request)) as [[name m]|e] eqn:El; simpl;
    [|by left].
  assert (Hm : model request = Py.Str name ∧ models self !! name = Some m).
  { unfold lookup_model in El. destruct (model request); try done.
    destruct (models self !! s) eqn:E; by simplify_eq. }
  destruct Hm as [Hm Hl].
  destruct (Path (input_path request)) as [i|e] eqn:Ei; simpl; [|by left].
  destruct (Path (output_path request)) as [o|e] eqn:Eo; simpl; [|by left].
  assert (Hi : input_path request = Py.Str i)
    by (unfold Path in Ei; destruct (input_path request); by simplify_eq).
  assert (Ho : output_path request = Py.Str o)
    by (unfold Path in Eo; destruct (output_path request); by simplify_eq).
  destruct (process m _) as [[result|e] secs]; simpl;
    right; eexists; (split; [reflexivity|]); simpl; by split_and!.
Qed.

End BridgeMore.

Lemma unknown_action_is_internal_error_witness :
  (Bridge.serve_line BridgeExamples.dumps BridgeExamples.str BridgeExamples.bridge
     (Some (Py.Dict (<["request_id" := Py.Str "r1"]> {[ "action" := Py.Str "dance" ]})))
     "" BridgeExamples.world).1
  !! "error_code" = Some (Py.Str "INTERNAL_ERROR").
Proof.
  refine (proj1 (proj2 (unknown_action_is_internal_error BridgeExamples.dumps
            BridgeExamples.str BridgeExamples.bridge
            (Py.Dict (<["request_id" := Py.Str "r1"]> {[ "action" := Py.Str "dance" ]}))
            "" BridgeExamples.world _))).
  intros d [= <-]. rewrite lookup_insert_ne by done.
  rewrite lookup_singleton_eq. simpl. rewrite !elem_of_cons, elem_of_nil.
  intros [H|[H|[H|[H|[H|H]]]]]; by try discriminate.
Defined.

Lemma request_id_echoed_witness :
  (Bridge.serve_line BridgeExamples.dumps BridgeExamples.str BridgeExamples.bridge
     (Some (Py.Dict (<["request_id" := Py.Int 0]> BridgeExamples.no_output)))
     "" BridgeExamples.world).1
  !! "request_id" = None.
Proof.
  rewrite (request_id_echoed BridgeExamples.dumps BridgeExamples.str
             BridgeExamples.bridge
             (<["request_id" := Py.Int 0]> BridgeExamples.no_output)
             "" BridgeExamples.world).
  - reflexivity.
  - unfold BridgeExamples.no_output, BridgeExamples.no_model_no_output.
    rewrite !lookup_insert_ne by done. rewrite lookup_singleton_eq. simpl.
    rewrite !elem_of_cons. auto.
Defined.

Lemma process_invokes_the_model_once_witness :
  let request :=
    {| Bridge.action := Bridge.PROCESS; Bridge.request_id := Py.Str "r7";
       Bridge.prompt := Py.Str "warmer"; Bridge.input_path := Py.Str "a.wav";
       Bridge.output_path := Py.Str "b.wav"; Bridge.model := Py.Str "ace-step";
       Bridge.model_params := Py.Dict ∅; Bridge.context := Py.Dict ∅ |} in
  Bridge.invocations
    (Bridge.handle_request BridgeExamples.dumps BridgeExamples.str
       BridgeExamples.bridge request BridgeExamples.world).2
  = [{| Bridge.inv_model := "ace-step"; Bridge.inv_input_path := "a.wav";
        Bridge.inv_output_path := "b.wav"; Bridge.inv_prompt := Py.Str "warmer";
        Bridge.inv_params := Py.Dict ∅ |}].
Proof.
  cbv zeta.
  pose proof (process_invokes_the_model_once BridgeExamples.dumps BridgeExamples.str
                BridgeExamples.bridge
                {| Bridge.action := Bridge.PROCESS; Bridge.request_id := Py.Str "r7";
                   Bridge.prompt := Py.Str "warmer"; Bridge.input_path := Py.Str "a.wav";
                   Bridge.output_path := Py.Str "b.wav"; Bridge.model := Py.Str "ace-step";
                   Bridge.model_params := Py.Dict ∅; Bridge.context := Py.Dict ∅ |}
                BridgeExamples.world "ace-step" "a.wav" "b.wav" BridgeExamples.stub
                eq_refl ltac:(discriminate) eq_refl eq_refl ltac:(discriminate)
                eq_refl ltac:(discriminate) eq_refl) as H.
  destruct (Bridge.handle_request _ _ _ _ _) as [resp w'].
  exact (proj1 H).
Defined.

(** * The read loop *)

Section StdioClaims.
Import Bridge.
Variable json_loads : string → Stdio.loaded.
Variable json_dumps : Py.value → string.
Variable str_value : Py.value → string.

Lemma rstrip_empty r :
  Stdio.rstrip r = "" ↔ forallb Stdio.is_space (list_ascii_of_string r) = true.
Proof.
  induction r as [|c r IH]; simpl; [done|].
  destruct (Stdio.rstrip r) as [|c' r'] eqn:E.
  - destruct (Stdio.is_space c); simpl; [|done].
    split; [intros _; by apply IH|done].
  - split; [done|]. intros H. apply andb_true_iff in H as [_ H].
    by apply IH in H.
Qed.

Lemma strip_blank line :
  Py.truthy_str (Stdio.strip line)
  = negb (forallb Stdio.is_space (list_ascii_of_string line)).
Proof.
  unfold Stdio.strip. induction line as [|c line IH]; simpl; [done|].
  destruct (Stdio.is_space c) eqn:Ec; simpl; [done|].
  rewrite Ec. by destruct (Stdio.rstrip line).
Qed.

Lemma serve_shape self line w :
  let out := Stdio.serve json_loads json_dumps str_value self line w in
  (∃ ok, out.1 !! "success" = Some (Py.Bool ok))
  ∧ ∃ calls, invocations out.2 = (invocations w ++ calls)%list.
Proof.
  cbv zeta. unfold Stdio.serve, serve_line.
  destruct (json_loads line) as [data|why|e]; simpl.
  - destruct (from_json data) as [request|e]; simpl.
    + pose proof (handle_request_grows json_dumps str_value self request w)
        as Hw.
      destruct (handle_request json_dumps str_value self request w) as [resp w'].
      simpl in *. split; [rewrite to_json_success; by eexists|done].
    + split; [rewrite to_json_success; by eexists|].
      exists []. by rewrite app_nil_r.
  - split; [rewrite to_json_success; by eexists|].
    exists []. by rewrite app_nil_r.
  - split; [rewrite to_json_success; by eexists|].
    exists []. by rewrite app_nil_r.
Qed.

(** X28: the read loop answers every line that is not blank with
    exactly one object, in order, and blank lines (nothing but white
    space) with none; each object carries a boolean [success], also
    when the line is not JSON at all; and the record of processor
    invocations only ever grows. *)
Theorem main_answers_each_line
    (self : AIBridge) (stdin : list string) (w : World) :
  let '(outs, w') := Stdio.main json_loads json_dumps str_value self stdin w in
  length outs
  = length (List.filter
              (λ line, negb (forallb Stdio.is_space (list_ascii_of_string line)))
              stdin)
  ∧ Forall (λ out, ∃ ok, out !! "success" = Some (Py.Bool ok)) outs
  ∧ ∃ calls, invocations w' = (invocations w ++ calls)%list.
Proof.
  revert w. induction stdin as [|line stdin IH]; intros w; simpl.
  - split_and!; [done|done|]. exists []. by rewrite app_nil_r.
  - rewrite strip_blank.
    destruct (forallb Stdio.is_space (list_ascii_of_string line)); simpl.
    + apply IH.
    + pose proof (serve_shape self (Stdio.strip line) w) as [Hok [c1 Hc1]].
      destruct (Stdio.serve _ _ _ _ _ _) as [out w1]. simpl in *.
      specialize (IH w1).
      destruct (Stdio.main _ _ _ _ _ _) as [outs w2].
      destruct IH as (Hlen & Hall & c2 & Hc2).
      split_and!; [simpl; by rewrite Hlen|by constructor|].
      exists (c1 ++ c2)%list. by rewrite Hc2, Hc1, (assoc_L (++)).
Qed.

End StdioClaims.

(** * The processor's parameters and artifact tags *)

Section AceStepClaims.
Import AceStep.

(** X29: for every mode and every prompt that is a string,
    [_detect_artifacts] returns a list without repetition that depends
    on the prompt only through [prompt.lower()]: every prompt with the
    same lowered form gets the same tags, whatever the interpreter's
    tables make of characters beyond ASCII.  The mode contributes tags
    only when it is "cover" or "repaint". *)
Theorem detected_artifacts
    (unicode_lower : string → string) (mode : Py.value) (p : string) :
  ∃ tags,
    _detect_artifacts unicode_lower mode (Py.Str p) = Py.Ok tags
    ∧ NoDup tags
    ∧ (∀ p', Py.lower unicode_lower p' = Py.lower unicode_lower p →
             _detect_artifacts unicode_lower mode (Py.Str p') = Py.Ok tags)
    ∧ (mode ≠ Py.Str "cover" → mode ≠ Py.Str "repaint" →
       _detect_artifacts unicode_lower (Py.Str "transform") (Py.Str p)
       = Py.Ok tags).
Proof.
  unfold _detect_artifacts. eexists. split; [reflexivity|]. split_and!.
  - generalize (Py.lower unicode_lower p). intros q.
    destruct (mode_is mode "cover"), (mode_is mode "repaint"),
      (Py.contains "vintage" q || Py.contains "retro" q)%bool,
      (Py.contains "lo-fi" q || Py.contains "lofi" q)%bool,
      (Py.contains "vinyl" q), (Py.contains "tape" q),
      (Py.contains "8-bit" q || Py.contains "chiptune" q)%bool;
      apply (bool_decide_eq_true_1 _); vm_compute; reflexivity.
  - intros p' Hp. by rewrite Hp.
  - intros Hc Hr.
    assert (E1 : mode_is mode "cover" = false).
    { unfold mode_is. destruct mode; try done.
      destruct (String.eqb_spec s "cover"); [congruence|done]. }
    assert (E2 : mode_is mode "repaint" = false).
    { unfold mode_is. destruct mode; try done.
      destruct (String.eqb_spec s "repaint"); [congruence|done]. }
    by rewrite E1, E2.
Qed.

Lemma merged_lookup (d : gmap string Py.value) (k : string) :
  ∃ params, merged (Py.Dict d) = Py.Ok params
            ∧ params !! k = match d !! k with
                            | Some v => Some v
                            | None => DEFAULT_PARAMS !! k
                            end.
Proof.
  unfold merged. simpl.
  destruct (bool_decide (size d = 0%nat)) eqn:E; simpl.
  - apply bool_decide_eq_true in E. apply map_size_empty_inv in E as ->.
    eexists. split; [reflexivity|]. by rewrite lookup_empty.
  - eexists. split; [reflexivity|]. rewrite lookup_union.
    destruct (d !! k); simpl; [by destruct (DEFAULT_PARAMS !! k)|].
    by rewrite (left_id None _).
Qed.

(** X30: in the body [_process_via_api] posts, the caller's
    parameters win and the class defaults fill in the rest: without a
    caller's value the request asks for mode "transform", strength 0.7,
    melody preservation, 8 inference steps and guidance scale 3.0.  The
    caller's prompt is used when it is not empty, otherwise the
    [prompt] parameter, otherwise "transform the audio". *)
Theorem api_request_defaults
    (input_path output_path : string) (prompt : Py.value)
    (d : gmap string Py.value) :
  ∃ body,
    request_data input_path output_path prompt (Py.Dict d) = Py.Ok body
    ∧ body !! "audio_path" = Some (Py.Str input_path)
    ∧ body !! "output_path" = Some (Py.Str output_path)
    ∧ body !! "mode" = Some (default (Py.Str "transform") (d !! "mode"))
    ∧ body !! "strength" = Some (default (Py.Float seven_tenths) (d !! "intensity"))
    ∧ body !! "preserve_melody"
      = Some (default (Py.Bool true) (d !! "preserve_melody"))
    ∧ body !! "num_inference_steps"
      = Some (default (Py.Int 8) (d !! "inference_steps"))
    ∧ body !! "guidance_scale"
      = Some (default (Py.Float 3%float) (d !! "guidance_scale"))
    ∧ body !! "prompt"
      = Some (if Py.truthy prompt then prompt
              else default (Py.Str "transform the audio") (d !! "prompt")).
Proof.
  unfold request_data.
  assert (Hparams : ∃ params, merged (Py.Dict d) = Py.Ok params
            ∧ ∀ k, params !! k = match d !! k with
                                 | Some v => Some v
                                 | None => DEFAULT_PARAMS !! k
                                 end).
  { destruct (merged_lookup d "mode") as (params & E & _).
    exists params. split; [done|]. intros k.
    destruct (merged_lookup d k) as (params' & E' & Hk). congruence. }
  destruct Hparams as (params & -> & Hk). simpl.
  eexists. split; [reflexivity|].
  split_and!;
    rewrite ?lookup_insert_ne by done; rewrite lookup_insert_eq;
    try done; try (rewrite Hk; by destruct (d !! _)).
  unfold effective_prompt. rewrite Hk.
  destruct (Py.truthy prompt); [done|]. by destruct (d !! "prompt").
Qed.

End AceStepClaims.
